(** * The job orchestrator of the AI Project Refactorer extension

    A shallow embedding of [src/extension.ts]: the environment provisioner
    ([setupPythonEnvironment]), the supervisor of the agent process with its
    three stream handlers and the exit classifier ([runAgent]), followed by
    the properties of the orchestrator that the specification states.

    JavaScript strings are sequences of UTF-16 code units; they are modelled
    as lists of [N].  Effects of the extension on its host (progress reports,
    the output channel, notifications, spawned processes) are recorded in a
    trace. *)

From Stdlib Require Import Strings.String Strings.Ascii Numbers.DecimalString.
From Stdlib Require Import List ZArith NArith Bool Lia.
Import ListNotations.

Local Open Scope N_scope.
#[local] Set Warnings "-register-all".

(* ================================================================= *)
(** ** JavaScript strings *)

Module JStr.

(** A string value: its UTF-16 code units. *)
Definition jstring := list N.

(** Literals: the code units of an ASCII text. *)
Definition js (s : string) : jstring :=
  map N_of_ascii (list_ascii_of_string s).
Arguments js s%_string.

(** The same, with every apostrophe standing for a double quote (U+0022),
    to write down JSON texts. *)
Definition jsq (s : string) : jstring :=
  map (fun c => if c =? 39 then 34 else c) (js s).
Arguments jsq s%_string.

Definition jeqb (a b : jstring) : bool :=
  if list_eq_dec N.eq_dec a b then true else false.

Lemma jeqb_eq a b : jeqb a b = true <-> a = b.
Proof. unfold jeqb. destruct (list_eq_dec N.eq_dec a b); split; congruence. Qed.

(** [WhiteSpace] and [LineTerminator] code points of ECMAScript: what
    [String.prototype.trim] removes. *)
Definition is_ws (c : N) : bool :=
  match c with
  | 9 | 10 | 11 | 12 | 13 | 32 => true
  | 160 (* U+00A0 *) | 5760 (* U+1680 *) => true
  | 8232 | 8233 (* U+2028, U+2029 *) => true
  | 8239 (* U+202F *) | 8287 (* U+205F *) => true
  | 12288 (* U+3000 *) | 65279 (* U+FEFF *) => true
  | _ => (8192 <=? c) && (c <=? 8202) (* U+2000 .. U+200A *)
  end.

Fixpoint trimStart (s : jstring) : jstring :=
  match s with
  | c :: r => if is_ws c then trimStart r else s
  | [] => []
  end.

Definition trimEnd (s : jstring) : jstring := rev (trimStart (rev s)).

(** [s.trim()] *)
Definition trim (s : jstring) : jstring := trimEnd (trimStart s).

(** [s.split('\n')]: never empty; the empty string splits into [[""]]. *)
Fixpoint split_nl (s : jstring) : list jstring :=
  match s with
  | [] => [[]]
  | c :: r =>
      if c =? 10 then [] :: split_nl r
      else match split_nl r with
           | h :: t => (c :: h) :: t
           | [] => [[c]]
           end
  end.

(** [arr.pop()] on the array [split] returns: its last element. *)
Definition pop (l : list jstring) : jstring := last l [].

Fixpoint starts_with (p s : jstring) : bool :=
  match p, s with
  | [], _ => true
  | a :: p', b :: s' => (a =? b) && starts_with p' s'
  | _ :: _, [] => false
  end.

(** [s.includes(sub)] *)
Fixpoint includes (s sub : jstring) : bool :=
  starts_with sub s ||
  match s with
  | [] => false
  | _ :: r => includes r sub
  end.

(** [parts.join(sep)] on an array of strings. *)
Fixpoint join (sep : jstring) (parts : list jstring) : jstring :=
  match parts with
  | [] => []
  | [p] => p
  | p :: rest => p ++ sep ++ join sep rest
  end.

(** [`${n}`] for an integer-valued number. *)
Definition of_Z (z : Z) : jstring :=
  js (NilZero.string_of_int (Z.to_int z)).

End JStr.
Export JStr.

(* ================================================================= *)
(** ** [JSON.parse] and the conversions the stdout handler applies *)

Module Json.

(** A parsed JSON value.  A number keeps its literal; an object keeps its
    members in source order (a later duplicate key overrides an earlier
    one when the object is read). *)
Inductive JSON : Type :=
| JNull
| JBool (b : bool)
| JNumber (literal : jstring)
| JString (s : jstring)
| JArray (elements : list JSON)
| JObject (members : list (jstring * JSON)).

Inductive Token : Type :=
| TLBrace | TRBrace | TLBracket | TRBracket | TColon | TComma
| TString (s : jstring)
| TNumber (literal : jstring)
| TTrue | TFalse | TNull.

(** *** Scanner: one transition per code unit *)

(** Where the scanner is inside a number: an optional minus sign, an
    integer part (a single 0, or a nonzero digit and more digits), an
    optional fraction (a dot and at least one digit), an optional exponent
    (e or E, an optional sign, at least one digit). *)
Inductive NumState : Type :=
| NMinus | NZero | NInt | NDot | NFrac | NE | NESign | NExp.

Inductive LexState : Type :=
| LStart
| LStr (acc : jstring)                    (* in a string, reversed *)
| LEsc (acc : jstring)                    (* after a backslash *)
| LHex (acc : jstring) (n : nat) (v : N)  (* n hex digits of \u read *)
| LNum (ns : NumState) (acc : jstring)    (* in a number, reversed *)
| LLit (rest : jstring) (t : Token).      (* rest of true/false/null *)

Definition is_digit (c : N) : bool := (48 <=? c) && (c <=? 57).

Definition hex_value (c : N) : option N :=
  if (48 <=? c) && (c <=? 57) then Some (c - 48)
  else if (65 <=? c) && (c <=? 70) then Some (c - 55)
  else if (97 <=? c) && (c <=? 102) then Some (c - 87)
  else None.

Definition num_accepting (ns : NumState) : bool :=
  match ns with
  | NZero | NInt | NFrac | NExp => true
  | NMinus | NDot | NE | NESign => false
  end.

Definition num_step (ns : NumState) (c : N) : option NumState :=
  let dot_or_exp :=
    match c with
    | 46 (* . *) => Some NDot
    | 69 | 101 (* E e *) => Some NE
    | _ => None
    end in
  match ns with
  | NMinus => if c =? 48 then Some NZero
              else if is_digit c then Some NInt else None
  | NZero => dot_or_exp
  | NInt => if is_digit c then Some NInt else dot_or_exp
  | NDot => if is_digit c then Some NFrac else None
  | NFrac => if is_digit c then Some NFrac
             else match c with 69 | 101 => Some NE | _ => None end
  | NE => if is_digit c then Some NExp
          else match c with 43 | 45 (* + - *) => Some NESign | _ => None end
  | NESign => if is_digit c then Some NExp else None
  | NExp => if is_digit c then Some NExp else None
  end.

Definition lex_start (c : N) : option (LexState * list Token) :=
  match c with
  | 9 | 10 | 13 | 32 => Some (LStart, [])        (* JSON white space *)
  | 123 => Some (LStart, [TLBrace])
  | 125 => Some (LStart, [TRBrace])
  | 91 => Some (LStart, [TLBracket])
  | 93 => Some (LStart, [TRBracket])
  | 58 => Some (LStart, [TColon])
  | 44 => Some (LStart, [TComma])
  | 34 => Some (LStr [], [])
  | 45 => Some (LNum NMinus [c], [])
  | 48 => Some (LNum NZero [c], [])
  | 116 => Some (LLit (js "rue") TTrue, [])
  | 102 => Some (LLit (js "alse") TFalse, [])
  | 110 => Some (LLit (js "ull") TNull, [])
  | _ => if is_digit c then Some (LNum NInt [c], []) else None
  end.

Definition lex_step (st : LexState) (c : N) : option (LexState * list Token) :=
  match st with
  | LStart => lex_start c
  | LStr acc =>
      if c =? 34 then Some (LStart, [TString (rev acc)])
      else if c =? 92 then Some (LEsc acc, [])
      else if c <? 32 then None
      else Some (LStr (c :: acc), [])
  | LEsc acc =>
      match c with
      | 34 | 92 | 47 => Some (LStr (c :: acc), [])   (* quote, backslash, slash *)
      | 98 => Some (LStr (8 :: acc), [])             (* \b *)
      | 102 => Some (LStr (12 :: acc), [])           (* \f *)
      | 110 => Some (LStr (10 :: acc), [])           (* \n *)
      | 114 => Some (LStr (13 :: acc), [])           (* \r *)
      | 116 => Some (LStr (9 :: acc), [])            (* \t *)
      | 117 => Some (LHex acc 0 0, [])               (* \u *)
      | _ => None
      end
  | LHex acc n v =>
      match hex_value c with
      | None => None
      | Some d =>
          let v' := 16 * v + d in
          match n with
          | 3%nat => Some (LStr (v' :: acc), [])
          | _ => Some (LHex acc (S n) v', [])
          end
      end
  | LNum ns acc =>
      match num_step ns c with
      | Some ns' => Some (LNum ns' (c :: acc), [])
      | None =>
          if num_accepting ns then
            match lex_start c with
            | Some (st', ts) => Some (st', TNumber (rev acc) :: ts)
            | None => None
            end
          else None
      end
  | LLit rest t =>
      match rest with
      | x :: r =>
          if c =? x then
            match r with
            | [] => Some (LStart, [t])
            | _ => Some (LLit r t, [])
            end
          else None
      | [] => None
      end
  end.

Definition lex_end (st : LexState) : option (list Token) :=
  match st with
  | LStart => Some []
  | LNum ns acc => if num_accepting ns then Some [TNumber (rev acc)] else None
  | _ => None
  end.

Fixpoint lex_from (st : LexState) (s : jstring) : option (list Token) :=
  match s with
  | [] => lex_end st
  | c :: r =>
      match lex_step st c with
      | None => None
      | Some (st', ts) =>
          match lex_from st' r with
          | None => None
          | Some ts' => Some (ts ++ ts')
          end
      end
  end.

Definition lex (s : jstring) : option (list Token) := lex_from LStart s.

(** *** Parser: a pushdown automaton over the tokens *)

(** An enclosing array or object whose current element is being read. *)
Inductive Frame : Type :=
| FArr (elems : list JSON)                          (* reversed *)
| FObj (members : list (jstring * JSON)) (key : jstring).

Inductive PState : Type :=
| SValue (stk : list Frame)       (* a value must follow *)
| SArrStart (stk : list Frame)    (* after [ *)
| SArrNext (elems : list JSON) (stk : list Frame)   (* after an element *)
| SObjStart (stk : list Frame)    (* after { *)
| SObjKey (members : list (jstring * JSON)) (stk : list Frame) (* after , *)
| SObjColon (members : list (jstring * JSON)) (key : jstring)
            (stk : list Frame)    (* after a key *)
| SObjNext (members : list (jstring * JSON)) (stk : list Frame)
| SDone (v : JSON).

(** A value is complete: hand it to the enclosing frame. *)
Definition complete (v : JSON) (stk : list Frame) : PState :=
  match stk with
  | [] => SDone v
  | FArr es :: stk' => SArrNext (v :: es) stk'
  | FObj ms k :: stk' => SObjNext ((k, v) :: ms) stk'
  end.

Definition value_start (stk : list Frame) (t : Token) : option PState :=
  match t with
  | TNull => Some (complete JNull stk)
  | TTrue => Some (complete (JBool true) stk)
  | TFalse => Some (complete (JBool false) stk)
  | TNumber l => Some (complete (JNumber l) stk)
  | TString s => Some (complete (JString s) stk)
  | TLBracket => Some (SArrStart stk)
  | TLBrace => Some (SObjStart stk)
  | TRBrace | TRBracket | TColon | TComma => None
  end.

Definition parse_step (st : PState) (t : Token) : option PState :=
  match st with
  | SValue stk => value_start stk t
  | SArrStart stk =>
      match t with
      | TRBracket => Some (complete (JArray []) stk)
      | _ => value_start (FArr [] :: stk) t
      end
  | SArrNext es stk =>
      match t with
      | TComma => Some (SValue (FArr es :: stk))
      | TRBracket => Some (complete (JArray (rev es)) stk)
      | _ => None
      end
  | SObjStart stk =>
      match t with
      | TRBrace => Some (complete (JObject []) stk)
      | TString k => Some (SObjColon [] k stk)
      | _ => None
      end
  | SObjKey ms stk =>
      match t with
      | TString k => Some (SObjColon ms k stk)
      | _ => None
      end
  | SObjColon ms k stk =>
      match t with
      | TColon => Some (SValue (FObj ms k :: stk))
      | _ => None
      end
  | SObjNext ms stk =>
      match t with
      | TComma => Some (SObjKey ms stk)
      | TRBrace => Some (complete (JObject (rev ms)) stk)
      | _ => None
      end
  | SDone _ => None
  end.

Fixpoint parse_from (st : PState) (ts : list Token) : option JSON :=
  match ts with
  | [] => match st with SDone v => Some v | _ => None end
  | t :: r =>
      match parse_step st t with
      | None => None
      | Some st' => parse_from st' r
      end
  end.

(** [JSON.parse(text)]: [None] when it throws a [SyntaxError]. *)
Definition JSON_parse (text : jstring) : option JSON :=
  match lex text with
  | None => None
  | Some ts => parse_from (SValue []) ts
  end.

End Json.
Export Json.

(* ================================================================= *)
(** ** Exceptions, effects and the handlers' monad *)

(** What a [throw] carries.  [SyntaxError] and [TypeError] are raised by
    the engine ([JSON.parse], a property read on [null], a conversion to
    string); their message is engine text and is not modelled: no catch
    block of the extension reads the message of an engine error. *)
Inductive Exn : Type :=
| SyntaxError
| TypeError
| Error (message : jstring).

Inductive Completion (A : Type) : Type :=
| Normal (a : A)
| Throw (e : Exn).
Arguments Normal {A} a.
Arguments Throw {A} e.

(** The three places that call [progress.report({ message })]: the
    structured report of the stdout handler (line 198), its fallback
    (line 207), and the status lines of the provisioner. *)
Inductive ProgressEvent : Type :=
| Phase (message : jstring)
| Raw (message : jstring)
| Status (message : jstring).

(** What the extension does to its host. *)
Inductive Effect : Type :=
| Progress (e : ProgressEvent)          (* progress.report *)
| ChannelClear                          (* outputChannel.clear() *)
| ChannelShow                           (* outputChannel.show(true) *)
| ChannelAppend (s : jstring)           (* outputChannel.append *)
| ChannelAppendLine (s : jstring)       (* outputChannel.appendLine *)
| ShowError (s : jstring)               (* window.showErrorMessage *)
| ShowInfo (s : jstring)                (* window.showInformationMessage *)
| ConsoleLog (s : jstring)
| ConsoleError (s : jstring)
| Spawn (cmd : jstring) (args : list jstring) (cwd : jstring)
        (env : list (jstring * jstring))  (* child_process.spawn *)
| Kill.                                 (* agentProcess.kill('SIGTERM') *)

(** A computation that records effects and then returns or throws. *)
Definition Eff (A : Type) : Type := (list Effect * Completion A)%type.

Module EffMonad.

Definition ret {A} (a : A) : Eff A := ([], Normal a).

Definition bind {A B} (m : Eff A) (k : A -> Eff B) : Eff B :=
  match m with
  | (t, Normal a) => let (t', r) := k a in (t ++ t', r)
  | (t, Throw e) => (t, Throw e)
  end.

Definition emit (e : Effect) : Eff unit := ([e], Normal tt).

Definition raise {A} (e : Exn) : Eff A := ([], Throw e).

(** [try { body } catch (e) { handler }] *)
Definition try_catch {A} (body : Eff A) (handler : Exn -> Eff A) : Eff A :=
  match body with
  | (t, Normal a) => (t, Normal a)
  | (t, Throw e) => let (t', r) := handler e in (t ++ t', r)
  end.

(** An engine operation that may throw, lifted. *)
Definition lift {A} (c : Completion A) : Eff A := ([], c).

End EffMonad.

Declare Scope eff_scope.
Delimit Scope eff_scope with eff.
Notation "x <- m ;; k" := (EffMonad.bind m (fun x => k))
  (at level 61, m at next level, right associativity) : eff_scope.
Notation "m ;; k" := (EffMonad.bind m (fun _ => k))
  (at level 61, right associativity) : eff_scope.

(* ================================================================= *)
(** ** The values [JSON.parse] returns, as the stdout handler reads them *)

Section Values.

(** [Number.prototype.toString] of the double a JSON number literal
    denotes.  Shortest round-trip printing of a double is floating point
    and stays a parameter of the model. *)
Variable Number_toString : jstring -> jstring.

Fixpoint has_key (k : jstring) (ms : list (jstring * JSON)) : bool :=
  match ms with
  | [] => false
  | (k', _) :: r => jeqb k k' || has_key k r
  end.

(** The own property [k] of a parsed object: the last member of that name. *)
Fixpoint own_property (k : jstring) (ms : list (jstring * JSON))
  : option JSON :=
  match ms with
  | [] => None
  | (k', v) :: r =>
      match own_property k r with
      | Some v' => Some v'
      | None => if jeqb k k' then Some v else None
      end
  end.

(** [log.k] for the three names the handler reads ([type], [phase],
    [message]), none of which is a property of a prototype object, of an
    array or of a string: [None] is [undefined].  Reading a property of
    [null] throws. *)
Definition get_field (log : JSON) (k : jstring) : Completion (option JSON) :=
  match log with
  | JNull => Throw TypeError
  | JObject ms => Normal (own_property k ms)
  | JBool _ | JNumber _ | JString _ | JArray _ => Normal None
  end.

(** [ToString] of a parsed value.  An object is converted by
    [Object.prototype.toString], unless it has an own member named
    [toString]: that member is not callable, [valueOf] yields no
    primitive either, and the conversion throws a [TypeError].  An array
    is converted by [join], where [null] elements print as empty. *)
Fixpoint ToString (v : JSON) : Completion jstring :=
  match v with
  | JNull => Normal (js "null")
  | JBool true => Normal (js "true")
  | JBool false => Normal (js "false")
  | JNumber l => Normal (Number_toString l)
  | JString s => Normal s
  | JObject ms =>
      if has_key (js "toString") ms then Throw TypeError
      else Normal (js "[object Object]")
  | JArray es =>
      let element (e : JSON) : Completion jstring :=
        match e with
        | JNull => Normal []
        | _ => ToString e
        end in
      (fix join_elements (l : list JSON) : Completion jstring :=
         match l with
         | [] => Normal []
         | [e] => element e
         | e :: r =>
             match element e with
             | Throw x => Throw x
             | Normal a =>
                 match join_elements r with
                 | Throw x => Throw x
                 | Normal b => Normal (a ++ js "," ++ b)
                 end
             end
         end) es
  end.

(** [`${x}`] where [x] may be [undefined]. *)
Definition template_hole (x : option JSON) : Completion jstring :=
  match x with
  | None => Normal (js "undefined")
  | Some v => ToString v
  end.

(** [x === 'progress'] *)
Definition is_progress (x : option JSON) : bool :=
  match x with
  | Some (JString s) => jeqb s (js "progress")
  | _ => false
  end.

(* ================================================================= *)
(** ** The stream handlers of [runAgent] *)

Import EffMonad.
Local Open Scope eff_scope.

(** The body of the [for] loop of the stdout handler for one line whose
    [trim()] is not empty. *)
Definition line_body (line : jstring) : Eff unit :=
  match JSON_parse line with
  | None => raise SyntaxError
  | Some log =>
      ty <- lift (get_field log (js "type")) ;;
      if is_progress ty then
        phase <- lift (get_field log (js "phase")) ;;
        p <- lift (template_hole phase) ;;
        message <- lift (get_field log (js "message")) ;;
        m <- lift (template_hole message) ;;
        let friendlyMessage := js "Phase " ++ p ++ js ": " ++ m in
        emit (Progress (Phase friendlyMessage))
      else ret tt
  end.

(** [for (const line of lines) { if (line.trim()) { ... } }] *)
Fixpoint for_lines (lines : list jstring) : Eff unit :=
  match lines with
  | [] => ret tt
  | line :: rest =>
      (match trim line with
       | [] => ret tt
       | _ :: _ => line_body line
       end) ;;
      for_lines rest
  end.

(** [agentProcess.stdout.on('data', ...)] applied to one chunk, already
    decoded by [data.toString()]. *)
Definition on_stdout_data (output : jstring) : Eff unit :=
  emit (ChannelAppend output) ;;
  try_catch
    (let lines := split_nl (trim output) in
     for_lines lines)
    (fun _ =>
       let lastLine := pop (split_nl (trim output)) in
       match lastLine with
       | [] => ret tt
       | _ :: _ => emit (Progress (Raw lastLine))
       end).

(** [agentProcess.stderr.on('data', ...)] applied to one chunk. *)
Definition on_stderr_data (data : jstring) : Eff unit :=
  emit (ChannelAppendLine (js "[ERROR] " ++ data)) ;;
  emit (ShowError
          (jsq "Agent Error: See the 'AI Agent' output channel for details.")).

(** The listener given to [token.onCancellationRequested]. *)
Definition on_cancellation : Eff unit :=
  emit (ChannelAppendLine
          (10 :: js ">>> User requested cancellation. Terminating agent...")) ;;
  emit (ConsoleLog (js "User cancelled the agent run.")) ;;
  emit Kill.

(** [`${code}`] for the [code] of a close event: an integer, or [null]
    when the process was ended by a signal. *)
Definition code_text (code : option Z) : jstring :=
  match code with
  | Some c => of_Z c
  | None => js "null"
  end.

(** [agentProcess.on('close', ...)]: the effects, and whether the promise
    is resolved ([Normal]) or rejected ([Throw]). *)
Definition on_close (isCancellationRequested : bool) (code : option Z)
  : Eff unit :=
  emit (ChannelAppendLine
          (10 :: js "---------------------------------------------------")) ;;
  if isCancellationRequested then
    emit (ChannelAppendLine (js ">>> AI Agent process was cancelled.")) ;;
    emit (ShowInfo (js "AI Agent was cancelled by user.")) ;;
    ret tt
  else
    match code with
    | Some 0%Z =>
        emit (ChannelAppendLine (js ">>> AI Agent finished successfully!")) ;;
        emit (ShowInfo (js "AI Agent finished successfully!")) ;;
        ret tt
    | _ =>
        emit (ChannelAppendLine
                (js ">>> AI Agent process exited with error code "
                 ++ code_text code ++ js ".")) ;;
        let userMessage :=
          match code with
          | Some 2%Z =>
              js "Agent failed during Phase 1 (Discovery & Strategy). Check the output panel for details."
          | Some 3%Z =>
              js "Agent failed during Phase 2 (Execution & Refactoring). Check the output panel for details."
          | Some 4%Z =>
              js "Agent failed during Phase 3 (Documentation & Verification). Check the output panel for details."
          | Some 1%Z =>
              js "Agent encountered a general error. Check the output panel for details."
          | _ =>
              js "Agent process failed with unexpected error code "
              ++ code_text code ++ js ". Check the output panel for details."
          end in
        emit (ShowError userMessage) ;;
        raise (Error (js "Agent process exited with code " ++ code_text code))
    end.

End Values.

(* ================================================================= *)
(** ** The host: file system, child processes, cancellation token *)

(** What reaches the extension while a child process runs. *)
Inductive JobEvent : Type :=
| StdoutData (chunk : jstring)
| StderrData (chunk : jstring)
| CancellationRequested.        (* the user presses Cancel *)

(** A child process, as its parent sees it: the events in the order they
    arrive, then the close event with its code ([None] is [null]). *)
Record Behaviour : Type := {
  events : list JobEvent;
  exit_code : option Z
}.

(** The settings under [ai-project-refactorer]; [None] is [undefined]. *)
Record Config : Type := {
  pythonPath : option jstring;
  ibmApiKey : option jstring;
  ibmUrl : option jstring;
  ibmProjectId : option jstring
}.

(** The [data] of the webview's submit message. *)
Record FormData : Type := {
  persona : jstring;
  painPoints : jstring;
  useCases : jstring;
  successMetrics : jstring
}.

(** Truthiness of a string setting: defined and not empty. *)
Definition truthy (x : option jstring) : bool :=
  match x with
  | Some (_ :: _) => true
  | _ => false
  end.

(** [x || d] *)
Definition or_default (x : option jstring) (d : jstring) : jstring :=
  match x with
  | Some (c :: r) => c :: r
  | _ => d
  end.

(** [error instanceof Error ? error.message : String(error)] *)
Definition exn_message (e : Exn) : jstring :=
  match e with
  | Error m => m
  | SyntaxError | TypeError => []
  end.

(** The text of the error the helper [runCommand] rejects with. *)
Definition command_failed (code : option Z) (cmd : jstring)
    (args : list jstring) : jstring :=
  js "Command failed with code " ++ code_text code
  ++ js ": " ++ cmd ++ js " " ++ join (js " ") args.

(** The close event carries the number 0. *)
Definition exits_zero (code : option Z) : bool :=
  match code with
  | Some 0%Z => true
  | _ => false
  end.

(** The argument vector of the environment-creation command. *)
Definition creation_args : list jstring := [js "-m"; js "venv"; js ".venv"].

Module Host.

Section WithWorld.

(** The world outside the extension: it answers [fs.stat] and runs the
    spawned commands. *)
Variable World : Type.

Record State : Type := {
  world : World;
  isCancellationRequested : bool     (* of the invocation's token *)
}.

(** A computation on the host: effects, the state it leaves, and its
    result or exception. *)
Definition M (A : Type) : Type :=
  State -> (list Effect * State * Completion A)%type.

Definition ret {A} (a : A) : M A := fun s => ([], s, Normal a).

Definition bind {A B} (m : M A) (k : A -> M B) : M B :=
  fun s =>
    match m s with
    | (t, s', Normal a) =>
        match k a s' with (t', s'', r) => (t ++ t', s'', r) end
    | (t, s', Throw e) => (t, s', Throw e)
    end.

Definition emit (e : Effect) : M unit := fun s => ([e], s, Normal tt).

Definition raise {A} (e : Exn) : M A := fun s => ([], s, Throw e).

Definition try_catch {A} (body : M A) (handler : Exn -> M A) : M A :=
  fun s =>
    match body s with
    | (t, s', Normal a) => (t, s', Normal a)
    | (t, s', Throw e) =>
        match handler e s' with (t', s'', r) => (t ++ t', s'', r) end
    end.

(** A handler that touches nothing but the trace. *)
Definition liftE {A} (m : Eff A) : M A := fun s => (fst m, s, snd m).

Definition cancellation_requested : M bool :=
  fun s => ([], s, Normal (isCancellationRequested s)).

Definition set_cancelled : M unit :=
  fun s => ([], {| world := world s; isCancellationRequested := true |},
            Normal tt).

End WithWorld.

Arguments ret {World A} a.
Arguments bind {World A B} m k.
Arguments emit {World} e.
Arguments raise {World A} e.
Arguments try_catch {World A} body handler.
Arguments liftE {World A} m.
Arguments cancellation_requested {World}.
Arguments set_cancelled {World}.
Arguments world {World} s.
Arguments isCancellationRequested {World} s.

End Host.

Declare Scope host_scope.
Delimit Scope host_scope with host.
Notation "x <- m ;; k" := (Host.bind m (fun x => k))
  (at level 61, m at next level, right associativity) : host_scope.
Notation "m ;; k" := (Host.bind m (fun _ => k))
  (at level 61, right associativity) : host_scope.

(* ================================================================= *)
(** ** [setupPythonEnvironment] and [runAgent] *)

Section Orchestrator.

Import Host.
Local Open Scope host_scope.

Variable World : Type.

(** [vscode.workspace.fs.stat(Uri.file(p))] resolves. *)
Variable fs_stat : jstring -> World -> bool.

(** [spawn(cmd, args, { cwd })], run until its close event: what the
    parent observes, and the world the process leaves behind.  A command
    that cannot be started emits an [error] event, for which the
    extension registers no listener; only processes that reach their
    close event are modelled. *)
Variable run_process :
  jstring -> list jstring -> jstring -> World -> Behaviour * World.

Variable Number_toString : jstring -> jstring.

(** [process.platform === 'win32'] *)
Variable isWindows : bool.

(** [context.extensionPath] *)
Variable extensionPath : jstring.

Variable config : Config.

Let M := Host.M World.

Definition stat (p : jstring) : M bool :=
  fun s => ([], s, Normal (fs_stat p (world s))).

Definition spawn (cmd : jstring) (args : list jstring) (cwd : jstring)
    (env : list (jstring * jstring)) : M Behaviour :=
  fun s =>
    let (b, w) := run_process cmd args cwd (world s) in
    ([Spawn cmd args cwd env],
     {| world := w; isCancellationRequested := isCancellationRequested s |},
     Normal b).

(** [path.join] on segments that need no normalisation (no empty, [.] or
    [..] segment, no doubled or trailing separator). *)
Definition path_join (segments : list jstring) : jstring :=
  join (if isWindows then js "\" else js "/") segments.

Definition agentPath : jstring := path_join [extensionPath; js "agent"].
Definition venvPath : jstring := path_join [agentPath; js ".venv"].
Definition requirementsPath : jstring :=
  path_join [agentPath; js "requirements.txt"].
Definition pythonExecutable : jstring :=
  if isWindows then path_join [venvPath; js "Scripts"; js "python.exe"]
  else path_join [venvPath; js "bin"; js "python"].
Definition pipExecutable : jstring :=
  if isWindows then path_join [venvPath; js "Scripts"; js "pip.exe"]
  else path_join [venvPath; js "bin"; js "pip"].
Definition pythonCommand : jstring :=
  or_default (pythonPath config) (js "python").

(** The argument vector of the dependency-sync command. *)
Definition sync_args : list jstring :=
  [js "install"; js "-r"; requirementsPath].

(** The stream listeners of [runCommand] only write to the console.  No
    cancellation listener is registered yet: a request made while the
    command runs only marks the token. *)
Fixpoint drain_command (evs : list JobEvent) : M unit :=
  match evs with
  | [] => ret tt
  | StdoutData d :: r =>
      emit (ConsoleLog (js "stdout: " ++ d)) ;; drain_command r
  | StderrData d :: r =>
      emit (ConsoleError (js "stderr: " ++ d)) ;; drain_command r
  | CancellationRequested :: r => set_cancelled ;; drain_command r
  end.

(** The helper [runCommand] of [setupPythonEnvironment]. *)
Definition runCommand (cmd : jstring) (args : list jstring) : M unit :=
  b <- spawn cmd args agentPath [] ;;
  drain_command (events b) ;;
  let code := exit_code b in
  if exits_zero code then ret tt
  else raise (Error (command_failed code cmd args)).

(** The [catch] block of [setupPythonEnvironment]: the message shown for
    an error text. *)
Definition setup_userMessage (errorMessage : jstring) : jstring :=
  if includes errorMessage (js "python") then
    jsq "Python not found. Please check your Python path in settings. Current path: '"
    ++ pythonCommand ++ jsq "'"
  else if includes errorMessage (js "venv") then
    js "Failed to create virtual environment. Ensure Python has venv module installed."
  else if includes errorMessage (js "requirements.txt") then
    js "Failed to install dependencies. Check if requirements.txt exists and contains valid packages."
  else js "Failed to set up Python environment: " ++ errorMessage.

Definition setupPythonEnvironment : M jstring :=
  emit (Progress (Status (js "Setting up Python environment..."))) ;;
  try_catch
    (found <- stat pythonExecutable ;;
     (if negb found then
        emit (Progress (Status (js "Creating virtual environment..."))) ;;
        runCommand pythonCommand creation_args
      else ret tt) ;;
     emit (Progress (Status (js "Installing dependencies..."))) ;;
     runCommand pipExecutable sync_args ;;
     emit (Progress (Status (js "Environment is ready."))) ;;
     ret pythonExecutable)
    (fun error =>
       let errorMessage := exn_message error in
       emit (ShowError (setup_userMessage errorMessage)) ;;
       raise error).

Definition scriptPath : jstring := path_join [agentPath; js "run_agent.py"].

Definition agent_args (projectPath : jstring) (formData : FormData)
  : list jstring :=
  [scriptPath;
   js "--project-path"; projectPath;
   js "--persona"; persona formData;
   js "--pain-points"; painPoints formData;
   js "--use-cases"; useCases formData;
   js "--success-metrics"; successMetrics formData].

Definition credentials_message : jstring :=
  js "Please configure your IBM Watsonx.ai API Key and Project ID in VS Code settings.".

(** [token.onCancellationRequested(listener)]: later requests run the
    listener.  On a token that is already cancelled (a request made
    while the provisioner ran) the host runs the listener from a
    zero-delay timer: after [runAgent] has registered its listeners and
    returned its promise, which has no effect of its own, so that the
    effects of the listener follow the spawn of the agent in the trace,
    ahead of those of the events of the process. *)
Definition register_cancellation_listener : M unit :=
  c <- cancellation_requested ;;
  if c then liftE on_cancellation else ret tt.

(** The part of [runAgent] inside its [try] block, up to the point where
    the promise of the process is returned. *)
Definition launch (projectPath : jstring) (formData : FormData)
  : M Behaviour :=
  pythonPath <- setupPythonEnvironment ;;
  let args := agent_args projectPath formData in
  emit ChannelClear ;;
  emit ChannelShow ;;
  emit (ChannelAppendLine (js ">>> Starting AI Agent with IBM Watsonx.ai...")) ;;
  emit (ChannelAppendLine (js ">>> Project Path: " ++ projectPath)) ;;
  emit (ChannelAppendLine
          (js "---------------------------------------------------" ++ [10])) ;;
  let ibmUrl' := or_default (ibmUrl config)
                            (js "https://us-south.ml.cloud.ibm.com") in
  if negb (truthy (ibmApiKey config)) || negb (truthy (ibmProjectId config))
  then
    let message := credentials_message in
    emit (ShowError message) ;;
    emit (ChannelAppendLine (js "[ERROR] " ++ message)) ;;
    raise (Error message)
  else
    agentProcess <-
      spawn pythonPath args projectPath
        [(js "IBM_API_KEY", or_default (ibmApiKey config) []);
         (js "IBM_URL", ibmUrl');
         (js "IBM_PROJECT_ID", or_default (ibmProjectId config) []);
         (js "PYTHONIOENCODING", js "utf-8")] ;;
    register_cancellation_listener ;;
    ret agentProcess.

(** The events of the agent process, dispatched to the listeners that
    [runAgent] registered.  The token fires its listeners once. *)
Fixpoint dispatch (evs : list JobEvent) : M unit :=
  match evs with
  | [] => ret tt
  | StdoutData d :: r =>
      liftE (on_stdout_data Number_toString d) ;; dispatch r
  | StderrData d :: r =>
      liftE (on_stderr_data d) ;; dispatch r
  | CancellationRequested :: r =>
      (c <- cancellation_requested ;;
       if c then ret tt else set_cancelled ;; liftE on_cancellation) ;;
      dispatch r
  end.

(** The promise [runAgent] returns: settled by the close listener. *)
Definition supervise (agentProcess : Behaviour) : M unit :=
  dispatch (events agentProcess) ;;
  c <- cancellation_requested ;;
  liftE (on_close c (exit_code agentProcess)).

(** [runAgent]: the outer [catch] covers the launch only, not the
    returned promise. *)
Definition runAgent (projectPath : jstring) (formData : FormData) : M unit :=
  agentProcess <-
    try_catch (launch projectPath formData)
      (fun error =>
         let errorMessage := exn_message error in
         emit (ChannelAppendLine (js "[SETUP ERROR] " ++ errorMessage)) ;;
         emit (ShowError
                 (js "Failed to run the agent. Check the output panel for details.")) ;;
         raise error) ;;
  supervise agentProcess.

(** Successive invocations of the provisioner, whatever each returns. *)
Fixpoint provision (calls : nat) : M unit :=
  match calls with
  | O => ret tt
  | S n =>
      try_catch (setupPythonEnvironment ;; ret tt) (fun _ => ret tt) ;;
      provision n
  end.

End Orchestrator.

(* ================================================================= *)
(** ** Vocabulary of the specification *)

(** The terminal value of an invocation. *)
Inductive JobOutcome : Type :=
| Succeeded
| Cancelled
| Failed (code : option Z) (userMessage : jstring).

Definition general_error_message : jstring :=
  js "Agent encountered a general error. Check the output panel for details.".
Definition discovery_message : jstring :=
  js "Agent failed during Phase 1 (Discovery & Strategy). Check the output panel for details.".
Definition execution_message : jstring :=
  js "Agent failed during Phase 2 (Execution & Refactoring). Check the output panel for details.".
Definition documentation_message : jstring :=
  js "Agent failed during Phase 3 (Documentation & Verification). Check the output panel for details.".
Definition unexpected_code_message (code : option Z) : jstring :=
  js "Agent process failed with unexpected error code "
  ++ code_text code ++ js ". Check the output panel for details.".

(** How each outcome shows on the host: the lines written to the channel,
    the notification, and the promise resolved or rejected. *)
Definition report_outcome (o : JobOutcome) : Eff unit :=
  let rule :=
    ChannelAppendLine
      (10 :: js "---------------------------------------------------") in
  match o with
  | Succeeded =>
      ([rule;
        ChannelAppendLine (js ">>> AI Agent finished successfully!");
        ShowInfo (js "AI Agent finished successfully!")],
       Normal tt)
  | Cancelled =>
      ([rule;
        ChannelAppendLine (js ">>> AI Agent process was cancelled.");
        ShowInfo (js "AI Agent was cancelled by user.")],
       Normal tt)
  | Failed code userMessage =>
      ([rule;
        ChannelAppendLine
          (js ">>> AI Agent process exited with error code "
           ++ code_text code ++ js ".");
        ShowError userMessage],
       Throw (Error (js "Agent process exited with code " ++ code_text code)))
  end.

(** The decision table of the outcome classifier, row by row. *)
Definition outcome_table (cancellation_requested : bool) (code : Z)
  : JobOutcome :=
  if cancellation_requested then Cancelled
  else if (code =? 0)%Z then Succeeded
  else if (code =? 1)%Z then Failed (Some code) general_error_message
  else if (code =? 2)%Z then Failed (Some code) discovery_message
  else if (code =? 3)%Z then Failed (Some code) execution_message
  else if (code =? 4)%Z then Failed (Some code) documentation_message
  else Failed (Some code) (unexpected_code_message (Some code)).

(** Projections of a run on the host. *)
Definition trace_of {W A} (r : list Effect * Host.State W * Completion A)
  : list Effect := fst (fst r).
Definition state_of {W A} (r : list Effect * Host.State W * Completion A)
  : Host.State W := snd (fst r).
Definition result_of {W A} (r : list Effect * Host.State W * Completion A)
  : Completion A := snd r.

(** A run ends by reporting outcome [o]. *)
Definition ends_with {W} (o : JobOutcome)
    (r : list Effect * Host.State W * Completion unit) : Prop :=
  (exists t, trace_of r = t ++ fst (report_outcome o))
  /\ result_of r = snd (report_outcome o).

(** The progress events of a trace, in order. *)
Fixpoint progress_events (t : list Effect) : list ProgressEvent :=
  match t with
  | [] => []
  | Progress e :: r => e :: progress_events r
  | _ :: r => progress_events r
  end.

Definition is_phase (e : ProgressEvent) : bool :=
  match e with Phase _ => true | _ => false end.

Definition is_raw (e : ProgressEvent) : bool :=
  match e with Raw _ => true | _ => false end.

Definition phase_count (t : list Effect) : nat :=
  length (filter is_phase (progress_events t)).

Definition raw_count (t : list Effect) : nat :=
  length (filter is_raw (progress_events t)).

(** User-visible error notifications of a trace. *)
Definition is_error_notification (e : Effect) : bool :=
  match e with ShowError _ => true | _ => false end.

Definition error_notifications (t : list Effect) : nat :=
  length (filter is_error_notification t).

Definition is_stderr (e : JobEvent) : bool :=
  match e with StderrData _ => true | _ => false end.

Definition stderr_chunks (evs : list JobEvent) : list jstring :=
  flat_map (fun e => match e with StderrData d => [d] | _ => [] end) evs.

Definition is_spawn (e : Effect) : bool :=
  match e with Spawn _ _ _ _ => true | _ => false end.

Definition not_spawn (e : Effect) : bool := negb (is_spawn e).

Definition is_cancellation (e : JobEvent) : bool :=
  match e with CancellationRequested => true | _ => false end.

Definition spawns (t : list Effect) : list Effect := filter is_spawn t.

(** Spawns with a given argument vector. *)
Definition spawned_with (args : list jstring) (e : Effect) : bool :=
  match e with
  | Spawn _ a _ _ =>
      if list_eq_dec (list_eq_dec N.eq_dec) a args then true else false
  | _ => false
  end.

Definition spawn_count (args : list jstring) (t : list Effect) : nat :=
  length (filter (spawned_with args) t).

(** A line of a chunk, as the stdout handler classifies it. *)
Definition blank (line : jstring) : Prop := trim line = [].

(** The line parses as a record (a JSON object). *)
Definition parses_as_record (line : jstring) : Prop :=
  exists members, JSON_parse line = Some (JObject members).

(** The line parses as a record whose kind is not "progress". *)
Definition unknown_record (line : jstring) : Prop :=
  exists members,
    JSON_parse line = Some (JObject members)
    /\ is_progress (own_property (js "type") members) = false.

(** The line is a well-formed progress record: a record of kind
    "progress" whose [phase] and [message] can be printed. *)
Definition progress_record (fmt : jstring -> jstring) (line : jstring)
    (friendlyMessage : jstring) : Prop :=
  exists members p m,
    JSON_parse line = Some (JObject members)
    /\ is_progress (own_property (js "type") members) = true
    /\ template_hole fmt (own_property (js "phase") members) = Normal p
    /\ template_hole fmt (own_property (js "message") members) = Normal m
    /\ friendlyMessage = js "Phase " ++ p ++ js ": " ++ m.

(** The same as a test: the line parses to a non-null value whose [type]
    is "progress". *)
Definition declares_progress (line : jstring) : bool :=
  match JSON_parse line with
  | Some (JObject members) => is_progress (own_property (js "type") members)
  | _ => false
  end.

(** The line is one line: it holds no line feed. *)
Definition single_line (line : jstring) : Prop :=
  forallb (fun c => negb (c =? 10)) line = true.

(** The non-empty lines of a chunk, and the last of them. *)
Definition nonempty_lines (chunk : jstring) : list jstring :=
  filter (fun l => match l with [] => false | _ => true end) (split_nl chunk).

Definition last_nonempty_line (chunk : jstring) : jstring :=
  last (nonempty_lines chunk) [].

(** A number literal printed as it is written: what [Number.toString]
    gives for a literal in canonical form, such as [1] or [42]. *)
Definition literal_text (literal : jstring) : jstring := literal.

(* ================================================================= *)
(** ** A concrete world, to run the orchestrator *)

Module Scenario.

(** Whether the isolated interpreter exists, how the two provisioning
    commands exit, and how the agent behaves. *)
Record World : Type := {
  venv_present : bool;
  creation_exit : option Z;
  sync_exit : option Z;
  agent : Behaviour
}.

Definition fs_stat (_ : jstring) (w : World) : bool := venv_present w.

(** A successful creation command makes the interpreter exist. *)
Definition run_process (cmd : jstring) (args : list jstring) (cwd : jstring)
    (w : World) : Behaviour * World :=
  match args with
  | a :: _ =>
      if jeqb a (js "-m") then
        ({| events := []; exit_code := creation_exit w |},
         {| venv_present :=
              match creation_exit w with
              | Some 0%Z => true
              | _ => venv_present w
              end;
            creation_exit := creation_exit w;
            sync_exit := sync_exit w;
            agent := agent w |})
      else if jeqb a (js "install") then
        ({| events := []; exit_code := sync_exit w |}, w)
      else (agent w, w)
  | [] => (agent w, w)
  end.

Definition initially (w : World) : Host.State World :=
  {| Host.world := w; Host.isCancellationRequested := false |}.

Definition extensionPath : jstring := js "/ext".
Definition projectPath : jstring := js "/proj".

Definition formData : FormData :=
  {| persona := js "maintainer";
     painPoints := js "tangled modules";
     useCases := js "split the utilities";
     successMetrics := js "tests still pass" |}.

Definition with_credentials : Config :=
  {| pythonPath := None;
     ibmApiKey := Some (js "key");
     ibmUrl := None;
     ibmProjectId := Some (js "project") |}.

(** The API key is set, the project identifier is not. *)
Definition without_project_id : Config :=
  {| pythonPath := None;
     ibmApiKey := Some (js "key");
     ibmUrl := None;
     ibmProjectId := None |}.

Definition quiet (code : option Z) : Behaviour :=
  {| events := []; exit_code := code |}.

(** No environment yet; both provisioning commands succeed. *)
Definition fresh_machine (job : Behaviour) : World :=
  {| venv_present := false;
     creation_exit := Some 0%Z;
     sync_exit := Some 0%Z;
     agent := job |}.

(** The environment exists; the dependency install exits with [code]. *)
Definition provisioned_machine (code : option Z) (job : Behaviour) : World :=
  {| venv_present := true;
     creation_exit := Some 0%Z;
     sync_exit := code;
     agent := job |}.

(** One invocation on a POSIX host. *)
Definition run (cfg : Config) (w : World)
  : list Effect * Host.State World * Completion unit :=
  runAgent World fs_stat run_process literal_text false extensionPath cfg
    projectPath formData (initially w).

(** [calls] successive provisioner calls on a POSIX host. *)
Definition provision_calls (calls : nat) (w : World)
  : list Effect * Host.State World * Completion unit :=
  provision World fs_stat run_process false extensionPath with_credentials
    calls (initially w).

(** One provisioner call on a POSIX host. *)
Definition setup (w : World)
  : list Effect * Host.State World * Completion jstring :=
  setupPythonEnvironment World fs_stat run_process false extensionPath
    with_credentials (initially w).

End Scenario.

(* ================================================================= *)
(** ** The message handler of [activate] and the script of the webview *)

(** What the form of the webview posts: [{ command, data }]. *)
Record SubmitMessage : Type := {
  command : jstring;
  data : FormData
}.

(** What the message handler of [activate] does, beside what [runAgent]
    does to the host. *)
Inductive PanelEffect : Type :=
| OnHost (e : Effect)
| PostRunningState (running : bool)
    (* panel.webview.postMessage({ command: 'set-running-state', running }) *)
| WithProgress (title : jstring) (cancellable : bool)
    (* vscode.window.withProgress({ location, title, cancellable }, ...) *)
| LogRunFailed (error : Exn).
    (* console.error('Agent run failed', error) *)

(** A promise, as the code that awaits it sees it: settled, that is
    resolved or rejected, or pending for ever. *)
Inductive Promise (A : Type) : Type :=
| Settled (c : Completion A)
| Pending.
Arguments Settled {A} c.
Arguments Pending {A}.

Section Activation.

Variable World : Type.
Variable fs_stat : jstring -> World -> bool.
Variable run_process :
  jstring -> list jstring -> jstring -> World -> Behaviour * World.
Variable Number_toString : jstring -> jstring.
Variable isWindows : bool.
Variable extensionPath : jstring.
Variable config : Config.

(** The listener given to [panel.webview.onDidReceiveMessage], an
    [async] function.  [workspaceFolders] is
    [vscode.workspace.workspaceFolders]: [None] is [undefined]; each
    folder is given by its [uri.fsPath].  [task projectPath data w] is
    the call [runAgent(context, projectPath, message.data, progress,
    token)] that [withProgress] makes in world [w]: what the run does to
    the host, the world it leaves, and the promise the handler awaits.
    The [catch] and [finally] blocks run when that promise has settled;
    while it is pending the handler is suspended at its [await], and its
    own promise is pending too. *)
Definition message_handler
    (task : jstring -> FormData -> World
            -> list Effect * World * Promise unit)
    (workspaceFolders : option (list jstring))
    (message : SubmitMessage) (w : World)
  : list PanelEffect * World * Promise unit :=
  if jeqb (command message) (js "submit") then
    match workspaceFolders with
    | None =>
        ([OnHost (ShowError (js "Please open a project folder first!"))],
         w, Settled (Normal tt))
    | Some [] => ([], w, Settled (Throw TypeError))
    | Some (projectPath :: _) =>
        match task projectPath (data message) w with
        | (t, w', Settled r) =>
            ([PostRunningState true;
              WithProgress (js "AI Agent is running...") true]
             ++ map OnHost t
             ++ match r with
                | Normal _ => []
                | Throw error => [LogRunFailed error]
                end
             ++ [PostRunningState false],
             w', Settled (Normal tt))
        | (t, w', Pending) =>
            ([PostRunningState true;
              WithProgress (js "AI Agent is running...") true]
             ++ map OnHost t,
             w', Pending)
        end
    end
  else ([], w, Settled (Normal tt)).

(** The task of the extension: [runAgent] on a token of its own, not
    cancelled yet.  The processes of this model all reach their close
    event, so that the promise of [runAgent] settles. *)
Definition agent_run (projectPath : jstring) (formData : FormData)
    (w : World) : list Effect * World * Promise unit :=
  match
    runAgent World fs_stat run_process Number_toString isWindows
      extensionPath config projectPath formData
      {| Host.world := w; Host.isCancellationRequested := false |}
  with
  | (t, s, r) => (t, Host.world s, Settled r)
  end.

(** The handler of the extension. *)
Definition on_message (workspaceFolders : option (list jstring))
    (message : SubmitMessage) (w : World)
  : list PanelEffect * World * Promise unit :=
  message_handler agent_run workspaceFolders message w.

End Activation.

(** The values of the four fields of the form when it is submitted. *)
Record FormFields : Type := {
  persona_value : jstring;
  painPoints_value : jstring;
  useCases_value : jstring;
  successMetrics_value : jstring
}.

(** The submit listener of the form: the message it posts. *)
Definition submit_listener (fields : FormFields) : SubmitMessage :=
  {| command := js "submit";
     data :=
       {| persona := persona_value fields;
          painPoints := painPoints_value fields;
          useCases := useCases_value fields;
          successMetrics :=
            match successMetrics_value fields with
            | [] => js "A functional, easy-to-navigate project structure."
            | c :: r => c :: r
            end |} |}.

(** What the extension posts to the webview: [{ command, running }]. *)
Record HostMessage : Type := {
  host_command : jstring;
  running : bool
}.

(** The parts of the page the script changes. *)
Record View : Type := {
  runningMessage_display : jstring;     (* runningMessage.style.display *)
  submitBtn_disabled : bool;
  submitBtn_textContent : jstring
}.

(** The label of the submit button: a rocket (U+1F680, two code units)
    and a text. *)
Definition submit_label : jstring :=
  55357 :: 56960 :: js " Transform My Project".

(** The label while the agent runs: an hourglass (U+23F3) and a text. *)
Definition processing_label : jstring := 9203 :: js " Processing...".

(** The message listener of the page. *)
Definition message_listener (message : HostMessage) (v : View) : View :=
  if jeqb (host_command message) (js "set-running-state") then
    if running message then
      {| runningMessage_display := js "block";
         submitBtn_disabled := true;
         submitBtn_textContent := processing_label |}
    else
      {| runningMessage_display := js "none";
         submitBtn_disabled := false;
         submitBtn_textContent := submit_label |}
  else v.

(** The two states the listener puts the page in. *)
Definition running_view : View :=
  {| runningMessage_display := js "block";
     submitBtn_disabled := true;
     submitBtn_textContent := processing_label |}.

Definition idle_view : View :=
  {| runningMessage_display := js "none";
     submitBtn_disabled := false;
     submitBtn_textContent := submit_label |}.

(** The messages a run of the handler posts to the webview, in order. *)
Fixpoint posted_messages (t : list PanelEffect) : list HostMessage :=
  match t with
  | [] => []
  | PostRunningState r :: rest =>
      {| host_command := js "set-running-state"; running := r |}
      :: posted_messages rest
  | _ :: rest => posted_messages rest
  end.

(** The page after it has received the messages, one after the other. *)
Definition receive (messages : list HostMessage) (v : View) : View :=
  fold_left (fun view m => message_listener m view) messages v.

(** The effects on the host within a run of the handler. *)
Fixpoint host_effects (t : list PanelEffect) : list Effect :=
  match t with
  | [] => []
  | OnHost e :: rest => e :: host_effects rest
  | _ :: rest => host_effects rest
  end.

(* ================================================================= *)
(** ** More vocabulary *)

(** What the loop of the stdout handler reports for one line that does
    not make it throw: nothing for a blank line or a record of another
    kind, one [Phase] event for a well-formed progress record. *)
Definition reports (fmt : jstring -> jstring) (line : jstring)
    (evs : list ProgressEvent) : Prop :=
  (blank line /\ evs = [])
  \/ (unknown_record line /\ evs = [])
  \/ (exists friendly, progress_record fmt line friendly
                       /\ evs = [Phase friendly]).

(** The line does not parse to a value with properties: it is not JSON,
    or it is the JSON [null]. *)
Definition unreadable (line : jstring) : Prop :=
  JSON_parse line = None \/ JSON_parse line = Some JNull.

(** The line parses to a value that is neither a record nor [null]: a
    number, a string, a boolean or an array, none of which has a
    [type]. *)
Definition other_value (line : jstring) : Prop :=
  exists v,
    JSON_parse line = Some v
    /\ match v with
       | JNull | JObject _ => False
       | _ => True
       end.

(** What the loop reports for a line it passes: as [reports], and
    nothing for a JSON value that is not a record. *)
Definition passes (fmt : jstring -> jstring) (line : jstring)
    (evs : list ProgressEvent) : Prop :=
  reports fmt line evs \/ (other_value line /\ evs = []).

(** The line makes the loop throw: it is not blank, and it is not JSON,
    or it is the JSON [null], or it is a record of kind "progress" whose
    [phase] or [message] cannot be printed. *)
Definition throwing (fmt : jstring -> jstring) (line : jstring) : Prop :=
  ~ blank line
  /\ (unreadable line
      \/ exists members,
           JSON_parse line = Some (JObject members)
           /\ is_progress (own_property (js "type") members) = true
           /\ ((exists e,
                  template_hole fmt (own_property (js "phase") members)
                  = Throw e)
               \/ (exists e,
                     template_hole fmt (own_property (js "message") members)
                     = Throw e))).

(** What [outputChannel.append] received, in order. *)
Fixpoint channel_appends (t : list Effect) : list jstring :=
  match t with
  | [] => []
  | ChannelAppend s :: r => s :: channel_appends r
  | _ :: r => channel_appends r
  end.

Definition stdout_chunks (evs : list JobEvent) : list jstring :=
  flat_map (fun e => match e with StdoutData d => [d] | _ => [] end) evs.

Definition is_info_notification (e : Effect) : bool :=
  match e with ShowInfo _ => true | _ => false end.

Definition info_notifications (t : list Effect) : nat :=
  length (filter is_info_notification t).

(** What the listeners do for one event, and the state they leave. *)
Definition event_effects {World} (fmt : jstring -> jstring) (e : JobEvent)
    (s : Host.State World)
  : list Effect :=
  match e with
  | StdoutData d => fst (on_stdout_data fmt d)
  | StderrData d => fst (on_stderr_data d)
  | CancellationRequested =>
      if Host.isCancellationRequested s then [] else fst on_cancellation
  end.

Definition event_state {World} (e : JobEvent) (s : Host.State World)
  : Host.State World :=
  match e with
  | CancellationRequested =>
      if Host.isCancellationRequested s then s
      else {| Host.world := Host.world s;
              Host.isCancellationRequested := true |}
  | _ => s
  end.

(** Effects that only write to the console. *)
Definition is_console (e : Effect) : bool :=
  match e with
  | ConsoleLog _ | ConsoleError _ => true
  | _ => false
  end.

(** Termination signals sent to the agent. *)
Definition is_kill (e : Effect) : bool :=
  match e with Kill => true | _ => false end.

Definition kill_count (t : list Effect) : nat := length (filter is_kill t).

(** The progress events the stdout handler derives from the chunks of a
    run, chunk after chunk. *)
Definition chunk_events (fmt : jstring -> jstring) (evs : list JobEvent)
  : list ProgressEvent :=
  flat_map
    (fun e =>
       match e with
       | StdoutData d => progress_events (fst (on_stdout_data fmt d))
       | _ => []
       end)
    evs.

(** The two diagnoses the provisioner can show. *)
Definition python_not_found_message (pythonCommand : jstring) : jstring :=
  jsq "Python not found. Please check your Python path in settings. Current path: '"
  ++ pythonCommand ++ jsq "'".

Definition venv_failed_message : jstring :=
  js "Failed to create virtual environment. Ensure Python has venv module installed.".

(** The environment overlay of the agent process. *)
Definition agent_env (key url project : jstring)
  : list (jstring * jstring) :=
  [(js "IBM_API_KEY", key);
   (js "IBM_URL", url);
   (js "IBM_PROJECT_ID", project);
   (js "PYTHONIOENCODING", js "utf-8")].

(* ================================================================= *)
(** * Properties *)

(** ** The outcome classifier *)

(** The host can tell the outcomes apart: two outcomes reported the same
    way are the same outcome, as far as the code of an integer shows in
    its decimal text. *)
Lemma report_outcome_separates (o : JobOutcome) :
  (report_outcome o = report_outcome Succeeded -> o = Succeeded)
  /\ (report_outcome o = report_outcome Cancelled -> o = Cancelled).
Proof.
  split; destruct o; intros H; try reflexivity; try discriminate H;
    vm_compute in H; discriminate H.
Qed.

Lemma app_suffix_eq {A} (t1 t2 l1 l2 : list A) :
  length l1 = length l2 -> t1 ++ l1 = t2 ++ l2 -> l1 = l2.
Proof.
  intros Hl H.
  assert (Ht : length t1 = length t2).
  { apply (f_equal (@length A)) in H. rewrite !length_app in H. lia. }
  revert t2 H Ht. induction t1 as [|a t1 IH]; intros [|b t2] H Ht;
    simpl in *; try discriminate Ht; [exact H|].
  injection H as _ H. apply (IH t2 H). now injection Ht.
Qed.

(** A run ends by reporting one outcome only. *)
Lemma ends_with_determines {W} (o o' : JobOutcome)
    (r : list Effect * Host.State W * Completion unit) :
  ends_with o r -> ends_with o' r -> report_outcome o = report_outcome o'.
Proof.
  intros [[t Ht] Hr] [[t' Ht'] Hr'].
  rewrite (surjective_pairing (report_outcome o)),
    (surjective_pairing (report_outcome o')).
  f_equal; [|congruence].
  apply (app_suffix_eq t t'); [now destruct o, o' | congruence].
Qed.

Lemma on_close_cancelled (code : option Z) :
  on_close true code = report_outcome Cancelled.
Proof. reflexivity. Qed.

(** C2.  Without a cancellation request the close listener follows the
    decision table on every integer exit code: 0 reports Succeeded; 1, 2,
    3 and 4 report Failed with their fixed messages; every other integer
    reports Failed with the unexpected-error-code message that carries
    the code. *)
Theorem exit_code_mapping_total_exact (code : Z) :
  on_close false (Some code) = report_outcome (outcome_table false code).
Proof.
  unfold outcome_table.
  destruct code as [|p|p]; [reflexivity| |reflexivity].
  destruct p as [p1|p1|]; [| |reflexivity].
  - destruct p1 as [q|q|]; reflexivity.
  - destruct p1 as [q|q|]; [reflexivity| |reflexivity].
    destruct q as [r|r|]; reflexivity.
Qed.

(** ** Facts about [trim], [split] and [includes] *)

Section StringFacts.

Lemma is_ws_line_feed : is_ws 10 = true.
Proof. reflexivity. Qed.

Lemma forallb_reverse {A} (f : A -> bool) (l : list A) :
  forallb f (rev l) = forallb f l.
Proof.
  induction l as [|a l IH]; simpl; [reflexivity|].
  rewrite forallb_app, IH. simpl. rewrite andb_true_r. apply andb_comm.
Qed.

Lemma trimStart_head (c : N) (s : jstring) :
  is_ws c = false -> trimStart (c :: s) = c :: s.
Proof. intros H. simpl. now rewrite H. Qed.

Lemma trimStart_blank (w : jstring) :
  forallb is_ws w = true -> trimStart w = [].
Proof.
  induction w as [|c w IH]; simpl; [reflexivity|].
  intros H. apply andb_true_iff in H as [Hc Hw]. rewrite Hc. auto.
Qed.

Lemma trimStart_nil (s : jstring) :
  trimStart s = [] -> forallb is_ws s = true.
Proof.
  induction s as [|c s IH]; simpl; [reflexivity|].
  destruct (is_ws c); [auto | discriminate].
Qed.

Lemma trimStart_skip (w s : jstring) :
  forallb is_ws w = true -> trimStart (w ++ s) = trimStart s.
Proof.
  induction w as [|c w IH]; simpl; [reflexivity|].
  intros H. apply andb_true_iff in H as [Hc Hw]. rewrite Hc. auto.
Qed.

Lemma trimStart_app (x y : jstring) :
  trimStart x <> [] -> trimStart (x ++ y) = trimStart x ++ y.
Proof.
  induction x as [|c x IH]; simpl; [congruence|].
  destruct (is_ws c); [exact IH | reflexivity].
Qed.

(** What [trimStart] leaves starts with a character that is not white
    space. *)
Lemma trimStart_cons (s : jstring) (c : N) (r : jstring) :
  trimStart s = c :: r -> is_ws c = false.
Proof.
  induction s as [|a s IH]; simpl; [discriminate|].
  destruct (is_ws a) eqn:Ha; [exact IH|].
  intros H. injection H as -> _. exact Ha.
Qed.

Lemma trimStart_fixpoint_head (c : N) (s : jstring) :
  trimStart (c :: s) = c :: s -> is_ws c = false.
Proof. apply trimStart_cons. Qed.

Lemma trimEnd_head (c : N) (s : jstring) :
  is_ws c = false -> trimEnd (c :: s) = c :: trimEnd s.
Proof.
  intros H. unfold trimEnd. simpl.
  destruct (trimStart (rev s)) as [|a r] eqn:E.
  - rewrite trimStart_skip by (apply trimStart_nil; exact E).
    simpl. now rewrite H.
  - rewrite trimStart_app by (rewrite E; discriminate).
    rewrite E, rev_app_distr. reflexivity.
Qed.

(** A string that starts with a character other than white space keeps
    that character when trimmed. *)
Lemma trim_head (c : N) (s : jstring) :
  is_ws c = false -> trim (c :: s) = c :: trimEnd s.
Proof.
  intros H. unfold trim. rewrite trimStart_head by exact H.
  apply trimEnd_head, H.
Qed.

Lemma trim_starts_with_text (s : jstring) :
  trim s <> [] -> exists c r, trim s = c :: r /\ is_ws c = false.
Proof.
  unfold trim. intros H.
  destruct (trimStart s) as [|c r] eqn:E; [now elim H|].
  pose proof (trimStart_cons _ _ _ E) as Hc.
  exists c, (trimEnd r). split; [apply trimEnd_head, Hc | exact Hc].
Qed.

Lemma trimEnd_ends_with_text (s : jstring) :
  trimEnd s <> [] -> exists r c, trimEnd s = r ++ [c] /\ is_ws c = false.
Proof.
  unfold trimEnd. intros H.
  destruct (trimStart (rev s)) as [|c r] eqn:E; [now elim H|].
  exists (rev r), c. split; [reflexivity | exact (trimStart_cons _ _ _ E)].
Qed.

Lemma trimEnd_keep (a b w : jstring) :
  trimEnd b = b -> b <> [] -> forallb is_ws w = true ->
  trimEnd (a ++ b ++ w) = a ++ b.
Proof.
  unfold trimEnd. intros Hb Hne Hw.
  assert (Hrb : trimStart (rev b) = rev b).
  { rewrite <- (rev_involutive (trimStart (rev b))), Hb. reflexivity. }
  rewrite !rev_app_distr, <- app_assoc.
  rewrite trimStart_skip by (rewrite forallb_reverse; exact Hw).
  rewrite trimStart_app.
  - rewrite Hrb, rev_app_distr, !rev_involutive. reflexivity.
  - rewrite Hrb. intros E. apply Hne.
    rewrite <- (rev_involutive b), E. reflexivity.
Qed.

(** Only white space trims to the empty string. *)
Lemma trim_nil_blank (s : jstring) :
  trim s = [] -> forallb is_ws s = true.
Proof.
  intros E. unfold trim, trimEnd in E.
  assert (E' : trimStart (rev (trimStart s)) = []).
  { rewrite <- (rev_involutive (trimStart _)), E. reflexivity. }
  apply trimStart_nil in E'. rewrite forallb_reverse in E'.
  clear E. induction s as [|a s IH]; simpl in *; [reflexivity|].
  destruct (is_ws a) eqn:Ha; simpl.
  - apply IH, E'.
  - simpl in E'. rewrite Ha in E'. discriminate.
Qed.

(** A line with a character that is not white space is not blank. *)
Lemma text_not_blank (c : N) (s : jstring) :
  In c s -> is_ws c = false -> trim s <> [].
Proof.
  intros Hin Hc E. apply trim_nil_blank in E.
  rewrite forallb_forall in E. rewrite (E c Hin) in Hc. discriminate.
Qed.

Lemma split_nl_not_nil (s : jstring) : split_nl s <> [].
Proof.
  destruct s as [|c r]; simpl; [discriminate|].
  destruct (c =? 10); [discriminate|].
  destruct (split_nl r); discriminate.
Qed.

Lemma split_nl_single (l : jstring) :
  single_line l -> split_nl l = [l].
Proof.
  unfold single_line. induction l as [|c r IH]; simpl; intros H.
  - reflexivity.
  - apply andb_true_iff in H as [Hc Hr].
    destruct (c =? 10); [discriminate Hc|].
    rewrite IH by exact Hr. reflexivity.
Qed.

Lemma split_nl_line (l rest : jstring) :
  single_line l -> split_nl (l ++ 10 :: rest) = l :: split_nl rest.
Proof.
  unfold single_line. induction l as [|c r IH]; simpl; intros H.
  - reflexivity.
  - apply andb_true_iff in H as [Hc Hr].
    destruct (c =? 10); [discriminate Hc|].
    rewrite IH by exact Hr. reflexivity.
Qed.

(** The first line of a text that starts with [c], not a line feed. *)
Lemma split_nl_first (c : N) (s : jstring) :
  c <> 10 -> exists h t, split_nl (c :: s) = (c :: h) :: t.
Proof.
  intros Hc. simpl. destruct (N.eqb_spec c 10) as [E|_]; [contradiction|].
  destruct (split_nl s) as [|h t] eqn:E; [now apply split_nl_not_nil in E|].
  now exists h, t.
Qed.

(** A text that ends with a character other than a line feed has a last
    line that is not empty. *)
Lemma pop_split_nl_snoc (s : jstring) (c : N) :
  c <> 10 -> pop (split_nl (s ++ [c])) <> [].
Proof.
  intros Hc. unfold pop. induction s as [|a s IH]; simpl.
  - destruct (N.eqb_spec c 10); [contradiction | discriminate].
  - destruct (split_nl (s ++ [c])) as [|h t] eqn:E;
      [now apply split_nl_not_nil in E|].
    destruct (a =? 10).
    + exact IH.
    + destruct t as [|h' t']; [discriminate | exact IH].
Qed.

Lemma starts_with_app (p s : jstring) : starts_with p (p ++ s) = true.
Proof.
  induction p as [|c p IH]; simpl; [reflexivity|].
  now rewrite N.eqb_refl, IH.
Qed.

Lemma includes_unfold (s sub : jstring) :
  includes s sub
  = starts_with sub s
    || match s with [] => false | _ :: r => includes r sub end.
Proof. destruct s; reflexivity. Qed.

(** A text includes each of its infixes. *)
Lemma includes_infix (a sub b : jstring) : includes (a ++ sub ++ b) sub = true.
Proof.
  induction a as [|c a IH].
  - simpl. rewrite includes_unfold, starts_with_app. reflexivity.
  - rewrite includes_unfold. simpl. rewrite IH. apply orb_true_r.
Qed.

End StringFacts.

(** ** The stdout handler *)

Section StdoutHandler.

Variable fmt : jstring -> jstring.

Lemma line_body_not_json (line : jstring) :
  JSON_parse line = None -> line_body fmt line = ([], Throw SyntaxError).
Proof. intros H. unfold line_body. now rewrite H. Qed.

Lemma line_body_unknown_record (line : jstring) :
  unknown_record line -> line_body fmt line = ([], Normal tt).
Proof.
  intros (members & Hp & Hk). unfold line_body. rewrite Hp. simpl.
  now rewrite Hk.
Qed.

Lemma line_body_progress_record (line friendly : jstring) :
  progress_record fmt line friendly ->
  line_body fmt line = ([Progress (Phase friendly)], Normal tt).
Proof.
  intros (members & p & m & Hp & Hk & Hph & Hm & ->).
  unfold line_body. rewrite Hp. simpl. rewrite Hk. simpl.
  rewrite Hph. simpl. now rewrite Hm.
Qed.

(** One line reports at most one event, a [Phase] event, and only when
    the line declares the kind "progress". *)
Lemma line_body_cases (line : jstring) :
  (exists r, line_body fmt line = ([], r))
  \/ (exists friendly,
        line_body fmt line = ([Progress (Phase friendly)], Normal tt)
        /\ declares_progress line = true).
Proof.
  unfold line_body, declares_progress.
  destruct (JSON_parse line) as [log|]; [|left; eexists; reflexivity].
  destruct log as [|b|l|s|es|ms]; simpl; try (left; eexists; reflexivity).
  destruct (is_progress (own_property (js "type") ms));
    [|left; eexists; reflexivity].
  destruct (template_hole fmt (own_property (js "phase") ms)) as [p|e];
    simpl; [|left; eexists; reflexivity].
  destruct (template_hole fmt (own_property (js "message") ms)) as [m|e];
    simpl; [|left; eexists; reflexivity].
  right. eexists. split; reflexivity.
Qed.

Lemma for_lines_blank (line : jstring) (rest : list jstring) :
  trim line = [] -> for_lines fmt (line :: rest) = for_lines fmt rest.
Proof.
  intros H. simpl. rewrite H. unfold EffMonad.bind, EffMonad.ret.
  now destruct (for_lines fmt rest).
Qed.

Lemma for_lines_text (line : jstring) (rest : list jstring) :
  trim line <> [] ->
  for_lines fmt (line :: rest)
  = EffMonad.bind (line_body fmt line) (fun _ => for_lines fmt rest).
Proof.
  intros H. simpl. destruct (trim line); [now elim H | reflexivity].
Qed.

(** Lines that are blank or records of an unknown kind report nothing. *)
Lemma for_lines_unknown_records (lines : list jstring) :
  Forall (fun l => blank l \/ unknown_record l) lines ->
  for_lines fmt lines = ([], Normal tt).
Proof.
  induction 1 as [|line rest Hl _ IH]; [reflexivity|].
  destruct Hl as [Hb|Hu].
  - now rewrite for_lines_blank.
  - destruct (trim line) eqn:E; [now rewrite for_lines_blank|].
    rewrite for_lines_text by (rewrite E; discriminate).
    rewrite (line_body_unknown_record _ Hu), IH. reflexivity.
Qed.

(** Lines none of which is JSON: the loop throws at the first line that
    is not blank, before any report. *)
Lemma for_lines_no_json (lines : list jstring) :
  Forall (fun l => JSON_parse l = None) lines ->
  Exists (fun l => trim l <> []) lines ->
  for_lines fmt lines = ([], Throw SyntaxError).
Proof.
  induction 1 as [|line rest Hl Hrest IH]; intros Hex.
  - inversion Hex.
  - destruct (trim line) eqn:E.
    + rewrite for_lines_blank by exact E. apply IH.
      inversion Hex; subst; [congruence | assumption].
    + rewrite for_lines_text by (rewrite E; discriminate).
      now rewrite (line_body_not_json _ Hl).
Qed.

Lemma progress_events_app (t u : list Effect) :
  progress_events (t ++ u) = progress_events t ++ progress_events u.
Proof.
  induction t as [|e t IH]; [reflexivity|].
  destruct e; simpl; now rewrite IH.
Qed.

Lemma phase_count_app (t u : list Effect) :
  phase_count (t ++ u) = (phase_count t + phase_count u)%nat.
Proof.
  unfold phase_count.
  now rewrite progress_events_app, filter_app, length_app.
Qed.

(** The loop reports [Phase] events only, at most one for each line that
    declares the kind "progress". *)
Lemma for_lines_phase_bound (lines : list jstring) :
  (phase_count (fst (for_lines fmt lines))
   <= length (filter declares_progress lines))%nat
  /\ raw_count (fst (for_lines fmt lines)) = 0%nat.
Proof.
  induction lines as [|line rest [IH1 IH2]]; [split; [apply le_n | reflexivity]|].
  destruct (trim line) eqn:E.
  - rewrite for_lines_blank by exact E. split; [|exact IH2].
    simpl. destruct (declares_progress line); simpl; lia.
  - rewrite for_lines_text by (rewrite E; discriminate).
    destruct (line_body_cases line) as [[r Hr]|(friendly & Hf & Hd)].
    + rewrite Hr. unfold EffMonad.bind.
      destruct r as [[]|e]; simpl.
      * destruct (for_lines fmt rest) as [t' r'] eqn:Er. simpl in *.
        split; [|exact IH2].
        destruct (declares_progress line); simpl; lia.
      * split; [|reflexivity]. unfold phase_count. simpl. lia.
    + rewrite Hf. cbn [filter]. rewrite Hd. unfold EffMonad.bind.
      destruct (for_lines fmt rest) as [t' r'] eqn:Er. simpl in *.
      split.
      * unfold phase_count in *. simpl. lia.
      * unfold raw_count in *. simpl. exact IH2.
Qed.

(** The handler as a function of what its loop did. *)
Lemma on_stdout_data_unfold (output : jstring) :
  on_stdout_data fmt output
  = match for_lines fmt (split_nl (trim output)) with
    | (t, Normal _) => (ChannelAppend output :: t, Normal tt)
    | (t, Throw _) =>
        (ChannelAppend output
           :: t ++ match pop (split_nl (trim output)) with
                   | [] => []
                   | lastLine => [Progress (Raw lastLine)]
                   end,
         Normal tt)
    end.
Proof.
  unfold on_stdout_data, EffMonad.bind, EffMonad.try_catch, EffMonad.emit.
  simpl. destruct (for_lines fmt (split_nl (trim output))) as [t [[]|e]].
  - reflexivity.
  - destruct (pop (split_nl (trim output))); reflexivity.
Qed.

(** The stdout handler returns normally on every chunk. *)
Lemma on_stdout_data_never_throws (output : jstring) :
  snd (on_stdout_data fmt output) = Normal tt.
Proof.
  rewrite on_stdout_data_unfold.
  now destruct (for_lines fmt (split_nl (trim output))) as [t [[]|e]].
Qed.

Lemma on_stdout_data_phase_bound (output : jstring) :
  (phase_count (fst (on_stdout_data fmt output))
   <= length (filter declares_progress (split_nl (trim output))))%nat.
Proof.
  rewrite on_stdout_data_unfold.
  destruct (for_lines_phase_bound (split_nl (trim output))) as [Hb _].
  destruct (for_lines fmt (split_nl (trim output))) as [t [[]|e]];
    simpl in *.
  - exact Hb.
  - change (ChannelAppend output :: t ++ ?x)
      with ([ChannelAppend output] ++ t ++ x).
    rewrite !phase_count_app.
    destruct (pop (split_nl (trim output))); unfold phase_count in *;
      simpl; lia.
Qed.

End StdoutHandler.

(** ** The loop of the stdout handler, line by line *)

(** Take a positive number apart, seven binary digits deep. *)
Ltac split_bits :=
  do 7 (try match goal with
            | q : positive |- _ => destruct q as [q|q|]
            end).

(** No JSON text starts with a code unit above the ASCII range. *)
Lemma lex_start_high (c : N) : (128 <=? c) = true -> lex_start c = None.
Proof.
  intros H.
  assert (Hd : is_digit c = false).
  { unfold is_digit. apply andb_false_iff. right.
    apply N.leb_le in H. apply N.leb_gt. lia. }
  unfold lex_start. rewrite Hd. clear Hd.
  destruct c as [|p]; [discriminate H|].
  split_bits; first [reflexivity | discriminate H].
Qed.

(** White space either is skipped by the scanner or stops it. *)
Lemma lex_start_ws (c : N) :
  is_ws c = true ->
  lex_start c = None \/ lex_start c = Some (LStart, []).
Proof.
  intros H. destruct (128 <=? c) eqn:Hc.
  - left. now apply lex_start_high.
  - destruct c as [|p]; [discriminate H|].
    split_bits;
      first [discriminate Hc | discriminate H
            | right; reflexivity | left; reflexivity].
Qed.

(** A blank line is not JSON. *)
Lemma blank_not_json (line : jstring) :
  blank line -> JSON_parse line = None.
Proof.
  intros H. apply trim_nil_blank in H.
  assert (Hlex : lex line = None \/ lex line = Some []).
  { unfold lex. induction line as [|c r IH]; [now right|].
    simpl in H. apply andb_true_iff in H as [Hc Hr]. simpl.
    destruct (lex_start_ws c Hc) as [-> | ->]; [now left|].
    destruct (IH Hr) as [-> | ->]; [now left | now right]. }
  unfold JSON_parse. destruct Hlex as [-> | ->]; reflexivity.
Qed.

Section LoopOutcome.

Variable fmt : jstring -> jstring.

Lemma line_body_unreadable (line : jstring) :
  unreadable line -> exists e, line_body fmt line = ([], Throw e).
Proof.
  unfold line_body. intros [-> | ->]; eexists; reflexivity.
Qed.

Lemma line_body_other_value (line : jstring) :
  other_value line -> line_body fmt line = ([], Normal tt).
Proof.
  intros (v & Hp & Hv). unfold line_body. rewrite Hp.
  destruct v; try (now elim Hv); reflexivity.
Qed.

Lemma line_body_throwing (line : jstring) :
  throwing fmt line -> exists e, line_body fmt line = ([], Throw e).
Proof.
  intros [_ [Hu | (ms & Hp & Hk & Hh)]].
  - now apply line_body_unreadable.
  - unfold line_body. rewrite Hp.
    unfold get_field, EffMonad.lift, EffMonad.bind. rewrite Hk.
    destruct Hh as [[e He] | [e He]].
    + rewrite He. now exists e.
    + destruct (template_hole fmt (own_property (js "phase") ms)) as [p|e'];
        [|now exists e'].
      rewrite He. now exists e.
Qed.

(** A blank line reports nothing. *)
Lemma passes_blank (line : jstring) (evs : list ProgressEvent) :
  blank line -> passes fmt line evs -> evs = [].
Proof.
  intros Hb [[[_ ->]|[[_ ->]|(friendly & Hp & ->)]] | [_ ->]];
    try reflexivity.
  apply blank_not_json in Hb.
  destruct Hp as (ms & p & m & Hparse & _). congruence.
Qed.

Lemma line_body_passes (line : jstring) (evs : list ProgressEvent) :
  trim line <> [] -> passes fmt line evs ->
  line_body fmt line = (map Progress evs, Normal tt).
Proof.
  intros Hnb [[[Hb ->]|[[Hu ->]|(friendly & Hp & ->)]] | [Ho ->]].
  - now elim Hnb.
  - now apply line_body_unknown_record.
  - now apply line_body_progress_record.
  - now apply line_body_other_value.
Qed.

(** A line the loop passes does not make it throw, and every line does
    the one or the other. *)
Lemma passes_not_throwing (line : jstring) (evs : list ProgressEvent) :
  passes fmt line evs -> ~ throwing fmt line.
Proof.
  intros Hp [Hnb Ht].
  pose proof (line_body_passes line evs Hnb Hp) as Hbody.
  destruct (line_body_throwing line (conj Hnb Ht)) as [e He].
  rewrite He in Hbody. discriminate Hbody.
Qed.

Lemma line_passes_or_throws (line : jstring) :
  (exists evs, passes fmt line evs) \/ throwing fmt line.
Proof.
  destruct (trim line) as [|c r] eqn:E.
  { left. exists []. left. left. now split. }
  assert (Hnb : ~ blank line) by (unfold blank; rewrite E; discriminate).
  destruct (JSON_parse line) as [v|] eqn:Hp;
    [|right; split; [exact Hnb | left; now left]].
  destruct v as [|b|l|s|es|ms];
    try (left; exists []; right; split; [|reflexivity];
         eexists; split; [exact Hp | exact I]).
  - right. split; [exact Hnb | left; now right].
  - destruct (is_progress (own_property (js "type") ms)) eqn:Hk.
    + destruct (template_hole fmt (own_property (js "phase") ms))
        as [ph|e] eqn:Hph.
      * destruct (template_hole fmt (own_property (js "message") ms))
          as [m|e] eqn:Hm.
        -- left. exists [Phase (js "Phase " ++ ph ++ js ": " ++ m)].
           left. right. right. eexists. split; [|reflexivity].
           exists ms, ph, m. repeat split; assumption.
        -- right. split; [exact Hnb|]. right. exists ms.
           split; [exact Hp|]. split; [exact Hk|]. right. now exists e.
      * right. split; [exact Hnb|]. right. exists ms.
        split; [exact Hp|]. split; [exact Hk|]. left. now exists e.
    + left. exists []. left. right. left. split; [|reflexivity].
      exists ms. now split.
Qed.

(** What a line reports when the loop passes it is determined. *)
Lemma passes_determined (lines : list jstring)
    (evss evss' : list (list ProgressEvent)) :
  Forall2 (passes fmt) lines evss -> Forall2 (passes fmt) lines evss' ->
  evss = evss'.
Proof.
  intros H. revert evss'.
  induction H as [|line evs lines evss Hl _ IH]; intros evss' H';
    inversion H' as [|? evs' ? evss'' Hl' Hrest]; subst; [reflexivity|].
  f_equal; [|now apply IH].
  destruct (trim line) as [|c r] eqn:E.
  - rewrite (passes_blank line evs E Hl). symmetry.
    exact (passes_blank line evs' E Hl').
  - assert (Hnb : trim line <> []) by (rewrite E; discriminate).
    pose proof (line_body_passes line evs Hnb Hl) as H1.
    rewrite (line_body_passes line evs' Hnb Hl') in H1.
    injection H1 as H1. clear - H1.
    revert evs H1. induction evs' as [|e' evs' IH]; intros [|e evs] H;
      try discriminate H; [reflexivity|].
    simpl in H. injection H as -> H. f_equal. now apply IH.
Qed.

(** The loop on lines it passes, followed by others. *)
Lemma for_lines_passes (lines : list jstring)
    (evss : list (list ProgressEvent)) (rest : list jstring) :
  Forall2 (passes fmt) lines evss ->
  for_lines fmt (lines ++ rest)
  = (map Progress (concat evss) ++ fst (for_lines fmt rest),
     snd (for_lines fmt rest)).
Proof.
  induction 1 as [|line evs lines evss Hl _ IH].
  - simpl. now destruct (for_lines fmt rest).
  - change ((line :: lines) ++ rest) with (line :: lines ++ rest).
    destruct (trim line) as [|c r] eqn:E.
    + rewrite for_lines_blank by exact E.
      rewrite (passes_blank line evs E Hl). exact IH.
    + assert (Hnb : trim line <> []) by (rewrite E; discriminate).
      rewrite for_lines_text by exact Hnb.
      rewrite (line_body_passes line evs Hnb Hl), IH.
      unfold EffMonad.bind. simpl concat.
      now rewrite map_app, <- app_assoc.
Qed.

Lemma for_lines_reports (lines : list jstring)
    (evss : list (list ProgressEvent)) (rest : list jstring) :
  Forall2 (reports fmt) lines evss ->
  for_lines fmt (lines ++ rest)
  = (map Progress (concat evss) ++ fst (for_lines fmt rest),
     snd (for_lines fmt rest)).
Proof.
  intros H. apply for_lines_passes.
  induction H; constructor; [now left | assumption].
Qed.

(** Lines that do not throw are lines the loop passes. *)
Lemma passes_all (lines : list jstring) :
  Forall (fun l => ~ throwing fmt l) lines ->
  exists evss, Forall2 (passes fmt) lines evss.
Proof.
  induction 1 as [|line lines Hl _ [evss IH]]; [exists []; constructor|].
  destruct (line_passes_or_throws line) as [[evs Hp] | Ht];
    [|now elim Hl].
  exists (evs :: evss). now constructor.
Qed.

(** The loop throws exactly when one of its lines does. *)
Lemma for_lines_throws_iff (lines : list jstring) :
  (exists e, snd (for_lines fmt lines) = Throw e)
  <-> Exists (throwing fmt) lines.
Proof.
  induction lines as [|line rest IH].
  - split; [intros [e H]; discriminate H | intros H; inversion H].
  - destruct (line_passes_or_throws line) as [[evs Hp] | Ht].
    + change (line :: rest) with ([line] ++ rest).
      rewrite (for_lines_passes [line] [evs] rest)
        by (constructor; [exact Hp | constructor]).
      cbn [snd]. rewrite IH. split.
      * intros H. now apply Exists_cons_tl.
      * intros H. inversion H; subst;
          [now elim (passes_not_throwing _ _ Hp) | assumption].
    + split; [intros _; now apply Exists_cons_hd|]. intros _.
      rewrite for_lines_text by exact (proj1 Ht).
      destruct (line_body_throwing _ Ht) as [e ->]. now exists e.
Qed.

(** The trimmed chunk, when not empty, has a last line that is not
    empty. *)
Lemma pop_trim_not_nil (output : jstring) :
  trim output <> [] -> pop (split_nl (trim output)) <> [].
Proof.
  intros Hne.
  destruct (trimEnd_ends_with_text (trimStart output) Hne)
    as (x & d & Hx & Hd).
  unfold trim. rewrite Hx. apply pop_split_nl_snoc.
  intros ->. discriminate Hd.
Qed.

(** A chunk with a line that throws holds text. *)
Lemma throwing_line_text (output : jstring) :
  Exists (throwing fmt) (split_nl (trim output)) -> trim output <> [].
Proof.
  intros H E. rewrite E in H.
  inversion H as [l ls [Hnb _]|l ls Hrest]; subst.
  - now apply Hnb.
  - inversion Hrest.
Qed.

Lemma raw_count_app (t u : list Effect) :
  raw_count (t ++ u) = (raw_count t + raw_count u)%nat.
Proof.
  unfold raw_count.
  now rewrite progress_events_app, filter_app, length_app.
Qed.

(** The fallback reports its [Raw] event exactly when a line throws. *)
Lemma on_stdout_data_raw (output : jstring) :
  (Exists (throwing fmt) (split_nl (trim output))
   /\ raw_count (fst (on_stdout_data fmt output)) = 1%nat)
  \/ (~ Exists (throwing fmt) (split_nl (trim output))
      /\ raw_count (fst (on_stdout_data fmt output)) = 0%nat).
Proof.
  rewrite on_stdout_data_unfold.
  pose proof (for_lines_throws_iff (split_nl (trim output))) as Hiff.
  destruct (for_lines_phase_bound fmt (split_nl (trim output))) as [_ Hraw].
  destruct (for_lines fmt (split_nl (trim output))) as [t [[]|e]];
    cbn [fst snd] in *.
  - right. split.
    + intros H. apply Hiff in H as [e H]. discriminate H.
    + exact Hraw.
  - left.
    assert (Hex : Exists (throwing fmt) (split_nl (trim output)))
      by (apply Hiff; now exists e).
    split; [exact Hex|].
    pose proof (pop_trim_not_nil output (throwing_line_text output Hex))
      as Hlast.
    change (ChannelAppend output :: t ++ ?x)
      with ([ChannelAppend output] ++ t ++ x).
    rewrite !raw_count_app, Hraw.
    destruct (pop (split_nl (trim output))); [now elim Hlast|].
    reflexivity.
Qed.

End LoopOutcome.


Lemma trim_skip (w s : jstring) :
  forallb is_ws w = true -> trim (w ++ s) = trim s.
Proof. intros H. unfold trim. now rewrite trimStart_skip. Qed.

(** A chunk of four lines between white space, the first line starting
    with text and the last one ending with text: what [trim] and [split]
    make of it. *)
Lemma four_lines_split (head r l1 l2 l3 tail : jstring) :
  forallb is_ws head = true ->
  r <> [] -> trimStart r = r ->
  l3 <> [] -> trimEnd l3 = l3 ->
  forallb is_ws tail = true ->
  single_line r -> single_line l1 -> single_line l2 -> single_line l3 ->
  split_nl (trim (head ++ r ++ 10 :: l1 ++ 10 :: l2 ++ 10 :: l3 ++ tail))
  = [r; l1; l2; l3].
Proof.
  intros Hh Hr Hr' H3 H3' Ht Sr S1 S2 S3.
  rewrite trim_skip by exact Hh.
  destruct r as [|c r']; [now elim Hr|].
  pose proof (trimStart_cons _ _ _ Hr') as Hc.
  assert (E : trim ((c :: r') ++ 10 :: l1 ++ 10 :: l2 ++ 10 :: l3 ++ tail)
              = (c :: r') ++ 10 :: l1 ++ 10 :: l2 ++ 10 :: l3).
  { simpl. rewrite trim_head by exact Hc. f_equal.
    replace (r' ++ 10 :: l1 ++ 10 :: l2 ++ 10 :: l3 ++ tail)
      with ((r' ++ 10 :: l1 ++ 10 :: l2 ++ [10]) ++ l3 ++ tail)
      by (repeat (rewrite <- app_assoc; simpl); reflexivity).
    rewrite trimEnd_keep by assumption.
    repeat (rewrite <- app_assoc; simpl). reflexivity. }
  rewrite E.
  rewrite split_nl_line by exact Sr.
  rewrite split_nl_line by exact S1.
  rewrite split_nl_line by exact S2.
  rewrite split_nl_single by exact S3.
  reflexivity.
Qed.

Lemma ends_in_text_not_blank (l : jstring) :
  l <> [] -> trimEnd l = l -> trim l <> [].
Proof.
  intros Hne He.
  destruct (trimEnd_ends_with_text l) as (x & d & Hx & Hd);
    [now rewrite He|].
  apply (text_not_blank d); [|exact Hd].
  rewrite <- He, Hx. apply in_or_app. right. now left.
Qed.

(** C8.  The stdout handler returns normally on every chunk, and it
    reports at most one [Phase] event for each line that parses as a
    record of kind "progress".  On a chunk made of one well-formed
    progress record followed by three lines of text that is not JSON
    (with white space before and after, if any), it reports exactly one
    [Phase] event, that of the record, followed by the single fallback
    event: the text lines add no [Phase] event. *)
Theorem stdout_parser_robust
    (fmt : jstring -> jstring) (output : jstring)
    (head r l1 l2 l3 tail friendly : jstring)
    (Hrecord : progress_record fmt r friendly)
    (Hstart : trimStart r = r)
    (Htext1 : JSON_parse l1 = None)
    (Htext2 : JSON_parse l2 = None)
    (Htext3 : JSON_parse l3 = None)
    (Hend : l3 <> [] /\ trimEnd l3 = l3)
    (Hlines : single_line r /\ single_line l1 /\ single_line l2
              /\ single_line l3)
    (Haround : forallb is_ws head = true /\ forallb is_ws tail = true) :
  snd (on_stdout_data fmt output) = Normal tt
  /\ (phase_count (fst (on_stdout_data fmt output))
      <= length (filter declares_progress (split_nl (trim output))))%nat
  /\ on_stdout_data fmt
       (head ++ r ++ 10 :: l1 ++ 10 :: l2 ++ 10 :: l3 ++ tail)
     = ([ChannelAppend
           (head ++ r ++ 10 :: l1 ++ 10 :: l2 ++ 10 :: l3 ++ tail);
         Progress (Phase friendly);
         Progress (Raw l3)],
        Normal tt)
  /\ phase_count
       (fst (on_stdout_data fmt
               (head ++ r ++ 10 :: l1 ++ 10 :: l2 ++ 10 :: l3 ++ tail)))
     = 1%nat.
Proof.
  destruct Hend as [H3 H3']. destruct Hlines as (Sr & S1 & S2 & S3).
  destruct Haround as [Hh Ht].
  split; [apply on_stdout_data_never_throws|].
  split; [apply on_stdout_data_phase_bound|].
  assert (Hr : r <> []).
  { destruct Hrecord as (ms & _ & _ & Hp & _). intros ->. discriminate Hp. }
  assert (Hrun :
    on_stdout_data fmt
      (head ++ r ++ 10 :: l1 ++ 10 :: l2 ++ 10 :: l3 ++ tail)
    = ([ChannelAppend
          (head ++ r ++ 10 :: l1 ++ 10 :: l2 ++ 10 :: l3 ++ tail);
        Progress (Phase friendly); Progress (Raw l3)], Normal tt)).
  { rewrite on_stdout_data_unfold.
    rewrite four_lines_split by assumption.
    assert (Hnb : trim r <> []).
    { destruct r as [|c r']; [now elim Hr|].
      apply (text_not_blank c); [now left|].
      exact (trimStart_cons _ _ _ Hstart). }
    rewrite for_lines_text by exact Hnb.
    rewrite (line_body_progress_record fmt _ _ Hrecord).
    rewrite (for_lines_no_json fmt [l1; l2; l3]).
    - simpl. unfold pop. simpl.
      destruct l3; [now elim H3 | reflexivity].
    - repeat constructor; assumption.
    - apply Exists_cons_tl, Exists_cons_tl, Exists_cons_hd.
      now apply ends_in_text_not_blank. }
  split; [exact Hrun|]. rewrite Hrun. reflexivity.
Qed.

Lemma stdout_parser_robust_witness :
  on_stdout_data literal_text
    (jsq "{'type':'progress','phase':1,'message':'scanning'}"
     ++ 10 :: js "Traceback (most recent call last):"
     ++ 10 :: js "  File run_agent.py, line 12"
     ++ 10 :: js "ValueError: no project" ++ [10])
  = ([ChannelAppend
        (jsq "{'type':'progress','phase':1,'message':'scanning'}"
         ++ 10 :: js "Traceback (most recent call last):"
         ++ 10 :: js "  File run_agent.py, line 12"
         ++ 10 :: js "ValueError: no project" ++ [10]);
      Progress (Phase (js "Phase 1: scanning"));
      Progress (Raw (js "ValueError: no project"))],
     Normal tt).
Proof.
  refine (proj1 (proj2 (proj2
    (stdout_parser_robust literal_text (js "x") []
       (jsq "{'type':'progress','phase':1,'message':'scanning'}")
       (js "Traceback (most recent call last):")
       (js "  File run_agent.py, line 12")
       (js "ValueError: no project") [10] (js "Phase 1: scanning")
       _ _ _ _ _ _ _ _)))).
  - exists [(js "type", JString (js "progress"));
            (js "phase", JNumber (js "1"));
            (js "message", JString (js "scanning"))],
      (js "1"), (js "scanning").
    repeat split; reflexivity.
  - reflexivity.
  - reflexivity.
  - reflexivity.
  - reflexivity.
  - split; [discriminate | reflexivity].
  - repeat split; reflexivity.
  - split; reflexivity.
Defined.

(** C6, as the code has it.  A line that parses as a record whose kind is
    not "progress" reports nothing and does not throw, so it does not
    reach the fallback: on a chunk whose lines are all blank or such
    records, the handler appends the chunk to the channel and reports no
    event at all.  The fallback reports its [Raw] event exactly when a
    line of the chunk makes the loop throw: a line that is not blank and
    is not JSON, or is the JSON [null], or is a record of kind
    "progress" whose [phase] or [message] cannot be printed. *)
Theorem unknown_records_report_nothing
    (fmt : jstring -> jstring) (output : jstring) :
  (Forall (fun l => blank l \/ unknown_record l) (split_nl (trim output)) ->
   on_stdout_data fmt output = ([ChannelAppend output], Normal tt))
  /\ (forall line, unknown_record line ->
        line_body fmt line = ([], Normal tt) /\ ~ throwing fmt line)
  /\ ((0 < raw_count (fst (on_stdout_data fmt output)))%nat
      <-> Exists (throwing fmt) (split_nl (trim output))).
Proof.
  split; [|split].
  - intros Hlines. rewrite on_stdout_data_unfold.
    now rewrite (for_lines_unknown_records fmt _ Hlines).
  - intros line Hu. split; [now apply line_body_unknown_record|].
    apply (passes_not_throwing fmt line []).
    left. right. left. now split.
  - destruct (on_stdout_data_raw fmt output) as [[Hex ->] | [Hno ->]].
    + split; [intros _; exact Hex | intros _; apply Nat.lt_0_1].
    + split; [intros H; inversion H | intros H; now elim Hno].
Qed.

Lemma unknown_records_report_nothing_witness :
  on_stdout_data literal_text
    (jsq "{'type':'log','message':'starting'}" ++ [10])
  = ([ChannelAppend (jsq "{'type':'log','message':'starting'}" ++ [10])],
     Normal tt).
Proof.
  apply (proj1 (unknown_records_report_nothing literal_text
                  (jsq "{'type':'log','message':'starting'}" ++ [10]))).
  constructor; [|constructor].
  right.
  exists [(js "type", JString (js "log"));
          (js "message", JString (js "starting"))].
  split; reflexivity.
Defined.

(** C6, as stated, fails: the chunk holds one line, a record of kind
    "log"; the handler reports no [Raw] event (and no event at all). *)
Lemma unknown_record_counterexample :
  unknown_record (jsq "{'type':'log','message':'starting'}")
  /\ progress_events
       (fst (on_stdout_data literal_text
               (jsq "{'type':'log','message':'starting'}" ++ [10])))
     = [].
Proof.
  split; [|reflexivity].
  exists [(js "type", JString (js "log"));
          (js "message", JString (js "starting"))].
  split; reflexivity.
Qed.

(** C9, as the code has it.  On a chunk that holds text (a character that
    is not white space) and none of whose lines, as the handler splits
    them after trimming the chunk, is JSON, the handler reports exactly
    one event, a [Raw] event whose message is the last line of the
    trimmed chunk; that line is not empty. *)
Theorem raw_fallback_once_per_chunk
    (fmt : jstring -> jstring) (output : jstring)
    (Htext : forallb is_ws output = false)
    (Hnone : Forall (fun l => JSON_parse l = None) (split_nl (trim output))) :
  on_stdout_data fmt output
  = ([ChannelAppend output;
      Progress (Raw (pop (split_nl (trim output))))],
     Normal tt)
  /\ pop (split_nl (trim output)) <> [].
Proof.
  assert (Hne : trim output <> []).
  { intros E. apply trim_nil_blank in E. congruence. }
  assert (Hlast : pop (split_nl (trim output)) <> []).
  { destruct (trimEnd_ends_with_text (trimStart output) Hne)
      as (x & d & Hx & Hd).
    unfold trim. rewrite Hx. apply pop_split_nl_snoc.
    intros ->. discriminate Hd. }
  split; [|exact Hlast].
  rewrite on_stdout_data_unfold.
  destruct (trim_starts_with_text output Hne) as (c & s & Hs & Hc).
  destruct (split_nl_first c s) as (h & t & Hsplit);
    [intros ->; discriminate Hc|].
  rewrite (for_lines_no_json fmt _ Hnone).
  - simpl. destruct (pop (split_nl (trim output))); [now elim Hlast|].
    reflexivity.
  - rewrite Hs, Hsplit. apply Exists_cons_hd.
    apply (text_not_blank c); [now left | exact Hc].
Qed.

Lemma raw_fallback_once_per_chunk_witness :
  on_stdout_data literal_text
    (js "Loading model" ++ 10 :: js "  resolving imports  " ++ [13; 10])
  = ([ChannelAppend
        (js "Loading model" ++ 10 :: js "  resolving imports  " ++ [13; 10]);
      Progress (Raw (js "  resolving imports"))],
     Normal tt).
Proof.
  refine (proj1 (raw_fallback_once_per_chunk literal_text
                   (js "Loading model" ++ 10 :: js "  resolving imports  "
                    ++ [13; 10]) _ _)).
  - reflexivity.
  - vm_compute. repeat constructor.
Defined.

(** C9, as stated, fails twice.  The chunk [42] has one line, which is
    not a record, and the handler reports nothing: the line is JSON, so
    nothing throws.  The chunk made of the line [  Loading model  ] and a
    line feed has no JSON at all; the handler reports the text without
    the white space around it, which is not the last non-empty line of
    the chunk. *)
Lemma raw_fallback_counterexample :
  (Forall (fun l => ~ parses_as_record l) (split_nl (js "42"))
   /\ nonempty_lines (js "42") = [js "42"]
   /\ progress_events (fst (on_stdout_data literal_text (js "42"))) = [])
  /\ (Forall (fun l => JSON_parse l = None)
        (split_nl (js "  Loading model  " ++ [10]))
      /\ last_nonempty_line (js "  Loading model  " ++ [10])
         = js "  Loading model  "
      /\ progress_events
           (fst (on_stdout_data literal_text
                   (js "  Loading model  " ++ [10])))
         = [Raw (js "Loading model")]).
Proof.
  split; split.
  - constructor; [|constructor]. intros [ms H]. discriminate H.
  - split; reflexivity.
  - vm_compute. repeat constructor.
  - split; reflexivity.
Qed.

(** ** The supervisor: dispatching the events of the agent process *)

Section Supervisor.

Variable World : Type.
Variable fmt : jstring -> jstring.

Lemma error_notifications_app (t u : list Effect) :
  error_notifications (t ++ u)
  = (error_notifications t + error_notifications u)%nat.
Proof. unfold error_notifications. now rewrite filter_app, length_app. Qed.

(** The loop of the stdout handler only reports progress. *)
Lemma for_lines_only_progress (lines : list jstring) :
  error_notifications (fst (for_lines fmt lines)) = 0%nat.
Proof.
  induction lines as [|line rest IH]; [reflexivity|].
  destruct (trim line) eqn:E.
  - now rewrite for_lines_blank by exact E.
  - rewrite for_lines_text by (rewrite E; discriminate).
    unfold EffMonad.bind.
    destruct (line_body_cases fmt line) as [[r Hr]|(friendly & Hf & _)].
    + rewrite Hr. destruct r as [[]|e]; [|reflexivity].
      now destruct (for_lines fmt rest).
    + rewrite Hf. now destruct (for_lines fmt rest).
Qed.

Lemma on_stdout_data_no_notification (output : jstring) :
  error_notifications (fst (on_stdout_data fmt output)) = 0%nat.
Proof.
  rewrite on_stdout_data_unfold.
  pose proof (for_lines_only_progress (split_nl (trim output))) as H.
  destruct (for_lines fmt (split_nl (trim output))) as [t [[]|e]];
    simpl in *.
  - exact H.
  - change (ChannelAppend output :: t ++ ?x)
      with ([ChannelAppend output] ++ t ++ x).
    rewrite !error_notifications_app, H.
    now destruct (pop (split_nl (trim output))).
Qed.

(** Dispatching never throws and leaves the world as it was; the token
    is cancelled afterwards when it was before or when a request came;
    every stderr chunk adds one line to the channel and one error
    notification, and nothing else adds an error notification. *)
Lemma dispatch_spec (evs : list JobEvent) (s : Host.State World) :
  exists t s',
    dispatch World fmt evs s = (t, s', Normal tt)
    /\ Host.world s' = Host.world s
    /\ Host.isCancellationRequested s'
       = Host.isCancellationRequested s || existsb is_cancellation evs
    /\ error_notifications t = length (stderr_chunks evs)
    /\ (forall d, In d (stderr_chunks evs) ->
                  In (ChannelAppendLine (js "[ERROR] " ++ d)) t).
Proof.
  revert s. induction evs as [|e evs IH]; intros s.
  - exists [], s. simpl. rewrite orb_false_r. repeat split. intros d [].
  - destruct e as [d|d|].
    + destruct (IH s) as (t & s' & Hrun & Hw & Hc & Hn & Hlog).
      exists (fst (on_stdout_data fmt d) ++ t), s'.
      split; [|split; [|split; [|split]]].
      * simpl. unfold Host.bind, Host.liftE.
        rewrite on_stdout_data_never_throws, Hrun. reflexivity.
      * exact Hw.
      * exact Hc.
      * rewrite error_notifications_app, on_stdout_data_no_notification.
        exact Hn.
      * intros d' Hd'. apply in_or_app. right. now apply Hlog.
    + destruct (IH s) as (t & s' & Hrun & Hw & Hc & Hn & Hlog).
      exists (fst (on_stderr_data d) ++ t), s'.
      split; [|split; [|split; [|split]]].
      * simpl. unfold Host.bind, Host.liftE. simpl. rewrite Hrun.
        reflexivity.
      * exact Hw.
      * exact Hc.
      * rewrite error_notifications_app. simpl. now rewrite Hn.
      * intros d' [<-|Hd']; [now left|].
        apply in_or_app. right. now apply Hlog.
    + destruct (Host.isCancellationRequested s) eqn:Ec.
      * destruct (IH s) as (t & s' & Hrun & Hw & Hc & Hn & Hlog).
        exists t, s'.
        split; [|split; [|split; [|split]]].
        -- simpl. unfold Host.bind, Host.cancellation_requested.
           rewrite Ec. simpl. rewrite Hrun. reflexivity.
        -- exact Hw.
        -- rewrite Hc, Ec. reflexivity.
        -- exact Hn.
        -- exact Hlog.
      * destruct (IH {| Host.world := Host.world s;
                        Host.isCancellationRequested := true |})
          as (t & s' & Hrun & Hw & Hc & Hn & Hlog).
        exists (fst on_cancellation ++ t), s'.
        split; [|split; [|split; [|split]]].
        -- simpl. unfold Host.bind, Host.cancellation_requested,
             Host.set_cancelled, Host.liftE.
           rewrite Ec. simpl. rewrite Hrun. reflexivity.
        -- exact Hw.
        -- rewrite Hc. reflexivity.
        -- rewrite error_notifications_app. exact Hn.
        -- intros d' Hd'. apply in_or_app. right. now apply Hlog.
Qed.

(** The promise settles the way the close listener reports. *)
Lemma supervise_spec (b : Behaviour) (s : Host.State World) :
  exists t s',
    dispatch World fmt (events b) s = (t, s', Normal tt)
    /\ supervise World fmt b s
       = (t ++ fst (on_close (Host.isCancellationRequested s') (exit_code b)),
          s',
          snd (on_close (Host.isCancellationRequested s') (exit_code b))).
Proof.
  destruct (dispatch_spec (events b) s) as (t & s' & Hrun & _).
  exists t, s'. split; [exact Hrun|].
  unfold supervise, Host.bind, Host.cancellation_requested, Host.liftE.
  rewrite Hrun. reflexivity.
Qed.

End Supervisor.

(** C3.  When cancellation was requested before the close event, be it
    before the agent was spawned or while it ran, the invocation ends by
    reporting Cancelled, and no other outcome (neither Succeeded nor
    Failed), and its promise is resolved, whatever the exit code: the
    close listener does not inspect the code. *)
Theorem cancellation_takes_precedence
    (World : Type) (fmt : jstring -> jstring) (code : option Z)
    (b : Behaviour) (s : Host.State World)
    (Hcode : exit_code b = code)
    (Hrequested : Host.isCancellationRequested s = true
                  \/ In CancellationRequested (events b)) :
  ends_with Cancelled (supervise World fmt b s)
  /\ (forall o, ends_with o (supervise World fmt b s) -> o = Cancelled)
  /\ result_of (supervise World fmt b s) = Normal tt
  /\ on_close true code = report_outcome Cancelled.
Proof.
  destruct (supervise_spec World fmt b s) as (t & s' & Hrun & Hsup).
  destruct (dispatch_spec World fmt (events b) s)
    as (t0 & s0 & Hrun0 & _ & Hc & _).
  rewrite Hrun in Hrun0. injection Hrun0 as <- <-.
  assert (Hflag : Host.isCancellationRequested s' = true).
  { rewrite Hc. destruct Hrequested as [->|Hin]; [reflexivity|].
    apply orb_true_iff. right. apply existsb_exists.
    exists CancellationRequested. now split. }
  rewrite Hflag, on_close_cancelled in Hsup.
  assert (Hends : ends_with Cancelled (supervise World fmt b s)).
  { split; [exists t|]; now rewrite Hsup. }
  split; [exact Hends|]. split; [|split].
  - intros o Ho.
    apply (proj2 (report_outcome_separates o)).
    exact (ends_with_determines o Cancelled _ Ho Hends).
  - now rewrite Hsup.
  - apply on_close_cancelled.
Qed.

Lemma cancellation_takes_precedence_witness :
  ends_with Cancelled
    (supervise Scenario.World literal_text
       {| events := [StdoutData (js "working"); CancellationRequested];
          exit_code := Some 0%Z |}
       (Scenario.initially (Scenario.fresh_machine (Scenario.quiet None)))).
Proof.
  refine (proj1 (cancellation_takes_precedence Scenario.World literal_text
                   (Some 0%Z) _ _ _ _)).
  - reflexivity.
  - right. simpl. right. now left.
Defined.

(** The text of a code is [null] for the null code only. *)
Lemma code_text_null (code : option Z) :
  code_text code = js "null" -> code = None.
Proof.
  destruct code as [c|]; [|reflexivity].
  unfold code_text, of_Z. intros H. exfalso.
  destruct (Z.to_int c) as [d|d]; destruct d; discriminate H.
Qed.

(** The report of a failure tells its code and its message. *)
Lemma report_outcome_failed (o : JobOutcome) (message : jstring) :
  report_outcome o = report_outcome (Failed None message) ->
  o = Failed None message.
Proof.
  destruct o as [| |code m]; intros H; try discriminate H.
  unfold report_outcome in H.
  injection H as Hline Hm Hthrow.
  apply code_text_null in Hthrow.
  now subst.
Qed.

(** C10.  A process ended by a signal closes with a null code.  When no
    cancellation was requested before the close event, neither before
    the agent was spawned nor while it ran, the invocation ends by
    reporting Failed through the unexpected-error-code branch, carrying
    null, and no other outcome (neither Succeeded nor Cancelled, nor
    Failed with another message); its promise is rejected; and the
    message is none of the four phase messages. *)
Theorem null_exit_code_is_unexpected_failure
    (World : Type) (fmt : jstring -> jstring)
    (b : Behaviour) (s : Host.State World)
    (Hnull : exit_code b = None)
    (Hnot : Host.isCancellationRequested s = false
            /\ ~ In CancellationRequested (events b)) :
  ends_with (Failed None (unexpected_code_message None))
    (supervise World fmt b s)
  /\ (forall o, ends_with o (supervise World fmt b s) ->
                o = Failed None (unexpected_code_message None))
  /\ result_of (supervise World fmt b s)
     = Throw (Error (js "Agent process exited with code null"))
  /\ unexpected_code_message None
     = js "Agent process failed with unexpected error code null. Check the output panel for details."
  /\ ~ In (unexpected_code_message None)
         [general_error_message; discovery_message; execution_message;
          documentation_message].
Proof.
  destruct Hnot as [Hflag0 Hevents].
  destruct (supervise_spec World fmt b s) as (t & s' & Hrun & Hsup).
  destruct (dispatch_spec World fmt (events b) s)
    as (t0 & s0 & Hrun0 & _ & Hc & _).
  rewrite Hrun in Hrun0. injection Hrun0 as <- <-.
  assert (Hflag : Host.isCancellationRequested s' = false).
  { rewrite Hc, Hflag0. simpl.
    destruct (existsb is_cancellation (events b)) eqn:E; [|reflexivity].
    apply existsb_exists in E as (e & He & Hk).
    destruct e; try discriminate Hk. now elim Hevents. }
  rewrite Hflag, Hnull in Hsup.
  assert (Hends : ends_with (Failed None (unexpected_code_message None))
                    (supervise World fmt b s)).
  { split; [exists t|]; now rewrite Hsup. }
  split; [exact Hends|]. split; [|split; [|split]].
  - intros o Ho. apply report_outcome_failed.
    exact (ends_with_determines o _ _ Ho Hends).
  - now rewrite Hsup.
  - reflexivity.
  - vm_compute. intros [H|[H|[H|[H|[]]]]]; discriminate H.
Qed.

Lemma null_exit_code_is_unexpected_failure_witness :
  result_of
    (supervise Scenario.World literal_text
       {| events := [StdoutData (js "working"); StderrData (js "Killed")];
          exit_code := None |}
       (Scenario.initially (Scenario.fresh_machine (Scenario.quiet None))))
  = Throw (Error (js "Agent process exited with code null")).
Proof.
  refine (proj1 (proj2 (proj2
    (null_exit_code_is_unexpected_failure Scenario.World literal_text
       {| events := [StdoutData (js "working"); StderrData (js "Killed")];
          exit_code := None |}
       (Scenario.initially (Scenario.fresh_machine (Scenario.quiet None)))
       _ _)))).
  - reflexivity.
  - split; [reflexivity|].
    simpl. intros [H|[H|[]]]; discriminate H.
Defined.

(** C4, as the code has it.  The stderr listener shows an error
    notification for every chunk: while the agent runs, the number of
    error notifications equals the number of stderr chunks, and each
    chunk is appended to the channel behind the [ERROR] tag. *)
Theorem stderr_notifies_every_chunk
    (World : Type) (fmt : jstring -> jstring)
    (evs : list JobEvent) (s : Host.State World) :
  error_notifications (trace_of (dispatch World fmt evs s))
  = length (stderr_chunks evs)
  /\ forall d, In d (stderr_chunks evs) ->
       In (ChannelAppendLine (js "[ERROR] " ++ d))
          (trace_of (dispatch World fmt evs s)).
Proof.
  destruct (dispatch_spec World fmt evs s) as (t & s' & Hrun & _ & _ & Hn & Hl).
  rewrite Hrun. split; assumption.
Qed.

(** C4, as stated, fails: an agent that writes two chunks to stderr and
    exits with code 0 makes the invocation show two error
    notifications. *)
Lemma stderr_notification_counterexample :
  error_notifications
    (trace_of
       (Scenario.run Scenario.with_credentials
          (Scenario.fresh_machine
             {| events := [StderrData (js "warning: slow disk");
                           StderrData (js "warning: retrying")];
                exit_code := Some 0%Z |})))
  = 2%nat.
Proof. vm_compute. reflexivity. Qed.

(** ** The provisioner *)

Lemma spawn_count_app (args : list jstring) (t u : list Effect) :
  spawn_count args (t ++ u) = (spawn_count args t + spawn_count args u)%nat.
Proof. unfold spawn_count. now rewrite filter_app, length_app. Qed.

Lemma spawn_count_no_spawn (args : list jstring) (t : list Effect) :
  forallb not_spawn t = true -> spawn_count args t = 0%nat.
Proof.
  unfold spawn_count. induction t as [|e t IH]; [reflexivity|].
  simpl. intros H. apply andb_true_iff in H as [He Ht].
  destruct e; try discriminate He; simpl; auto.
Qed.

Lemma spawned_with_same (cmd : jstring) (args : list jstring) (cwd : jstring)
    (env : list (jstring * jstring)) :
  spawned_with args (Spawn cmd args cwd env) = true.
Proof.
  simpl. now destruct (list_eq_dec (list_eq_dec N.eq_dec) args args).
Qed.

Lemma spawned_with_other (cmd : jstring) (a args : list jstring)
    (cwd : jstring) (env : list (jstring * jstring)) :
  a <> args -> spawned_with args (Spawn cmd a cwd env) = false.
Proof.
  intros H. simpl. now destruct (list_eq_dec (list_eq_dec N.eq_dec) a args).
Qed.

Lemma spawn_count_cons (args : list jstring) (e : Effect) (t : list Effect) :
  spawn_count args (e :: t)
  = ((if spawned_with args e then 1 else 0) + spawn_count args t)%nat.
Proof. unfold spawn_count. simpl. now destruct (spawned_with args e). Qed.

(** Split the count of spawns of a trace along its conses and appends. *)
Ltac count_spawns :=
  unfold trace_of; simpl;
  repeat (rewrite spawn_count_cons || rewrite spawn_count_app).

Section Provisioner.

Variable World : Type.
Variable fs_stat : jstring -> World -> bool.
Variable run_process :
  jstring -> list jstring -> jstring -> World -> Behaviour * World.
Variable isWindows : bool.
Variable extensionPath : jstring.
Variable config : Config.

Let agent_dir : jstring := agentPath isWindows extensionPath.
Let interpreter : jstring := pythonExecutable isWindows extensionPath.
Let installer : jstring := pipExecutable isWindows extensionPath.

Lemma drain_command_spec (evs : list JobEvent) (s : Host.State World) :
  exists t s',
    drain_command World evs s = (t, s', Normal tt)
    /\ Host.world s' = Host.world s
    /\ forallb not_spawn t = true.
Proof.
  revert s. induction evs as [|e evs IH]; intros s.
  - exists [], s. repeat split.
  - destruct e as [d|d|].
    + destruct (IH s) as (t & s' & Hrun & Hw & Ht).
      exists (ConsoleLog (js "stdout: " ++ d) :: t), s'.
      simpl. unfold Host.bind, Host.emit. rewrite Hrun. repeat split; auto.
    + destruct (IH s) as (t & s' & Hrun & Hw & Ht).
      exists (ConsoleError (js "stderr: " ++ d) :: t), s'.
      simpl. unfold Host.bind, Host.emit. rewrite Hrun. repeat split; auto.
    + destruct (IH {| Host.world := Host.world s;
                      Host.isCancellationRequested := true |})
        as (t & s' & Hrun & Hw & Ht).
      exists t, s'.
      simpl. unfold Host.bind, Host.set_cancelled. rewrite Hrun.
      repeat split; auto.
Qed.

(** [runCommand] spawns the command once, in the agent directory, and
    throws exactly when the exit code is not the number 0. *)
Lemma runCommand_spec (cmd : jstring) (args : list jstring)
    (s : Host.State World) :
  exists t s',
    runCommand World run_process isWindows extensionPath cmd args s
    = (Spawn cmd args agent_dir [] :: t, s',
       if exits_zero
            (exit_code (fst (run_process cmd args agent_dir (Host.world s))))
       then Normal tt
       else Throw
              (Error
                 (command_failed
                    (exit_code
                       (fst (run_process cmd args agent_dir (Host.world s))))
                    cmd args)))
    /\ Host.world s' = snd (run_process cmd args agent_dir (Host.world s))
    /\ forallb not_spawn t = true.
Proof.
  unfold runCommand, spawn, Host.bind. subst agent_dir.
  destruct (run_process cmd args (agentPath isWindows extensionPath)
              (Host.world s)) as [b w] eqn:Erun.
  destruct (drain_command_spec (events b)
              {| Host.world := w;
                 Host.isCancellationRequested :=
                   Host.isCancellationRequested s |})
    as (t & s' & Hrun & Hw & Ht).
  rewrite Hrun. simpl.
  destruct (exits_zero (exit_code b)); simpl;
    (eexists; eexists; split; [reflexivity|]);
    rewrite ?app_nil_r; split; auto.
Qed.

Let sync : list jstring := sync_args isWindows extensionPath.
Let setup : Host.M World jstring :=
  setupPythonEnvironment World fs_stat run_process isWindows extensionPath
    config.

Lemma creation_is_not_sync : creation_args <> sync.
Proof. intros H. discriminate H. Qed.

(** One call when the interpreter exists: the creation command is not
    run, the dependency-sync command is run once, and the world is the
    one that command leaves. *)
Lemma setup_when_present (s : Host.State World) :
  fs_stat interpreter (Host.world s) = true ->
  Host.world (state_of (setup s))
  = snd (run_process installer sync agent_dir (Host.world s))
  /\ spawn_count creation_args (trace_of (setup s)) = 0%nat
  /\ spawn_count sync (trace_of (setup s)) = 1%nat.
Proof.
  intros Hfound. subst setup.
  unfold setupPythonEnvironment, Host.try_catch, Host.bind, Host.emit, stat.
  fold interpreter. rewrite Hfound. simpl.
  destruct (runCommand_spec installer sync s) as (t & s' & Hrun & Hw & Ht).
  fold installer sync. rewrite Hrun.
  fold agent_dir in Hw |- *.
  destruct (exits_zero _); simpl; unfold state_of; simpl;
    (split; [exact Hw|]); count_spawns;
    rewrite !(spawn_count_no_spawn _ t Ht);
    rewrite spawned_with_other by (symmetry; apply creation_is_not_sync);
    rewrite spawned_with_same; split; reflexivity.
Qed.

(** The provisioner only spawns commands of three arguments. *)
Lemma setup_spawn_arity (s : Host.State World) (args : list jstring) :
  length args <> 3%nat -> spawn_count args (trace_of (setup s)) = 0%nat.
Proof.
  intros Hlen. subst setup.
  assert (Hc : forall cmd cwd env,
             spawned_with args (Spawn cmd creation_args cwd env) = false).
  { intros. apply spawned_with_other. intros <-. now apply Hlen. }
  assert (Hs : forall cmd cwd env,
             spawned_with args (Spawn cmd sync cwd env) = false).
  { intros. apply spawned_with_other. intros <-. now apply Hlen. }
  unfold setupPythonEnvironment, Host.try_catch, Host.bind, Host.emit, stat.
  destruct (fs_stat _ (Host.world s)); simpl.
  - destruct (runCommand_spec installer sync s) as (t & s' & Hrun & Hw & Ht).
    fold installer sync. rewrite Hrun.
    destruct (exits_zero _); simpl; count_spawns;
      rewrite !(spawn_count_no_spawn _ t Ht), Hs; reflexivity.
  - destruct (runCommand_spec (pythonCommand config) creation_args s)
      as (t & s' & Hrun & Hw & Ht).
    rewrite Hrun.
    destruct (exits_zero _); simpl.
    + destruct (runCommand_spec installer sync s') as (t2 & s2 & Hrun2 & Hw2 & Ht2).
      fold installer sync. rewrite Hrun2.
      destruct (exits_zero _); simpl; count_spawns;
        rewrite !(spawn_count_no_spawn _ t Ht),
          !(spawn_count_no_spawn _ t2 Ht2), Hs, Hc; reflexivity.
    + count_spawns.
      rewrite !(spawn_count_no_spawn _ t Ht), Hc. reflexivity.
Qed.

(** Successive calls: the trace of the first, then the others from the
    state the first one leaves. *)
Lemma provision_step (n : nat) (s : Host.State World) :
  trace_of (provision World fs_stat run_process isWindows extensionPath
              config (S n) s)
  = trace_of (setup s)
    ++ trace_of (provision World fs_stat run_process isWindows extensionPath
                   config n (state_of (setup s))).
Proof.
  subst setup. simpl. unfold Host.bind, Host.try_catch, Host.ret.
  destruct (setupPythonEnvironment World fs_stat run_process isWindows
              extensionPath config s) as [[t s1] [py|e]];
    unfold trace_of, state_of; simpl;
    destruct (provision World fs_stat run_process isWindows extensionPath
                config n s1) as [[t' s2] r]; simpl;
    now rewrite app_nil_r.
Qed.

(** Text of a failed dependency-sync command: it names the installer
    inside the [.venv] directory. *)
Lemma sync_failure_names_venv (code : option Z) :
  includes (command_failed code installer sync) (js "venv") = true.
Proof.
  subst installer sync.
  unfold command_failed, pipExecutable, venvPath, path_join.
  destruct isWindows.
  - replace (js "Command failed with code " ++ code_text code ++ js ": "
             ++ join (js "\")
                  [join (js "\") [agentPath true extensionPath; js ".venv"];
                   js "Scripts"; js "pip.exe"]
             ++ js " " ++ join (js " ") (sync_args true extensionPath))
      with ((js "Command failed with code " ++ code_text code ++ js ": "
             ++ agentPath true extensionPath ++ js "\" ++ [46])
            ++ js "venv"
            ++ (js "\" ++ js "Scripts" ++ js "\" ++ js "pip.exe"
                ++ js " " ++ join (js " ") (sync_args true extensionPath))).
    + apply includes_infix.
    + simpl. repeat (rewrite <- app_assoc; simpl). reflexivity.
  - replace (js "Command failed with code " ++ code_text code ++ js ": "
             ++ join (js "/")
                  [join (js "/") [agentPath false extensionPath; js ".venv"];
                   js "bin"; js "pip"]
             ++ js " " ++ join (js " ") (sync_args false extensionPath))
      with ((js "Command failed with code " ++ code_text code ++ js ": "
             ++ agentPath false extensionPath ++ js "/" ++ [46])
            ++ js "venv"
            ++ (js "/" ++ js "bin" ++ js "/" ++ js "pip"
                ++ js " " ++ join (js " ") (sync_args false extensionPath))).
    + apply includes_infix.
    + simpl. repeat (rewrite <- app_assoc; simpl). reflexivity.
Qed.

(** Text of a failed creation command: it names the [venv] module. *)
Lemma creation_failure_names_venv (code : option Z) :
  includes (command_failed code (pythonCommand config) creation_args)
    (js "venv") = true.
Proof.
  unfold command_failed.
  replace (js "Command failed with code " ++ code_text code ++ js ": "
           ++ pythonCommand config ++ js " " ++ join (js " ") creation_args)
    with ((js "Command failed with code " ++ code_text code ++ js ": "
           ++ pythonCommand config ++ js " -m ")
          ++ js "venv" ++ js " .venv").
  - apply includes_infix.
  - simpl. repeat (rewrite <- app_assoc; simpl). reflexivity.
Qed.

(** The diagnosis of a failed creation command is one of the first two
    branches of the [catch] block. *)
Lemma creation_failure_diagnosis (code : option Z) :
  setup_userMessage config
    (command_failed code (pythonCommand config) creation_args)
  = jsq "Python not found. Please check your Python path in settings. Current path: '"
    ++ pythonCommand config ++ jsq "'"
  \/ setup_userMessage config
       (command_failed code (pythonCommand config) creation_args)
     = js "Failed to create virtual environment. Ensure Python has venv module installed.".
Proof.
  unfold setup_userMessage.
  destruct (includes _ (js "python")); [now left|].
  right. now rewrite creation_failure_names_venv.
Qed.

(** Whatever the code and the paths, the diagnosis of a failed
    dependency-sync command is one of the first two branches, never the
    one about the manifest. *)
Lemma sync_failure_diagnosis (code : option Z) :
  setup_userMessage config (command_failed code installer sync)
  = jsq "Python not found. Please check your Python path in settings. Current path: '"
    ++ pythonCommand config ++ jsq "'"
  \/ setup_userMessage config (command_failed code installer sync)
     = js "Failed to create virtual environment. Ensure Python has venv module installed.".
Proof.
  unfold setup_userMessage.
  destruct (includes _ (js "python")); [now left|].
  right. now rewrite sync_failure_names_venv.
Qed.

End Provisioner.

(** C7.  Successive provisioner calls on a host where the isolated
    interpreter already exists, and where installing dependencies does
    not remove it: the environment-creation command is never run, and
    the dependency-sync command is run once in every call. *)
Theorem provisioner_idempotent
    (World : Type) (fs_stat : jstring -> World -> bool)
    (run_process :
       jstring -> list jstring -> jstring -> World -> Behaviour * World)
    (isWindows : bool) (extensionPath : jstring) (config : Config)
    (calls : nat) (s : Host.State World)
    (Hexists :
       fs_stat (pythonExecutable isWindows extensionPath) (Host.world s)
       = true)
    (Hkept : forall w,
       fs_stat (pythonExecutable isWindows extensionPath) w = true ->
       fs_stat (pythonExecutable isWindows extensionPath)
         (snd (run_process (pipExecutable isWindows extensionPath)
                 (sync_args isWindows extensionPath)
                 (agentPath isWindows extensionPath) w))
       = true) :
  spawn_count creation_args
    (trace_of (provision World fs_stat run_process isWindows extensionPath
                 config calls s)) = 0%nat
  /\ spawn_count (sync_args isWindows extensionPath)
       (trace_of (provision World fs_stat run_process isWindows
                    extensionPath config calls s)) = calls.
Proof.
  revert s Hexists. induction calls as [|n IH]; intros s Hexists.
  - split; reflexivity.
  - rewrite provision_step, !spawn_count_app.
    destruct (setup_when_present World fs_stat run_process isWindows
                extensionPath config s Hexists) as (Hw & Hc & Hs).
    destruct (IH (state_of
                    (setupPythonEnvironment World fs_stat run_process
                       isWindows extensionPath config s))) as [IHc IHs].
    { rewrite Hw. apply Hkept, Hexists. }
    rewrite Hc, Hs, IHc, IHs. split; reflexivity.
Qed.

Lemma provisioner_idempotent_witness :
  spawn_count creation_args
    (trace_of
       (Scenario.provision_calls 2
          (Scenario.provisioned_machine (Some 0%Z) (Scenario.quiet None))))
  = 0%nat
  /\ spawn_count (sync_args false Scenario.extensionPath)
       (trace_of
          (Scenario.provision_calls 2
             (Scenario.provisioned_machine (Some 0%Z) (Scenario.quiet None))))
     = 2%nat.
Proof.
  apply (provisioner_idempotent Scenario.World Scenario.fs_stat
           Scenario.run_process false Scenario.extensionPath
           Scenario.with_credentials 2
           (Scenario.initially
              (Scenario.provisioned_machine (Some 0%Z)
                 (Scenario.quiet None)))).
  - reflexivity.
  - intros w Hw. vm_compute. exact Hw.
Defined.

(** C5, on the code.  The environment exists and the dependency install
    exits with code 1.  The provisioner shows the diagnosis of a failed
    environment creation, not the one about the manifest: the text of
    the failed command holds the path of the installer, which lies in
    the [.venv] directory, and the test for [venv] comes before the test
    for [requirements.txt]. *)
Theorem sync_failure_blamed_on_creation :
  Scenario.setup
    (Scenario.provisioned_machine (Some 1%Z) (Scenario.quiet None))
  = ([Progress (Status (js "Setting up Python environment..."));
      Progress (Status (js "Installing dependencies..."));
      Spawn (js "/ext/agent/.venv/bin/pip")
        [js "install"; js "-r"; js "/ext/agent/requirements.txt"]
        (js "/ext/agent") [];
      ShowError
        (js "Failed to create virtual environment. Ensure Python has venv module installed.")],
     Scenario.initially
       (Scenario.provisioned_machine (Some 1%Z) (Scenario.quiet None)),
     Throw
       (Error
          (js "Command failed with code 1: /ext/agent/.venv/bin/pip install -r /ext/agent/requirements.txt"))).
Proof. vm_compute. reflexivity. Qed.

(** ** The invocation *)

Lemma spawns_app (t u : list Effect) : spawns (t ++ u) = spawns t ++ spawns u.
Proof. apply filter_app. Qed.

(** C1, as the code has it.  When the API key or the project identifier
    is missing or empty, the agent process is never spawned, and the
    only processes spawned are those of the provisioner, which runs
    before the credentials are checked.  If the provisioner succeeds, the
    invocation then fails with the configuration error, right after the
    channel was cleared; if the provisioner fails, the invocation fails
    with the provisioner's error. *)
Theorem missing_credentials_never_spawn_agent
    (World : Type) (fs_stat : jstring -> World -> bool)
    (run_process :
       jstring -> list jstring -> jstring -> World -> Behaviour * World)
    (fmt : jstring -> jstring)
    (isWindows : bool) (extensionPath : jstring) (config : Config)
    (projectPath : jstring) (formData : FormData) (s : Host.State World)
    (Hmissing : truthy (ibmApiKey config) = false
                \/ truthy (ibmProjectId config) = false) :
  let prov :=
    setupPythonEnvironment World fs_stat run_process isWindows extensionPath
      config s in
  let run :=
    runAgent World fs_stat run_process fmt isWindows extensionPath config
      projectPath formData s in
  spawn_count (agent_args isWindows extensionPath projectPath formData)
    (trace_of run) = 0%nat
  /\ spawns (trace_of run) = spawns (trace_of prov)
  /\ (forall py, result_of prov = Normal py ->
        result_of run = Throw (Error credentials_message)
        /\ trace_of run
           = trace_of prov
             ++ [ChannelClear; ChannelShow;
                 ChannelAppendLine
                   (js ">>> Starting AI Agent with IBM Watsonx.ai...");
                 ChannelAppendLine (js ">>> Project Path: " ++ projectPath);
                 ChannelAppendLine
                   (js "---------------------------------------------------"
                    ++ [10]);
                 ShowError credentials_message;
                 ChannelAppendLine (js "[ERROR] " ++ credentials_message);
                 ChannelAppendLine
                   (js "[SETUP ERROR] " ++ credentials_message);
                 ShowError
                   (js "Failed to run the agent. Check the output panel for details.")])
  /\ (forall e, result_of prov = Throw e ->
        result_of run = Throw e
        /\ trace_of run
           = trace_of prov
             ++ [ChannelAppendLine (js "[SETUP ERROR] " ++ exn_message e);
                 ShowError
                   (js "Failed to run the agent. Check the output panel for details.")]).
Proof.
  intros prov run.
  assert (Hcheck : negb (truthy (ibmApiKey config))
                   || negb (truthy (ibmProjectId config)) = true).
  { destruct Hmissing as [->| ->]; [reflexivity | apply orb_true_r]. }
  pose proof (setup_spawn_arity World fs_stat run_process isWindows
                extensionPath config s
                (agent_args isWindows extensionPath projectPath formData))
    as Harity.
  fold prov in Harity.
  assert (Hrun :
    run = match prov with
          | (t, s', Normal _) =>
              (t ++ [ChannelClear; ChannelShow;
                     ChannelAppendLine
                       (js ">>> Starting AI Agent with IBM Watsonx.ai...");
                     ChannelAppendLine
                       (js ">>> Project Path: " ++ projectPath);
                     ChannelAppendLine
                       (js "---------------------------------------------------"
                        ++ [10]);
                     ShowError credentials_message;
                     ChannelAppendLine (js "[ERROR] " ++ credentials_message);
                     ChannelAppendLine
                       (js "[SETUP ERROR] " ++ credentials_message);
                     ShowError
                       (js "Failed to run the agent. Check the output panel for details.")],
               s', Throw (Error credentials_message))
          | (t, s', Throw e) =>
              (t ++ [ChannelAppendLine
                       (js "[SETUP ERROR] " ++ exn_message e);
                     ShowError
                       (js "Failed to run the agent. Check the output panel for details.")],
               s', Throw e)
          end).
  { subst run prov.
    unfold runAgent, launch, Host.try_catch, Host.bind, Host.emit,
      Host.raise.
    destruct (setupPythonEnvironment World fs_stat run_process isWindows
                extensionPath config s) as [[t s'] [py|e]].
    - rewrite Hcheck. simpl. rewrite <- app_assoc. reflexivity.
    - reflexivity. }
  rewrite Hrun. clear Hrun.
  destruct prov as [[t s'] [py|e]]; unfold trace_of, result_of in *;
    simpl in *.
  - rewrite spawn_count_app, spawns_app, Harity by discriminate.
    simpl. rewrite app_nil_r.
    split; [reflexivity|]. split; [reflexivity|]. split.
    + intros py' _. split; reflexivity.
    + intros e He. discriminate He.
  - rewrite spawn_count_app, spawns_app, Harity by discriminate.
    simpl. rewrite app_nil_r.
    split; [reflexivity|]. split; [reflexivity|]. split.
    + intros py He. discriminate He.
    + intros e' He'. injection He' as ->. split; reflexivity.
Qed.

Lemma missing_credentials_never_spawn_agent_witness :
  spawn_count
    (agent_args false Scenario.extensionPath Scenario.projectPath
       Scenario.formData)
    (trace_of
       (Scenario.run Scenario.without_project_id
          (Scenario.fresh_machine (Scenario.quiet (Some 0%Z)))))
  = 0%nat.
Proof.
  refine (proj1 (missing_credentials_never_spawn_agent Scenario.World
                   Scenario.fs_stat Scenario.run_process literal_text false
                   Scenario.extensionPath Scenario.without_project_id
                   Scenario.projectPath Scenario.formData
                   (Scenario.initially
                      (Scenario.fresh_machine (Scenario.quiet (Some 0%Z))))
                   _)).
  right. reflexivity.
Defined.

(** C1, as stated, fails: no environment exists yet and the project
    identifier is not configured.  Two processes are spawned, the
    environment is created and the dependencies are installed, and only
    then does the invocation fail with the configuration error. *)
Lemma missing_credentials_counterexample :
  spawns
    (trace_of
       (Scenario.run Scenario.without_project_id
          (Scenario.fresh_machine (Scenario.quiet (Some 0%Z)))))
  = [Spawn (js "python") [js "-m"; js "venv"; js ".venv"]
       (js "/ext/agent") [];
     Spawn (js "/ext/agent/.venv/bin/pip")
       [js "install"; js "-r"; js "/ext/agent/requirements.txt"]
       (js "/ext/agent") []]
  /\ Scenario.venv_present
       (Host.world
          (state_of
             (Scenario.run Scenario.without_project_id
                (Scenario.fresh_machine (Scenario.quiet (Some 0%Z))))))
     = true
  /\ result_of
       (Scenario.run Scenario.without_project_id
          (Scenario.fresh_machine (Scenario.quiet (Some 0%Z))))
     = Throw (Error credentials_message).
Proof. vm_compute. repeat split. Qed.

(** ** Two complete invocations *)

(** Credentials set, no environment yet; the agent reports one progress
    record and exits with code 0: the host sees the phase and the
    message, and the invocation ends by reporting Succeeded. *)
Example invocation_succeeds :
  In (Progress (Phase (js "Phase 1: scanning")))
     (trace_of
        (Scenario.run Scenario.with_credentials
           (Scenario.fresh_machine
              {| events :=
                   [StdoutData
                      (jsq "{'type':'progress','phase':1,'message':'scanning'}"
                       ++ [10])];
                 exit_code := Some 0%Z |})))
  /\ ends_with Succeeded
       (Scenario.run Scenario.with_credentials
          (Scenario.fresh_machine
             {| events :=
                  [StdoutData
                     (jsq "{'type':'progress','phase':1,'message':'scanning'}"
                      ++ [10])];
                exit_code := Some 0%Z |})).
Proof.
  split.
  - vm_compute. repeat (first [left; reflexivity | right]).
  - split; [|reflexivity].
    exists (firstn 14
              (trace_of
                 (Scenario.run Scenario.with_credentials
                    (Scenario.fresh_machine
                       {| events :=
                            [StdoutData
                               (jsq "{'type':'progress','phase':1,'message':'scanning'}"
                                ++ [10])];
                          exit_code := Some 0%Z |})))).
    vm_compute. reflexivity.
Qed.

(** The same, but the agent exits with code 3: the invocation ends by
    reporting the failure of the execution phase. *)
Example invocation_fails_in_execution_phase :
  ends_with (Failed (Some 3%Z) execution_message)
    (Scenario.run Scenario.with_credentials
       (Scenario.fresh_machine (Scenario.quiet (Some 3%Z)))).
Proof.
  split; [|reflexivity].
  exists (firstn 12
            (trace_of
               (Scenario.run Scenario.with_credentials
                  (Scenario.fresh_machine (Scenario.quiet (Some 3%Z)))))).
  vm_compute. reflexivity.
Qed.

(** An exit code outside the table keeps its number in the message. *)
Example exit_code_17 :
  on_close false (Some 17%Z)
  = report_outcome
      (Failed (Some 17%Z)
         (js "Agent process failed with unexpected error code 17. Check the output panel for details.")).
Proof. reflexivity. Qed.

(* ================================================================= *)
(** * Further properties *)

(** ** The stdout handler on whole chunks *)

(** X1.  On a chunk all of whose lines are blank, records of another
    kind or well-formed progress records, the handler appends the chunk
    to the channel and reports the [Phase] events of the progress
    records, one for each and in the order of the lines, and no [Raw]
    event. *)
Theorem structured_chunk_reports_every_record
    (fmt : jstring -> jstring) (output : jstring)
    (evss : list (list ProgressEvent))
    (Hlines : Forall2 (reports fmt) (split_nl (trim output)) evss) :
  on_stdout_data fmt output
  = (ChannelAppend output :: map Progress (concat evss), Normal tt).
Proof.
  rewrite on_stdout_data_unfold.
  rewrite <- (app_nil_r (split_nl (trim output))).
  rewrite (for_lines_reports fmt _ _ [] Hlines). simpl.
  now rewrite app_nil_r.
Qed.

Lemma structured_chunk_reports_every_record_witness :
  on_stdout_data literal_text
    (jsq "{'type':'progress','phase':1,'message':'scanning'}"
     ++ 10 :: jsq "{'type':'log','message':'cache warm'}"
     ++ 10 :: jsq "{'type':'progress','phase':2,'message':'moving files'}"
     ++ [10])
  = ([ChannelAppend
        (jsq "{'type':'progress','phase':1,'message':'scanning'}"
         ++ 10 :: jsq "{'type':'log','message':'cache warm'}"
         ++ 10 :: jsq "{'type':'progress','phase':2,'message':'moving files'}"
         ++ [10]);
      Progress (Phase (js "Phase 1: scanning"));
      Progress (Phase (js "Phase 2: moving files"))],
     Normal tt).
Proof.
  refine (structured_chunk_reports_every_record literal_text
            (jsq "{'type':'progress','phase':1,'message':'scanning'}"
             ++ 10 :: jsq "{'type':'log','message':'cache warm'}"
             ++ 10 :: jsq "{'type':'progress','phase':2,'message':'moving files'}"
             ++ [10])
            [[Phase (js "Phase 1: scanning")]; [];
             [Phase (js "Phase 2: moving files")]] _).
  replace (split_nl (trim _))
    with [jsq "{'type':'progress','phase':1,'message':'scanning'}";
          jsq "{'type':'log','message':'cache warm'}";
          jsq "{'type':'progress','phase':2,'message':'moving files'}"]
    by (vm_compute; reflexivity).
  constructor; [|constructor; [|constructor; [|constructor]]].
  - right. right. exists (js "Phase 1: scanning"). split; [|reflexivity].
    exists [(js "type", JString (js "progress"));
            (js "phase", JNumber (js "1"));
            (js "message", JString (js "scanning"))],
      (js "1"), (js "scanning").
    repeat split; reflexivity.
  - right. left. split; [|reflexivity].
    exists [(js "type", JString (js "log"));
            (js "message", JString (js "cache warm"))].
    split; reflexivity.
  - right. right. exists (js "Phase 2: moving files"). split; [|reflexivity].
    exists [(js "type", JString (js "progress"));
            (js "phase", JNumber (js "2"));
            (js "message", JString (js "moving files"))],
      (js "2"), (js "moving files").
    repeat split; reflexivity.
Defined.

(** X2.  The loop stops at the first line that makes it throw, that is
    the first line that is not blank and is not JSON, or is the JSON
    [null], or is a record of kind "progress" whose [phase] or [message]
    cannot be printed.  The lines before it are lines the loop passes,
    and the handler reports their events: one [Phase] event for each
    well-formed progress record, nothing for a blank line, a record of
    another kind or a JSON value that is no record.  Then it reports one
    [Raw] event with the last line of the trimmed chunk, which is not
    empty, and nothing for the lines after the first that throws, be
    they well-formed progress records. *)
Theorem stdout_stops_at_first_throwing_line
    (fmt : jstring -> jstring) (output : jstring)
    (before : list jstring) (first : jstring) (rest : list jstring)
    (Hsplit : split_nl (trim output) = before ++ first :: rest)
    (Hbefore : Forall (fun l => ~ throwing fmt l) before)
    (Hfirst : throwing fmt first) :
  exists evss,
    Forall2 (passes fmt) before evss
    /\ on_stdout_data fmt output
       = (ChannelAppend output
            :: map Progress (concat evss)
            ++ [Progress (Raw (pop (split_nl (trim output))))],
          Normal tt)
    /\ pop (split_nl (trim output)) <> [].
Proof.
  destruct (passes_all fmt before Hbefore) as [evss Hpass].
  exists evss. split; [exact Hpass|].
  assert (Hne : trim output <> []).
  { apply (throwing_line_text fmt). rewrite Hsplit.
    apply Exists_app. right. now apply Exists_cons_hd. }
  pose proof (pop_trim_not_nil output Hne) as Hlast.
  split; [|exact Hlast].
  rewrite on_stdout_data_unfold, Hsplit.
  rewrite (for_lines_passes fmt _ _ (first :: rest) Hpass).
  rewrite for_lines_text by exact (proj1 Hfirst).
  destruct (line_body_throwing fmt first Hfirst) as [e ->]. simpl.
  rewrite <- Hsplit.
  destruct (pop (split_nl (trim output))); [now elim Hlast|].
  now rewrite app_nil_r.
Qed.

Lemma stdout_stops_at_first_throwing_line_witness :
  on_stdout_data literal_text
    (jsq "{'type':'progress','phase':1,'message':'scanning'}"
     ++ 10 :: js "42"
     ++ 10 :: jsq "{'type':'progress','phase':{'toString':1},'message':'x'}"
     ++ 10 :: jsq "{'type':'progress','phase':2,'message':'moving files'}"
     ++ [10])
  = ([ChannelAppend
        (jsq "{'type':'progress','phase':1,'message':'scanning'}"
         ++ 10 :: js "42"
         ++ 10 :: jsq "{'type':'progress','phase':{'toString':1},'message':'x'}"
         ++ 10 :: jsq "{'type':'progress','phase':2,'message':'moving files'}"
         ++ [10]);
      Progress (Phase (js "Phase 1: scanning"));
      Progress
        (Raw (jsq "{'type':'progress','phase':2,'message':'moving files'}"))],
     Normal tt).
Proof.
  assert (Hpass :
    Forall2 (passes literal_text)
      [jsq "{'type':'progress','phase':1,'message':'scanning'}"; js "42"]
      [[Phase (js "Phase 1: scanning")]; []]).
  { constructor; [|constructor; [|constructor]].
    - left. right. right. exists (js "Phase 1: scanning").
      split; [|reflexivity].
      exists [(js "type", JString (js "progress"));
              (js "phase", JNumber (js "1"));
              (js "message", JString (js "scanning"))],
        (js "1"), (js "scanning").
      repeat split; reflexivity.
    - right. split; [|reflexivity].
      exists (JNumber (js "42")). split; [reflexivity | exact I]. }
  destruct
    (stdout_stops_at_first_throwing_line literal_text
       (jsq "{'type':'progress','phase':1,'message':'scanning'}"
        ++ 10 :: js "42"
        ++ 10 :: jsq "{'type':'progress','phase':{'toString':1},'message':'x'}"
        ++ 10 :: jsq "{'type':'progress','phase':2,'message':'moving files'}"
        ++ [10])
       [jsq "{'type':'progress','phase':1,'message':'scanning'}"; js "42"]
       (jsq "{'type':'progress','phase':{'toString':1},'message':'x'}")
       [jsq "{'type':'progress','phase':2,'message':'moving files'}"])
    as (evss & Hevss & Hrun & _).
  - vm_compute. reflexivity.
  - constructor; [|constructor; [|constructor]].
    + apply (passes_not_throwing literal_text _ [Phase (js "Phase 1: scanning")]).
      inversion Hpass; assumption.
    + apply (passes_not_throwing literal_text _ []).
      inversion Hpass as [|? ? ? ? _ Hrest]; inversion Hrest; assumption.
  - split; [unfold blank; vm_compute; discriminate|].
    right.
    exists [(js "type", JString (js "progress"));
            (js "phase", JObject [(js "toString", JNumber (js "1"))]);
            (js "message", JString (js "x"))].
    split; [reflexivity|]. split; [reflexivity|].
    left. exists TypeError. reflexivity.
  - rewrite Hrun.
    rewrite (passes_determined literal_text _ _ _ Hevss Hpass).
    replace (pop (split_nl (trim _)))
      with (jsq "{'type':'progress','phase':2,'message':'moving files'}")
      by (vm_compute; reflexivity).
    reflexivity.
Defined.

Section ChunkShape.

Variable fmt : jstring -> jstring.

Lemma for_lines_trace_shape (lines : list jstring) :
  exists friendly,
    fst (for_lines fmt lines) = map (fun m => Progress (Phase m)) friendly.
Proof.
  induction lines as [|line rest [ms IH]]; [now exists []|].
  destruct (trim line) eqn:E.
  - rewrite for_lines_blank by exact E. now exists ms.
  - rewrite for_lines_text by (rewrite E; discriminate).
    unfold EffMonad.bind.
    destruct (line_body_cases fmt line) as [[r Hr]|(friendly & Hf & _)].
    + rewrite Hr. destruct r as [[]|e]; [|now exists []].
      exists ms. now destruct (for_lines fmt rest).
    + rewrite Hf. exists (friendly :: ms).
      destruct (for_lines fmt rest). simpl in *. now rewrite IH.
Qed.

End ChunkShape.

(** The shape of what the handler does on any chunk. *)
Lemma on_stdout_data_shape
    (fmt : jstring -> jstring) (output : jstring) :
  exists friendly,
    fst (on_stdout_data fmt output)
    = ChannelAppend output :: map (fun m => Progress (Phase m)) friendly
    \/ fst (on_stdout_data fmt output)
       = ChannelAppend output
           :: map (fun m => Progress (Phase m)) friendly
           ++ [Progress (Raw (pop (split_nl (trim output))))].
Proof.
  rewrite on_stdout_data_unfold.
  destruct (for_lines_trace_shape fmt (split_nl (trim output))) as [ms Hms].
  exists ms.
  destruct (for_lines fmt (split_nl (trim output))) as [t [[]|e]];
    simpl in *; subst t.
  - now left.
  - destruct (pop (split_nl (trim output))) eqn:E.
    + left. now rewrite app_nil_r.
    + now right.
Qed.

(** X3.  Whatever the chunk, the handler first appends it to the
    channel, then reports [Phase] events only, and then at most one
    [Raw] event, which comes last and carries the last line of the
    trimmed chunk. *)
Theorem stdout_reports_at_most_one_raw_last
    (fmt : jstring -> jstring) (output : jstring) :
  exists friendly,
    fst (on_stdout_data fmt output)
    = ChannelAppend output :: map (fun m => Progress (Phase m)) friendly
    \/ fst (on_stdout_data fmt output)
       = ChannelAppend output
           :: map (fun m => Progress (Phase m)) friendly
           ++ [Progress (Raw (pop (split_nl (trim output))))].
Proof. exact (on_stdout_data_shape fmt output). Qed.

(** X4.  A record of kind "progress" that has neither a [phase] nor a
    [message] member is reported all the same, both holes printing as
    [undefined]. *)
Theorem progress_record_without_fields
    (fmt : jstring -> jstring) (output line : jstring)
    (members : list (jstring * JSON))
    (Hsplit : split_nl (trim output) = [line])
    (Hparse : JSON_parse line = Some (JObject members))
    (Hkind : is_progress (own_property (js "type") members) = true)
    (Hphase : own_property (js "phase") members = None)
    (Hmessage : own_property (js "message") members = None) :
  on_stdout_data fmt output
  = ([ChannelAppend output;
      Progress (Phase (js "Phase undefined: undefined"))],
     Normal tt).
Proof.
  rewrite on_stdout_data_unfold, Hsplit.
  assert (Hrec : progress_record fmt line (js "Phase undefined: undefined")).
  { exists members, (js "undefined"), (js "undefined").
    rewrite Hphase, Hmessage. repeat split; assumption. }
  change [line] with ([line] ++ []).
  rewrite (for_lines_reports fmt [line]
             [[Phase (js "Phase undefined: undefined")]] []).
  - reflexivity.
  - constructor; [|constructor]. right. right.
    now exists (js "Phase undefined: undefined").
Qed.

Lemma progress_record_without_fields_witness :
  on_stdout_data literal_text (jsq "{'type':'progress'}" ++ [10])
  = ([ChannelAppend (jsq "{'type':'progress'}" ++ [10]);
      Progress (Phase (js "Phase undefined: undefined"))],
     Normal tt).
Proof.
  apply (progress_record_without_fields literal_text
           (jsq "{'type':'progress'}" ++ [10]) (jsq "{'type':'progress'}")
           [(js "type", JString (js "progress"))]); reflexivity.
Defined.

(** ** The channel as the complete log of stdout *)

Lemma channel_appends_app (t u : list Effect) :
  channel_appends (t ++ u) = channel_appends t ++ channel_appends u.
Proof.
  induction t as [|e t IH]; [reflexivity|].
  destruct e; simpl; now rewrite IH.
Qed.

Lemma channel_appends_phases (friendly : list jstring) :
  channel_appends (map (fun m => Progress (Phase m)) friendly) = [].
Proof. induction friendly; [reflexivity | exact IHfriendly]. Qed.

Lemma on_stdout_data_appends (fmt : jstring -> jstring) (output : jstring) :
  channel_appends (fst (on_stdout_data fmt output)) = [output].
Proof.
  destruct (on_stdout_data_shape fmt output)
    as [ms [-> | ->]]; simpl;
    rewrite ?channel_appends_app, channel_appends_phases; reflexivity.
Qed.

Section Dispatching.

Variable World : Type.
Variable fmt : jstring -> jstring.

Lemma dispatch_cons (e : JobEvent) (evs : list JobEvent)
    (s : Host.State World) :
  trace_of (dispatch World fmt (e :: evs) s)
  = event_effects fmt e s
    ++ trace_of (dispatch World fmt evs (event_state e s)).
Proof.
  unfold trace_of. destruct e as [d|d|]; simpl.
  - unfold Host.bind, Host.liftE.
    rewrite on_stdout_data_never_throws.
    now destruct (dispatch World fmt evs s) as [[t s'] r].
  - unfold Host.bind, Host.liftE. simpl.
    now destruct (dispatch World fmt evs s) as [[t s'] r].
  - unfold Host.bind, Host.cancellation_requested, Host.set_cancelled,
      Host.liftE.
    destruct (Host.isCancellationRequested s); simpl.
    + now destruct (dispatch World fmt evs s) as [[t s'] r].
    + now destruct (dispatch World fmt evs _) as [[t s'] r].
Qed.

End Dispatching.

(** X5.  While the agent runs, the channel receives every stdout chunk
    as it came, in the order of arrival, and [append] is called for
    nothing else: the channel holds the complete output, whatever the
    progress events show. *)
Theorem channel_logs_every_stdout_chunk
    (World : Type) (fmt : jstring -> jstring)
    (evs : list JobEvent) (s : Host.State World) :
  channel_appends (trace_of (dispatch World fmt evs s)) = stdout_chunks evs.
Proof.
  revert s. induction evs as [|e evs IH]; intros s; [reflexivity|].
  rewrite dispatch_cons, channel_appends_app, IH.
  destruct e as [d|d|]; simpl.
  - now rewrite on_stdout_data_appends.
  - reflexivity.
  - now destruct (Host.isCancellationRequested s).
Qed.

(** ** The provisioner, path by path *)

Lemma console_no_error_notification (t : list Effect) :
  forallb is_console t = true -> error_notifications t = 0%nat.
Proof.
  unfold error_notifications. induction t as [|e t IH]; [reflexivity|].
  simpl. intros H. apply andb_true_iff in H as [He Ht].
  destruct e; try discriminate He; simpl; auto.
Qed.

Lemma console_no_info_notification (t : list Effect) :
  forallb is_console t = true -> info_notifications t = 0%nat.
Proof.
  unfold info_notifications. induction t as [|e t IH]; [reflexivity|].
  simpl. intros H. apply andb_true_iff in H as [He Ht].
  destruct e; try discriminate He; simpl; auto.
Qed.

Lemma console_no_spawn (t : list Effect) :
  forallb is_console t = true -> forallb not_spawn t = true.
Proof.
  induction t as [|e t IH]; [reflexivity|].
  simpl. intros H. apply andb_true_iff in H as [He Ht].
  destruct e; try discriminate He; simpl; auto.
Qed.

Lemma console_only (t : list Effect) (e : Effect) :
  forallb is_console t = true -> In e t -> is_console e = true.
Proof. intros H. now apply forallb_forall. Qed.

Section ProvisionerPaths.

Variable World : Type.
Variable fs_stat : jstring -> World -> bool.
Variable run_process :
  jstring -> list jstring -> jstring -> World -> Behaviour * World.
Variable isWindows : bool.
Variable extensionPath : jstring.
Variable config : Config.

Let agent_dir : jstring := agentPath isWindows extensionPath.
Let interpreter : jstring := pythonExecutable isWindows extensionPath.
Let installer : jstring := pipExecutable isWindows extensionPath.
Let python : jstring := pythonCommand config.
Let sync : list jstring := sync_args isWindows extensionPath.
Let setup : Host.M World jstring :=
  setupPythonEnvironment World fs_stat run_process isWindows extensionPath
    config.

Lemma drain_command_console (evs : list JobEvent) (s : Host.State World) :
  exists t s',
    drain_command World evs s = (t, s', Normal tt)
    /\ Host.world s' = Host.world s
    /\ Host.isCancellationRequested s'
       = Host.isCancellationRequested s || existsb is_cancellation evs
    /\ forallb is_console t = true.
Proof.
  revert s. induction evs as [|e evs IH]; intros s.
  - exists [], s. simpl. rewrite orb_false_r. repeat split.
  - destruct e as [d|d|].
    + destruct (IH s) as (t & s' & Hrun & Hw & Hc & Ht).
      exists (ConsoleLog (js "stdout: " ++ d) :: t), s'.
      simpl. unfold Host.bind, Host.emit. rewrite Hrun. repeat split; auto.
    + destruct (IH s) as (t & s' & Hrun & Hw & Hc & Ht).
      exists (ConsoleError (js "stderr: " ++ d) :: t), s'.
      simpl. unfold Host.bind, Host.emit. rewrite Hrun. repeat split; auto.
    + destruct (IH {| Host.world := Host.world s;
                      Host.isCancellationRequested := true |})
        as (t & s' & Hrun & Hw & Hc & Ht).
      exists t, s'.
      simpl. unfold Host.bind, Host.set_cancelled. rewrite Hrun.
      simpl in Hc. rewrite Hc, orb_true_r. repeat split; auto.
Qed.

(** [runCommand], with what its listeners write. *)
Lemma runCommand_console (cmd : jstring) (args : list jstring)
    (s : Host.State World) :
  exists t s',
    runCommand World run_process isWindows extensionPath cmd args s
    = (Spawn cmd args agent_dir [] :: t, s',
       if exits_zero
            (exit_code (fst (run_process cmd args agent_dir (Host.world s))))
       then Normal tt
       else Throw
              (Error
                 (command_failed
                    (exit_code
                       (fst (run_process cmd args agent_dir (Host.world s))))
                    cmd args)))
    /\ Host.world s' = snd (run_process cmd args agent_dir (Host.world s))
    /\ Host.isCancellationRequested s'
       = Host.isCancellationRequested s
         || existsb is_cancellation
              (events (fst (run_process cmd args agent_dir (Host.world s))))
    /\ forallb is_console t = true.
Proof.
  unfold runCommand, spawn, Host.bind. subst agent_dir.
  destruct (run_process cmd args (agentPath isWindows extensionPath)
              (Host.world s)) as [b w] eqn:Erun.
  destruct (drain_command_console (events b)
              {| Host.world := w;
                 Host.isCancellationRequested :=
                   Host.isCancellationRequested s |})
    as (t & s' & Hrun & Hw & Hc & Ht).
  rewrite Hrun. simpl.
  destruct (exits_zero (exit_code b)); simpl;
    (eexists; eexists; split; [reflexivity|]);
    rewrite ?app_nil_r; repeat split; auto.
Qed.

(** One call of the provisioner, whatever the host: its trace, its
    result and the world it leaves, by the answers of the host. *)
Lemma setup_run (s : Host.State World) :
  let found := fs_stat interpreter (Host.world s) in
  let r1 := run_process python creation_args agent_dir (Host.world s) in
  let ok1 := exits_zero (exit_code (fst r1)) in
  let r2 :=
    run_process installer sync agent_dir
      (if found then Host.world s else snd r1) in
  let ok2 := exits_zero (exit_code (fst r2)) in
  exists c1 c2,
    forallb is_console c1 = true
    /\ forallb is_console c2 = true
    /\ trace_of (setup s)
       = Progress (Status (js "Setting up Python environment..."))
           :: (if found then []
               else Progress (Status (js "Creating virtual environment..."))
                      :: Spawn python creation_args agent_dir [] :: c1)
           ++ (if found || ok1 then
                 Progress (Status (js "Installing dependencies..."))
                   :: Spawn installer sync agent_dir [] :: c2
                   ++ [if ok2 then
                         Progress (Status (js "Environment is ready."))
                       else
                         ShowError
                           (setup_userMessage config
                              (command_failed (exit_code (fst r2))
                                 installer sync))]
               else
                 [ShowError
                    (setup_userMessage config
                       (command_failed (exit_code (fst r1)) python
                          creation_args))])
    /\ result_of (setup s)
       = (if found || ok1 then
            if ok2 then Normal interpreter
            else Throw
                   (Error
                      (command_failed (exit_code (fst r2)) installer sync))
          else Throw
                 (Error
                    (command_failed (exit_code (fst r1)) python
                       creation_args)))
    /\ Host.world (state_of (setup s))
       = (if found || ok1 then snd r2 else snd r1).
Proof.
  intros found r1 ok1 r2 ok2. subst found r1 ok1 r2 ok2 setup.
  unfold setupPythonEnvironment, Host.try_catch, Host.bind, Host.emit, stat.
  fold interpreter installer sync python.
  destruct (fs_stat interpreter (Host.world s)); simpl.
  - destruct (runCommand_console installer sync s)
      as (c2 & s2 & Hrun2 & Hw2 & _ & Hc2).
    rewrite Hrun2. fold agent_dir in Hw2 |- *.
    exists [], c2.
    destruct (exits_zero
                (exit_code
                   (fst (run_process installer sync agent_dir
                           (Host.world s)))));
      simpl; unfold trace_of, result_of, state_of;
      simpl; rewrite ?app_nil_r; repeat split; auto.
  - destruct (runCommand_console python creation_args s)
      as (c1 & s1 & Hrun1 & Hw1 & _ & Hc1).
    rewrite Hrun1. fold agent_dir in Hw1 |- *.
    destruct (exits_zero
                (exit_code
                   (fst (run_process python creation_args agent_dir
                           (Host.world s))))); simpl.
    + destruct (runCommand_console installer sync s1)
        as (c2 & s2 & Hrun2 & Hw2 & _ & Hc2).
      rewrite Hrun2. fold agent_dir in Hw2 |- *.
      rewrite Hw1 in Hw2 |- *.
      exists c1, c2.
      destruct (exits_zero
                  (exit_code
                     (fst (run_process installer sync agent_dir
                             (snd (run_process python creation_args
                                     agent_dir (Host.world s)))))));
        simpl; unfold trace_of, result_of, state_of;
        simpl; rewrite ?app_nil_r, <- ?app_assoc; simpl;
        repeat split; auto.
    + exists c1, []. unfold trace_of, result_of, state_of; simpl.
      rewrite ?app_nil_r. repeat split; auto.
Qed.

End ProvisionerPaths.

Lemma creation_args_not_sync (isWindows : bool) (extensionPath : jstring) :
  creation_args <> sync_args isWindows extensionPath.
Proof. intros H. discriminate H. Qed.

(** The same as [count_spawns], leaving the tests on spawns folded. *)
Ltac split_spawn_count :=
  repeat (rewrite spawn_count_cons || rewrite spawn_count_app).

Lemma error_notifications_cons (e : Effect) (t : list Effect) :
  error_notifications (e :: t)
  = ((if is_error_notification e then 1 else 0) + error_notifications t)%nat.
Proof.
  unfold error_notifications. simpl. now destruct (is_error_notification e).
Qed.

(** Split the counts of spawns and of error notifications of a trace
    along its conses and appends, and settle the tests on the spawns of
    the provisioner. *)
Ltac measure_trace :=
  repeat (rewrite spawn_count_cons || rewrite spawn_count_app
          || rewrite error_notifications_cons
          || rewrite error_notifications_app);
  rewrite ?spawned_with_same;
  rewrite ?spawned_with_other by apply creation_args_not_sync.

Lemma in_console_false (t : list Effect) (e : Effect) :
  forallb is_console t = true -> is_console e = false -> ~ In e t.
Proof.
  intros Ht He Hin. rewrite (console_only t e Ht Hin) in He. discriminate.
Qed.

(** Successive calls when the interpreter exists and stays. *)
Lemma provision_when_present
    (World : Type) (fs_stat : jstring -> World -> bool)
    (run_process :
       jstring -> list jstring -> jstring -> World -> Behaviour * World)
    (isWindows : bool) (extensionPath : jstring) (config : Config)
    (calls : nat) (s : Host.State World) :
  fs_stat (pythonExecutable isWindows extensionPath) (Host.world s) = true ->
  (forall w,
     fs_stat (pythonExecutable isWindows extensionPath) w = true ->
     fs_stat (pythonExecutable isWindows extensionPath)
       (snd (run_process (pipExecutable isWindows extensionPath)
               (sync_args isWindows extensionPath)
               (agentPath isWindows extensionPath) w))
     = true) ->
  spawn_count creation_args
    (trace_of (provision World fs_stat run_process isWindows extensionPath
                 config calls s)) = 0%nat
  /\ spawn_count (sync_args isWindows extensionPath)
       (trace_of (provision World fs_stat run_process isWindows
                    extensionPath config calls s)) = calls.
Proof.
  intros Hexists Hkept.
  revert s Hexists. induction calls as [|n IH]; intros s Hexists.
  - split; reflexivity.
  - rewrite provision_step, !spawn_count_app.
    destruct (setup_when_present World fs_stat run_process isWindows
                extensionPath config s Hexists) as (Hw & Hc & Hs).
    destruct (IH (state_of
                    (setupPythonEnvironment World fs_stat run_process
                       isWindows extensionPath config s))) as [IHc IHs].
    { rewrite Hw. apply Hkept, Hexists. }
    rewrite Hc, Hs, IHc, IHs. split; reflexivity.
Qed.

(** X6.  When the interpreter of the environment is missing and the
    creation command does not close with code 0, the provisioner stops
    there: it throws the error of that command, it has run the creation
    command once and the dependency install not at all, and it has shown
    one error notification. *)
Theorem creation_failure_stops_provisioning
    (World : Type) (fs_stat : jstring -> World -> bool)
    (run_process :
       jstring -> list jstring -> jstring -> World -> Behaviour * World)
    (isWindows : bool) (extensionPath : jstring) (config : Config)
    (s : Host.State World)
    (Habsent :
       fs_stat (pythonExecutable isWindows extensionPath) (Host.world s)
       = false)
    (Hfails :
       exits_zero
         (exit_code
            (fst (run_process (pythonCommand config) creation_args
                    (agentPath isWindows extensionPath) (Host.world s))))
       = false) :
  result_of
    (setupPythonEnvironment World fs_stat run_process isWindows
       extensionPath config s)
  = Throw
      (Error
         (command_failed
            (exit_code
               (fst (run_process (pythonCommand config) creation_args
                       (agentPath isWindows extensionPath) (Host.world s))))
            (pythonCommand config) creation_args))
  /\ spawn_count creation_args
       (trace_of
          (setupPythonEnvironment World fs_stat run_process isWindows
             extensionPath config s)) = 1%nat
  /\ spawn_count (sync_args isWindows extensionPath)
       (trace_of
          (setupPythonEnvironment World fs_stat run_process isWindows
             extensionPath config s)) = 0%nat
  /\ error_notifications
       (trace_of
          (setupPythonEnvironment World fs_stat run_process isWindows
             extensionPath config s)) = 1%nat.
Proof.
  pose proof (setup_run World fs_stat run_process isWindows extensionPath
                config s) as H.
  cbv zeta in H. rewrite Habsent, Hfails in H. simpl in H.
  destruct H as (c1 & c2 & Hc1 & _ & Ht & Hr & _).
  rewrite Ht, Hr. split; [reflexivity|].
  change (?a :: ?b :: ?c :: c1 ++ ?d) with ([a; b; c] ++ c1 ++ d).
  rewrite !spawn_count_app, !error_notifications_app,
    !(spawn_count_no_spawn _ c1 (console_no_spawn c1 Hc1)),
    (console_no_error_notification c1 Hc1).
  split_spawn_count. rewrite spawned_with_same.
  rewrite spawned_with_other by apply creation_args_not_sync.
  repeat split.
Qed.

Lemma creation_failure_stops_provisioning_witness :
  spawn_count (sync_args false Scenario.extensionPath)
    (trace_of
       (Scenario.setup
          {| Scenario.venv_present := false;
             Scenario.creation_exit := Some 1%Z;
             Scenario.sync_exit := Some 0%Z;
             Scenario.agent := Scenario.quiet None |}))
  = 0%nat.
Proof.
  refine (proj1 (proj2 (proj2
    (creation_failure_stops_provisioning Scenario.World Scenario.fs_stat
       Scenario.run_process false Scenario.extensionPath
       Scenario.with_credentials
       (Scenario.initially
          {| Scenario.venv_present := false;
             Scenario.creation_exit := Some 1%Z;
             Scenario.sync_exit := Some 0%Z;
             Scenario.agent := Scenario.quiet None |}) _ _)))).
  - reflexivity.
  - reflexivity.
Defined.

(** X7.  A call of the provisioner either returns the path of the
    interpreter inside the environment, after it has installed the
    dependencies, reported that the environment is ready and shown no
    error; or it throws the error of a failed command, after it has
    shown exactly one error notification and without reporting that the
    environment is ready. *)
Theorem provisioner_outcome
    (World : Type) (fs_stat : jstring -> World -> bool)
    (run_process :
       jstring -> list jstring -> jstring -> World -> Behaviour * World)
    (isWindows : bool) (extensionPath : jstring) (config : Config)
    (s : Host.State World) :
  match
    result_of
      (setupPythonEnvironment World fs_stat run_process isWindows
         extensionPath config s)
  with
  | Normal py =>
      py = pythonExecutable isWindows extensionPath
      /\ spawn_count (sync_args isWindows extensionPath)
           (trace_of
              (setupPythonEnvironment World fs_stat run_process isWindows
                 extensionPath config s)) = 1%nat
      /\ In (Progress (Status (js "Environment is ready.")))
           (trace_of
              (setupPythonEnvironment World fs_stat run_process isWindows
                 extensionPath config s))
      /\ error_notifications
           (trace_of
              (setupPythonEnvironment World fs_stat run_process isWindows
                 extensionPath config s)) = 0%nat
  | Throw e =>
      (exists code cmd args, e = Error (command_failed code cmd args))
      /\ ~ In (Progress (Status (js "Environment is ready.")))
             (trace_of
                (setupPythonEnvironment World fs_stat run_process isWindows
                   extensionPath config s))
      /\ error_notifications
           (trace_of
              (setupPythonEnvironment World fs_stat run_process isWindows
                 extensionPath config s)) = 1%nat
  end.
Proof.
  pose proof (setup_run World fs_stat run_process isWindows extensionPath
                config s) as H.
  cbv zeta in H.
  destruct H as (c1 & c2 & Hc1 & Hc2 & Ht & Hr & _).
  rewrite Ht, Hr. clear Ht Hr.
  pose proof (console_no_error_notification c1 Hc1) as He1.
  pose proof (console_no_error_notification c2 Hc2) as He2.
  pose proof (spawn_count_no_spawn (sync_args isWindows extensionPath) c1
                (console_no_spawn c1 Hc1)) as Hs1.
  pose proof (spawn_count_no_spawn (sync_args isWindows extensionPath) c2
                (console_no_spawn c2 Hc2)) as Hs2.
  assert (Hn1 : ~ In (Progress (Status (js "Environment is ready."))) c1)
    by now apply in_console_false.
  assert (Hn2 : ~ In (Progress (Status (js "Environment is ready."))) c2)
    by now apply in_console_false.
  destruct (fs_stat _ (Host.world s)); cbv beta iota delta [orb].
  - destruct (exits_zero _); cbv beta iota delta [orb].
    + split; [reflexivity|]. split; [|split].
      * measure_trace. now rewrite Hs2.
      * cbn [In app]. do 3 right. apply in_or_app. right. now left.
      * measure_trace. now rewrite He2.
    + split; [eexists _, _, _; reflexivity|]. split.
      * cbn [In app]. intros [E|[E|[E|E]]]; try discriminate E.
        apply in_app_or in E as [E|[E|[]]]; [now apply Hn2 | discriminate E].
      * measure_trace. now rewrite He2.
  - destruct (exits_zero
                (exit_code
                   (fst (run_process (pythonCommand config) creation_args
                           (agentPath isWindows extensionPath)
                           (Host.world s))))); cbv beta iota delta [orb].
    + destruct (exits_zero _); cbv beta iota delta [orb].
      * split; [reflexivity|]. split; [|split].
        -- measure_trace. now rewrite Hs1, Hs2.
        -- cbn [In app]. do 3 right. apply in_or_app. right.
           do 2 right. apply in_or_app. right. now left.
        -- measure_trace. now rewrite He1, He2.
      * split; [eexists _, _, _; reflexivity|]. split.
        -- cbn [In app]. intros [E|[E|[E|E]]]; try discriminate E.
           apply in_app_or in E as [E|E]; [now apply Hn1|].
           destruct E as [E|[E|E]]; try discriminate E.
           apply in_app_or in E as [E|[E|[]]];
             [now apply Hn2 | discriminate E].
        -- measure_trace. now rewrite He1, He2.
    + split; [eexists _, _, _; reflexivity|]. split.
      * cbn [In app]. intros [E|[E|[E|E]]]; try discriminate E.
        apply in_app_or in E as [E|[E|[]]];
          [now apply Hn1 | discriminate E].
      * measure_trace. now rewrite He1.
Qed.

(** X8.  Whatever fails, the only diagnoses the provisioner shows are
    the one about the Python path and the one about the creation of the
    virtual environment: the texts of both commands hold [venv], so the
    branches for [requirements.txt] and for other errors are never
    reached. *)
Theorem provisioner_shows_two_diagnoses_only
    (World : Type) (fs_stat : jstring -> World -> bool)
    (run_process :
       jstring -> list jstring -> jstring -> World -> Behaviour * World)
    (isWindows : bool) (extensionPath : jstring) (config : Config)
    (s : Host.State World) (message : jstring)
    (Hshown :
       In (ShowError message)
          (trace_of
             (setupPythonEnvironment World fs_stat run_process isWindows
                extensionPath config s))) :
  message = python_not_found_message (pythonCommand config)
  \/ message = venv_failed_message.
Proof.
  pose proof (setup_run World fs_stat run_process isWindows extensionPath
                config s) as H.
  cbv zeta in H.
  destruct H as (c1 & c2 & Hc1 & Hc2 & Ht & _).
  rewrite Ht in Hshown. clear Ht.
  assert (Hn1 : ~ In (ShowError message) c1) by now apply in_console_false.
  assert (Hn2 : ~ In (ShowError message) c2) by now apply in_console_false.
  assert (Hsync : forall code,
    ShowError
      (setup_userMessage config
         (command_failed code (pipExecutable isWindows extensionPath)
            (sync_args isWindows extensionPath)))
    = ShowError message ->
    message = python_not_found_message (pythonCommand config)
    \/ message = venv_failed_message).
  { intros code E. injection E as <-.
    apply (sync_failure_diagnosis World fs_stat run_process isWindows
             extensionPath config code). }
  assert (Hcreation : forall code,
    ShowError
      (setup_userMessage config
         (command_failed code (pythonCommand config) creation_args))
    = ShowError message ->
    message = python_not_found_message (pythonCommand config)
    \/ message = venv_failed_message).
  { intros code E. injection E as <-.
    apply (creation_failure_diagnosis config code). }
  destruct (fs_stat _ (Host.world s)); cbv beta iota delta [orb] in Hshown.
  - cbn [In app] in Hshown.
    destruct Hshown as [E|[E|[E|E]]]; try discriminate E.
    apply in_app_or in E as [E|[E|[]]]; [now elim Hn2|].
    destruct (exits_zero _); [discriminate E | now apply (Hsync _ E)].
  - cbn [In app] in Hshown.
    destruct Hshown as [E|[E|[E|E]]]; try discriminate E.
    apply in_app_or in E as [E|E]; [now elim Hn1|].
    destruct (exits_zero
                (exit_code
                   (fst (run_process (pythonCommand config) creation_args
                           (agentPath isWindows extensionPath)
                           (Host.world s))))).
    + destruct E as [E|[E|E]]; try discriminate E.
      apply in_app_or in E as [E|[E|[]]]; [now elim Hn2|].
      destruct (exits_zero _); [discriminate E | now apply (Hsync _ E)].
    + destruct E as [E|[]]. now apply (Hcreation _ E).
Qed.

Lemma provisioner_shows_two_diagnoses_only_witness :
  venv_failed_message
  = python_not_found_message (pythonCommand Scenario.with_credentials)
  \/ venv_failed_message = venv_failed_message.
Proof.
  apply (provisioner_shows_two_diagnoses_only Scenario.World
           Scenario.fs_stat Scenario.run_process false
           Scenario.extensionPath Scenario.with_credentials
           (Scenario.initially
              (Scenario.provisioned_machine (Some 1%Z)
                 (Scenario.quiet None)))
           venv_failed_message).
  vm_compute. do 3 right. now left.
Defined.

(** X9.  Starting without an environment, on a host where the creation
    command succeeds and makes the interpreter exist, and where
    installing dependencies does not remove it: over any number of calls
    the creation command is run exactly once, in the first call, and the
    dependency install is run once in every call. *)
Theorem environment_created_once
    (World : Type) (fs_stat : jstring -> World -> bool)
    (run_process :
       jstring -> list jstring -> jstring -> World -> Behaviour * World)
    (isWindows : bool) (extensionPath : jstring) (config : Config)
    (calls : nat) (s : Host.State World)
    (Habsent :
       fs_stat (pythonExecutable isWindows extensionPath) (Host.world s)
       = false)
    (Hcreated :
       exits_zero
         (exit_code
            (fst (run_process (pythonCommand config) creation_args
                    (agentPath isWindows extensionPath) (Host.world s))))
       = true
       /\ fs_stat (pythonExecutable isWindows extensionPath)
            (snd (run_process (pythonCommand config) creation_args
                    (agentPath isWindows extensionPath) (Host.world s)))
          = true)
    (Hkept : forall w,
       fs_stat (pythonExecutable isWindows extensionPath) w = true ->
       fs_stat (pythonExecutable isWindows extensionPath)
         (snd (run_process (pipExecutable isWindows extensionPath)
                 (sync_args isWindows extensionPath)
                 (agentPath isWindows extensionPath) w))
       = true) :
  spawn_count creation_args
    (trace_of (provision World fs_stat run_process isWindows extensionPath
                 config (S calls) s)) = 1%nat
  /\ spawn_count (sync_args isWindows extensionPath)
       (trace_of (provision World fs_stat run_process isWindows
                    extensionPath config (S calls) s)) = S calls.
Proof.
  destruct Hcreated as [Hok Hnow].
  rewrite provision_step, !spawn_count_app.
  pose proof (setup_run World fs_stat run_process isWindows extensionPath
                config s) as H.
  cbv zeta in H. rewrite Habsent, Hok in H.
  cbv beta iota delta [orb] in H.
  destruct H as (c1 & c2 & Hc1 & Hc2 & Ht & _ & Hw).
  destruct (provision_when_present World fs_stat run_process isWindows
              extensionPath config calls
              (state_of
                 (setupPythonEnvironment World fs_stat run_process isWindows
                    extensionPath config s)))
    as [Hrest_c Hrest_s]; [rewrite Hw; now apply Hkept | exact Hkept |].
  rewrite Hrest_c, Hrest_s, Ht.
  assert (Hcount : forall args t,
            forallb is_console t = true -> spawn_count args t = 0%nat).
  { intros args t Hcon. apply spawn_count_no_spawn, console_no_spawn, Hcon. }
  split.
  - measure_trace. rewrite !Hcount by assumption.
    rewrite spawned_with_other
      by (intros E; symmetry in E; revert E; apply creation_args_not_sync).
    match goal with
    | |- context [if exits_zero ?c then Progress _ else _] =>
        destruct (exits_zero c)
    end; reflexivity.
  - measure_trace. rewrite !Hcount by assumption.
    match goal with
    | |- context [if exits_zero ?c then Progress _ else _] =>
        destruct (exits_zero c)
    end; reflexivity.
Qed.

Lemma environment_created_once_witness :
  spawn_count creation_args
    (trace_of
       (Scenario.provision_calls 3
          (Scenario.fresh_machine (Scenario.quiet None))))
  = 1%nat
  /\ spawn_count (sync_args false Scenario.extensionPath)
       (trace_of
          (Scenario.provision_calls 3
             (Scenario.fresh_machine (Scenario.quiet None))))
     = 3%nat.
Proof.
  apply (environment_created_once Scenario.World Scenario.fs_stat
           Scenario.run_process false Scenario.extensionPath
           Scenario.with_credentials 2
           (Scenario.initially
              (Scenario.fresh_machine (Scenario.quiet None)))).
  - reflexivity.
  - split; reflexivity.
  - intros w Hw. vm_compute. exact Hw.
Defined.

(** ** The invocation, path by path *)

Lemma info_notifications_app (t u : list Effect) :
  info_notifications (t ++ u)
  = (info_notifications t + info_notifications u)%nat.
Proof. unfold info_notifications. now rewrite filter_app, length_app. Qed.

Lemma phases_quiet (friendly : list jstring) :
  info_notifications (map (fun m => Progress (Phase m)) friendly) = 0%nat
  /\ forallb not_spawn (map (fun m => Progress (Phase m)) friendly) = true.
Proof. induction friendly as [|m ms [IH1 IH2]]; split; auto. Qed.

Lemma on_stdout_data_quiet (fmt : jstring -> jstring) (output : jstring) :
  info_notifications (fst (on_stdout_data fmt output)) = 0%nat
  /\ forallb not_spawn (fst (on_stdout_data fmt output)) = true.
Proof.
  destruct (on_stdout_data_shape fmt output) as [ms [-> | ->]];
    destruct (phases_quiet ms) as [Hi Hs]; simpl.
  - now split.
  - change (ChannelAppend output :: ?a ++ ?b)
      with ([ChannelAppend output] ++ a ++ b).
    rewrite !info_notifications_app, !forallb_app, Hi, Hs. now split.
Qed.

(** While the agent runs, the listeners spawn nothing and show no
    information message. *)
Lemma dispatch_quiet (World : Type) (fmt : jstring -> jstring)
    (evs : list JobEvent) (s : Host.State World) :
  info_notifications (trace_of (dispatch World fmt evs s)) = 0%nat
  /\ forallb not_spawn (trace_of (dispatch World fmt evs s)) = true.
Proof.
  revert s. induction evs as [|e evs IH]; intros s; [now split|].
  rewrite dispatch_cons, info_notifications_app, forallb_app.
  destruct (IH (event_state e s)) as [-> ->].
  destruct e as [d|d|]; simpl.
  - destruct (on_stdout_data_quiet fmt d) as [-> ->]. now split.
  - now split.
  - destruct (Host.isCancellationRequested s); now split.
Qed.

(** The close listener resolves the promise exactly when cancellation
    was requested or the code is the number 0; it shows one information
    message when it resolves and one error message when it rejects. *)
Lemma on_close_settles (c : bool) (code : option Z) :
  (snd (on_close c code) = Normal tt <-> c = true \/ code = Some 0%Z)
  /\ match snd (on_close c code) with
     | Normal _ =>
         info_notifications (fst (on_close c code)) = 1%nat
         /\ error_notifications (fst (on_close c code)) = 0%nat
     | Throw _ =>
         info_notifications (fst (on_close c code)) = 0%nat
         /\ error_notifications (fst (on_close c code)) = 1%nat
     end
  /\ forallb not_spawn (fst (on_close c code)) = true.
Proof.
  destruct c.
  - split; [split; [now left | reflexivity]|]. now split.
  - destruct code as [[|p|p]|]; simpl.
    + split; [split; [now right | reflexivity]|]. now split.
    + split; [|now split].
      split; [discriminate | intros [H|H]; discriminate H].
    + split; [|now split].
      split; [discriminate | intros [H|H]; discriminate H].
    + split; [|now split].
      split; [discriminate | intros [H|H]; discriminate H].
Qed.

Section InvocationPaths.

Variable World : Type.
Variable fs_stat : jstring -> World -> bool.
Variable run_process :
  jstring -> list jstring -> jstring -> World -> Behaviour * World.
Variable fmt : jstring -> jstring.
Variable isWindows : bool.
Variable extensionPath : jstring.
Variable config : Config.
Variable projectPath : jstring.
Variable formData : FormData.

Let setup : Host.M World jstring :=
  setupPythonEnvironment World fs_stat run_process isWindows extensionPath
    config.
Let run : Host.M World unit :=
  runAgent World fs_stat run_process fmt isWindows extensionPath config
    projectPath formData.
Let args : list jstring :=
  agent_args isWindows extensionPath projectPath formData.

(** When the provisioner fails, [runAgent] adds two effects and throws
    the same error. *)
Lemma runAgent_setup_failed (s : Host.State World) (e : Exn) :
  result_of (setup s) = Throw e ->
  run s
  = (trace_of (setup s)
       ++ [ChannelAppendLine (js "[SETUP ERROR] " ++ exn_message e);
           ShowError
             (js "Failed to run the agent. Check the output panel for details.")],
     state_of (setup s), Throw e).
Proof.
  subst setup run. unfold runAgent, launch, Host.try_catch, Host.bind.
  destruct (setupPythonEnvironment World fs_stat run_process isWindows
              extensionPath config s) as [[t s'] [py|e']];
    unfold result_of, trace_of, state_of; simpl; intros H;
    [discriminate H|].
  now injection H as ->.
Qed.

(** When the provisioner succeeds and a credential is missing. *)
Lemma runAgent_no_credentials (s : Host.State World) (py : jstring) :
  result_of (setup s) = Normal py ->
  negb (truthy (ibmApiKey config)) || negb (truthy (ibmProjectId config))
  = true ->
  run s
  = (trace_of (setup s)
       ++ [ChannelClear; ChannelShow;
           ChannelAppendLine
             (js ">>> Starting AI Agent with IBM Watsonx.ai...");
           ChannelAppendLine (js ">>> Project Path: " ++ projectPath);
           ChannelAppendLine
             (js "---------------------------------------------------"
              ++ [10]);
           ShowError credentials_message;
           ChannelAppendLine (js "[ERROR] " ++ credentials_message);
           ChannelAppendLine (js "[SETUP ERROR] " ++ credentials_message);
           ShowError
             (js "Failed to run the agent. Check the output panel for details.")],
     state_of (setup s), Throw (Error credentials_message)).
Proof.
  subst setup run.
  unfold runAgent, launch, Host.try_catch, Host.bind, Host.emit, Host.raise.
  destruct (setupPythonEnvironment World fs_stat run_process isWindows
              extensionPath config s) as [[t s'] [py'|e']];
    unfold result_of, trace_of, state_of; simpl; intros H Hcheck;
    [|discriminate H].
  rewrite Hcheck. simpl. now rewrite <- app_assoc.
Qed.

(** When the provisioner succeeds and both credentials are set: the
    agent is spawned, its events are dispatched, and the close listener
    settles the promise. *)
Lemma runAgent_launched (s : Host.State World) (py : jstring) :
  result_of (setup s) = Normal py ->
  negb (truthy (ibmApiKey config)) || negb (truthy (ibmProjectId config))
  = false ->
  let s0 := state_of (setup s) in
  let r := run_process py args projectPath (Host.world s0) in
  let s1 :=
    {| Host.world := snd r;
       Host.isCancellationRequested := Host.isCancellationRequested s0 |} in
  let cancelled :=
    Host.isCancellationRequested s0
    || existsb is_cancellation (events (fst r)) in
  exists sd,
    run s
    = (trace_of (setup s)
         ++ [ChannelClear; ChannelShow;
             ChannelAppendLine
               (js ">>> Starting AI Agent with IBM Watsonx.ai...");
             ChannelAppendLine (js ">>> Project Path: " ++ projectPath);
             ChannelAppendLine
               (js "---------------------------------------------------"
                ++ [10]);
             Spawn py args projectPath
               (agent_env (or_default (ibmApiKey config) [])
                  (or_default (ibmUrl config)
                     (js "https://us-south.ml.cloud.ibm.com"))
                  (or_default (ibmProjectId config) []))]
         ++ (if Host.isCancellationRequested s0 then fst on_cancellation
             else [])
         ++ trace_of (dispatch World fmt (events (fst r)) s1)
         ++ fst (on_close cancelled (exit_code (fst r))),
       sd, snd (on_close cancelled (exit_code (fst r)))).
Proof.
  intros Hprov Hcheck s0 r s1 cancelled.
  subst setup run args s0 r s1 cancelled.
  unfold runAgent, launch, Host.try_catch, Host.bind, Host.emit, Host.raise,
    register_cancellation_listener, Host.cancellation_requested, Host.liftE,
    Host.ret, spawn.
  destruct (setupPythonEnvironment World fs_stat run_process isWindows
              extensionPath config s) as [[t s'] [py'|e']];
    unfold result_of, trace_of, state_of in *; simpl in *;
    [|discriminate Hprov].
  injection Hprov as ->. rewrite Hcheck. simpl.
  destruct (run_process py
              (agent_args isWindows extensionPath projectPath formData)
              projectPath (Host.world s')) as [b w]. simpl.
  destruct (supervise_spec World fmt b
              {| Host.world := w;
                 Host.isCancellationRequested :=
                   Host.isCancellationRequested s' |})
    as (td & sd & Hd & Hsup).
  destruct (dispatch_spec World fmt (events b)
              {| Host.world := w;
                 Host.isCancellationRequested :=
                   Host.isCancellationRequested s' |})
    as (td' & sd' & Hd' & _ & Hflag & _).
  rewrite Hd in Hd'. injection Hd' as <- <-. simpl in Hflag.
  rewrite Hflag in Hsup.
  exists sd.
  destruct (Host.isCancellationRequested s'); simpl;
    rewrite Hsup, Hd; simpl; repeat (rewrite <- app_assoc; simpl);
    reflexivity.
Qed.

End InvocationPaths.

(** X10.  When the provisioner succeeds and both credentials are set,
    the invocation spawns exactly one more process, the agent: with the
    interpreter of the environment as its command, the script and the
    form data as its arguments, the project folder as its working
    directory and the credentials (with the default endpoint when none
    is set) in its environment.  Nothing else is spawned after the
    provisioner. *)
Theorem agent_spawned_exactly_once
    (World : Type) (fs_stat : jstring -> World -> bool)
    (run_process :
       jstring -> list jstring -> jstring -> World -> Behaviour * World)
    (fmt : jstring -> jstring)
    (isWindows : bool) (extensionPath : jstring) (config : Config)
    (projectPath : jstring) (formData : FormData) (s : Host.State World)
    (py key project : jstring)
    (Hprov :
       result_of
         (setupPythonEnvironment World fs_stat run_process isWindows
            extensionPath config s) = Normal py)
    (Hkey : ibmApiKey config = Some key /\ key <> [])
    (Hproject : ibmProjectId config = Some project /\ project <> []) :
  py = pythonExecutable isWindows extensionPath
  /\ spawns
       (trace_of
          (runAgent World fs_stat run_process fmt isWindows extensionPath
             config projectPath formData s))
     = spawns
         (trace_of
            (setupPythonEnvironment World fs_stat run_process isWindows
               extensionPath config s))
       ++ [Spawn py
             (agent_args isWindows extensionPath projectPath formData)
             projectPath
             (agent_env key
                (or_default (ibmUrl config)
                   (js "https://us-south.ml.cloud.ibm.com"))
                project)]
  /\ spawn_count (agent_args isWindows extensionPath projectPath formData)
       (trace_of
          (runAgent World fs_stat run_process fmt isWindows extensionPath
             config projectPath formData s)) = 1%nat.
Proof.
  destruct Hkey as [Hkey Hkey']. destruct Hproject as [Hpid Hpid'].
  assert (Hcheck :
    negb (truthy (ibmApiKey config)) || negb (truthy (ibmProjectId config))
    = false).
  { rewrite Hkey, Hpid. destruct key; [now elim Hkey'|].
    destruct project; [now elim Hpid' | reflexivity]. }
  assert (Hpy : py = pythonExecutable isWindows extensionPath).
  { pose proof (setup_run World fs_stat run_process isWindows extensionPath
                  config s) as H.
    cbv zeta in H. destruct H as (_ & _ & _ & _ & _ & Hr & _).
    rewrite Hprov in Hr.
    repeat match type of Hr with
           | context [if ?c then _ else _] => destruct c
           end; try discriminate Hr.
    now injection Hr. }
  split; [exact Hpy|].
  destruct (runAgent_launched World fs_stat run_process fmt isWindows
              extensionPath config projectPath formData s py Hprov Hcheck)
    as [sd Hrun].
  rewrite Hrun. clear Hrun.
  set (s0 := state_of
               (setupPythonEnvironment World fs_stat run_process isWindows
                  extensionPath config s)).
  set (b := fst (run_process py
                   (agent_args isWindows extensionPath projectPath formData)
                   projectPath (Host.world s0))).
  set (s1 := {| Host.world := _; Host.isCancellationRequested := _ |}).
  destruct (dispatch_quiet World fmt (events b) s1) as [_ Hd].
  destruct (on_close_settles
              (Host.isCancellationRequested s0
               || existsb is_cancellation (events b)) (exit_code b))
    as (_ & _ & Hc).
  assert (Hl : forallb not_spawn
                 (if Host.isCancellationRequested s0
                  then fst on_cancellation else []) = true)
    by now destruct (Host.isCancellationRequested s0).
  assert (Hnone : forall t, forallb not_spawn t = true -> spawns t = []).
  { induction t as [|e t IH]; [reflexivity|]. simpl. intros H.
    apply andb_true_iff in H as [He Ht]. unfold spawns in *. simpl.
    destruct e; try discriminate He; simpl; auto. }
  assert (Hkeyv : or_default (ibmApiKey config) [] = key).
  { rewrite Hkey. destruct key; [now elim Hkey' | reflexivity]. }
  assert (Hpidv : or_default (ibmProjectId config) [] = project).
  { rewrite Hpid. destruct project; [now elim Hpid' | reflexivity]. }
  rewrite Hkeyv, Hpidv.
  pose proof (setup_spawn_arity World fs_stat run_process isWindows
                extensionPath config s
                (agent_args isWindows extensionPath projectPath formData))
    as Harity.
  change (trace_of (?t, sd, ?r)) with t.
  split.
  - rewrite !spawns_app, (Hnone _ Hd), (Hnone _ Hc), (Hnone _ Hl).
    simpl. now rewrite ?app_nil_r.
  - rewrite !spawn_count_app, Harity by discriminate.
    rewrite (spawn_count_no_spawn _ _ Hd), (spawn_count_no_spawn _ _ Hc),
      (spawn_count_no_spawn _ _ Hl).
    split_spawn_count. now rewrite spawned_with_same.
Qed.

Lemma agent_spawned_exactly_once_witness :
  spawn_count
    (agent_args false Scenario.extensionPath Scenario.projectPath
       Scenario.formData)
    (trace_of
       (Scenario.run Scenario.with_credentials
          (Scenario.fresh_machine (Scenario.quiet (Some 0%Z)))))
  = 1%nat.
Proof.
  refine (proj2 (proj2
    (agent_spawned_exactly_once Scenario.World Scenario.fs_stat
       Scenario.run_process literal_text false Scenario.extensionPath
       Scenario.with_credentials Scenario.projectPath Scenario.formData
       (Scenario.initially
          (Scenario.fresh_machine (Scenario.quiet (Some 0%Z))))
       (js "/ext/agent/.venv/bin/python") (js "key") (js "project")
       _ _ _))).
  - vm_compute. reflexivity.
  - split; [reflexivity | discriminate].
  - split; [reflexivity | discriminate].
Defined.

(** X11.  When the provisioner succeeds and both credentials are set,
    the promise of the invocation is resolved exactly when cancellation
    was requested before the close event (during provisioning or while
    the agent ran) or the agent closed with code 0; otherwise it is
    rejected. *)
Theorem invocation_resolves_iff_cancelled_or_zero
    (World : Type) (fs_stat : jstring -> World -> bool)
    (run_process :
       jstring -> list jstring -> jstring -> World -> Behaviour * World)
    (fmt : jstring -> jstring)
    (isWindows : bool) (extensionPath : jstring) (config : Config)
    (projectPath : jstring) (formData : FormData) (s : Host.State World)
    (py : jstring)
    (Hprov :
       result_of
         (setupPythonEnvironment World fs_stat run_process isWindows
            extensionPath config s) = Normal py)
    (Hcredentials :
       truthy (ibmApiKey config) = true
       /\ truthy (ibmProjectId config) = true) :
  let s0 :=
    state_of
      (setupPythonEnvironment World fs_stat run_process isWindows
         extensionPath config s) in
  let agent :=
    fst (run_process py
           (agent_args isWindows extensionPath projectPath formData)
           projectPath (Host.world s0)) in
  result_of
    (runAgent World fs_stat run_process fmt isWindows extensionPath config
       projectPath formData s) = Normal tt
  <-> (Host.isCancellationRequested s0 = true
       \/ In CancellationRequested (events agent)
       \/ exit_code agent = Some 0%Z).
Proof.
  intros s0 agent. destruct Hcredentials as [Hk Hp].
  assert (Hcheck :
    negb (truthy (ibmApiKey config)) || negb (truthy (ibmProjectId config))
    = false) by now rewrite Hk, Hp.
  destruct (runAgent_launched World fs_stat run_process fmt isWindows
              extensionPath config projectPath formData s py Hprov Hcheck)
    as [sd Hrun].
  rewrite Hrun. unfold result_of. simpl snd. fold s0. fold agent.
  destruct (on_close_settles
              (Host.isCancellationRequested s0
               || existsb is_cancellation (events agent))
              (exit_code agent)) as (Hiff & _).
  rewrite Hiff, orb_true_iff, existsb_exists.
  split.
  - intros [[H|(e & Hin & He)]|H]; auto.
    right. left. now destruct e.
  - intros [H|[H|H]]; auto.
    left. right. now exists CancellationRequested.
Qed.

Lemma invocation_resolves_iff_cancelled_or_zero_witness :
  result_of
    (Scenario.run Scenario.with_credentials
       (Scenario.fresh_machine (Scenario.quiet (Some 0%Z))))
  = Normal tt.
Proof.
  apply (invocation_resolves_iff_cancelled_or_zero Scenario.World
           Scenario.fs_stat Scenario.run_process literal_text false
           Scenario.extensionPath Scenario.with_credentials
           Scenario.projectPath Scenario.formData
           (Scenario.initially
              (Scenario.fresh_machine (Scenario.quiet (Some 0%Z))))
           (js "/ext/agent/.venv/bin/python")).
  - vm_compute. reflexivity.
  - split; reflexivity.
  - right. right. reflexivity.
Defined.

(** Read the trace and the result off a run given as a triple. *)
Ltac project_run :=
  repeat match goal with
         | |- context [trace_of (?t, ?s, ?r)] =>
             change (trace_of (t, s, r)) with t
         | |- context [result_of (?t, ?s, ?r)] =>
             change (result_of (t, s, r)) with r
         end.

Lemma info_notifications_cons (e : Effect) (t : list Effect) :
  info_notifications (e :: t)
  = ((if is_info_notification e then 1 else 0) + info_notifications t)%nat.
Proof.
  unfold info_notifications. simpl. now destruct (is_info_notification e).
Qed.

(** The provisioner shows no information message. *)
Lemma setup_no_info_notification
    (World : Type) (fs_stat : jstring -> World -> bool)
    (run_process :
       jstring -> list jstring -> jstring -> World -> Behaviour * World)
    (isWindows : bool) (extensionPath : jstring) (config : Config)
    (s : Host.State World) :
  info_notifications
    (trace_of
       (setupPythonEnvironment World fs_stat run_process isWindows
          extensionPath config s)) = 0%nat.
Proof.
  pose proof (setup_run World fs_stat run_process isWindows extensionPath
                config s) as H.
  cbv zeta in H. destruct H as (c1 & c2 & Hc1 & Hc2 & Ht & _).
  rewrite Ht. clear Ht.
  pose proof (console_no_info_notification c1 Hc1) as H1.
  pose proof (console_no_info_notification c2 Hc2) as H2.
  repeat match goal with
         | |- context [if ?c then _ else _] => destruct c
         end;
    repeat (rewrite info_notifications_cons
            || rewrite info_notifications_app);
    rewrite ?H1, ?H2; reflexivity.
Qed.

(** X12.  However the invocation ends, the user is told: when its
    promise is resolved, exactly one information message has been shown
    (success or cancellation); when it is rejected, no information
    message and at least one error message have been shown, be the cause
    the provisioner, the credentials or the exit code of the agent. *)
Theorem invocation_always_notifies
    (World : Type) (fs_stat : jstring -> World -> bool)
    (run_process :
       jstring -> list jstring -> jstring -> World -> Behaviour * World)
    (fmt : jstring -> jstring)
    (isWindows : bool) (extensionPath : jstring) (config : Config)
    (projectPath : jstring) (formData : FormData)
    (s : Host.State World) :
  match
    result_of
      (runAgent World fs_stat run_process fmt isWindows extensionPath config
         projectPath formData s)
  with
  | Normal _ =>
      info_notifications
        (trace_of
           (runAgent World fs_stat run_process fmt isWindows extensionPath
              config projectPath formData s)) = 1%nat
  | Throw _ =>
      info_notifications
        (trace_of
           (runAgent World fs_stat run_process fmt isWindows extensionPath
              config projectPath formData s)) = 0%nat
      /\ (1 <= error_notifications
                 (trace_of
                    (runAgent World fs_stat run_process fmt isWindows
                       extensionPath config projectPath formData s)))%nat
  end.
Proof.
  pose proof (setup_no_info_notification World fs_stat run_process
                isWindows extensionPath config s) as Hsetup.
  destruct (result_of
              (setupPythonEnvironment World fs_stat run_process isWindows
                 extensionPath config s)) as [py|e] eqn:Hprov.
  - destruct (negb (truthy (ibmApiKey config))
              || negb (truthy (ibmProjectId config))) eqn:Hcheck.
    + rewrite (runAgent_no_credentials World fs_stat run_process fmt
                 isWindows extensionPath config projectPath formData s py
                 Hprov Hcheck).
      project_run.
      rewrite info_notifications_app, error_notifications_app, Hsetup.
      split; [reflexivity|].
      unfold error_notifications at 2. simpl. lia.
    + destruct (runAgent_launched World fs_stat run_process fmt isWindows
                  extensionPath config projectPath formData s py Hprov
                  Hcheck) as [sd Hrun].
      rewrite Hrun. clear Hrun.
      set (s0 := state_of
                   (setupPythonEnvironment World fs_stat run_process
                      isWindows extensionPath config s)).
      set (b := fst (run_process py
                       (agent_args isWindows extensionPath projectPath
                          formData)
                       projectPath (Host.world s0))).
      set (s1 := {| Host.world := _; Host.isCancellationRequested := _ |}).
      destruct (dispatch_quiet World fmt (events b) s1) as [Hd _].
      destruct (on_close_settles
                  (Host.isCancellationRequested s0
                   || existsb is_cancellation (events b)) (exit_code b))
        as (_ & Hn & _).
      assert (Hl : info_notifications
                     (if Host.isCancellationRequested s0
                      then fst on_cancellation else []) = 0%nat)
        by now destruct (Host.isCancellationRequested s0).
      project_run.
      rewrite !info_notifications_app, !error_notifications_app,
        Hsetup, Hd, Hl.
      destruct (snd (on_close _ (exit_code b))) as [[]|e];
        destruct Hn as [Hi He]; rewrite Hi; [reflexivity|].
      split; [reflexivity | lia].
  - rewrite (runAgent_setup_failed World fs_stat run_process fmt isWindows
               extensionPath config projectPath formData s e Hprov).
    project_run.
    rewrite info_notifications_app, error_notifications_app, Hsetup.
    split; [reflexivity|].
    unfold error_notifications at 2. simpl. lia.
Qed.

(** X13.  When the provisioner fails, the invocation fails with the
    same error, whatever the credentials: the agent is not spawned (nor
    anything else after the provisioner), the channel is not cleared, and
    the invocation only appends the setup error to the channel and shows
    one more error message. *)
Theorem provisioning_failure_aborts_invocation
    (World : Type) (fs_stat : jstring -> World -> bool)
    (run_process :
       jstring -> list jstring -> jstring -> World -> Behaviour * World)
    (fmt : jstring -> jstring)
    (isWindows : bool) (extensionPath : jstring) (config : Config)
    (projectPath : jstring) (formData : FormData)
    (s : Host.State World) (e : Exn)
    (Hprov :
       result_of
         (setupPythonEnvironment World fs_stat run_process isWindows
            extensionPath config s) = Throw e) :
  result_of
    (runAgent World fs_stat run_process fmt isWindows extensionPath config
       projectPath formData s) = Throw e
  /\ trace_of
       (runAgent World fs_stat run_process fmt isWindows extensionPath
          config projectPath formData s)
     = trace_of
         (setupPythonEnvironment World fs_stat run_process isWindows
            extensionPath config s)
       ++ [ChannelAppendLine (js "[SETUP ERROR] " ++ exn_message e);
           ShowError
             (js "Failed to run the agent. Check the output panel for details.")]
  /\ spawns
       (trace_of
          (runAgent World fs_stat run_process fmt isWindows extensionPath
             config projectPath formData s))
     = spawns
         (trace_of
            (setupPythonEnvironment World fs_stat run_process isWindows
               extensionPath config s)).
Proof.
  rewrite (runAgent_setup_failed World fs_stat run_process fmt isWindows
             extensionPath config projectPath formData s e Hprov).
  project_run.
  split; [reflexivity|]. split; [reflexivity|].
  rewrite spawns_app. simpl. now rewrite app_nil_r.
Qed.

Lemma provisioning_failure_aborts_invocation_witness :
  result_of
    (Scenario.run Scenario.with_credentials
       (Scenario.provisioned_machine (Some 1%Z) (Scenario.quiet (Some 0%Z))))
  = Throw
      (Error
         (js "Command failed with code 1: /ext/agent/.venv/bin/pip install -r /ext/agent/requirements.txt")).
Proof.
  refine (proj1
    (provisioning_failure_aborts_invocation Scenario.World Scenario.fs_stat
       Scenario.run_process literal_text false Scenario.extensionPath
       Scenario.with_credentials Scenario.projectPath Scenario.formData
       (Scenario.initially
          (Scenario.provisioned_machine (Some 1%Z)
             (Scenario.quiet (Some 0%Z))))
       _ _)).
  vm_compute. reflexivity.
Defined.

(** ** The message handler and the page *)

Lemma posted_messages_app (t u : list PanelEffect) :
  posted_messages (t ++ u) = posted_messages t ++ posted_messages u.
Proof.
  induction t as [|e t IH]; [reflexivity|].
  destruct e; simpl; now rewrite IH.
Qed.

Lemma host_effects_app (t u : list PanelEffect) :
  host_effects (t ++ u) = host_effects t ++ host_effects u.
Proof.
  induction t as [|e t IH]; [reflexivity|].
  destruct e; simpl; now rewrite IH.
Qed.

Lemma on_host_effects (t : list Effect) :
  posted_messages (map OnHost t) = [] /\ host_effects (map OnHost t) = t.
Proof.
  induction t as [|e t [IH1 IH2]]; [now split|].
  simpl. now rewrite IH1, IH2.
Qed.

(** The handler on a submit message when a folder is open. *)
Lemma message_handler_submit
    (World : Type)
    (task : jstring -> FormData -> World
            -> list Effect * World * Promise unit)
    (folder : jstring) (others : list jstring) (message : SubmitMessage)
    (w : World) :
  command message = js "submit" ->
  message_handler World task (Some (folder :: others)) message w
  = match snd (task folder (data message) w) with
    | Settled r =>
        (PostRunningState true
           :: (WithProgress (js "AI Agent is running...") true
                 :: map OnHost (fst (fst (task folder (data message) w)))
                 ++ match r with
                    | Normal _ => []
                    | Throw error => [LogRunFailed error]
                    end)
           ++ [PostRunningState false],
         snd (fst (task folder (data message) w)), Settled (Normal tt))
    | Pending =>
        (PostRunningState true
           :: (WithProgress (js "AI Agent is running...") true
                 :: map OnHost (fst (fst (task folder (data message) w))))
           ++ [],
         snd (fst (task folder (data message) w)), Pending)
    end.
Proof.
  intros Hc. unfold message_handler. rewrite Hc. simpl.
  destruct (task folder (data message) w) as [[t w'] [r|]]; simpl.
  - now rewrite <- app_assoc.
  - now rewrite app_nil_r.
Qed.

(** The handler of the extension on a submit message when a folder is
    open. *)
Lemma on_message_submit
    (World : Type) (fs_stat : jstring -> World -> bool)
    (run_process :
       jstring -> list jstring -> jstring -> World -> Behaviour * World)
    (fmt : jstring -> jstring)
    (isWindows : bool) (extensionPath : jstring) (config : Config)
    (folder : jstring) (others : list jstring) (message : SubmitMessage)
    (w : World) :
  command message = js "submit" ->
  on_message World fs_stat run_process fmt isWindows extensionPath config
    (Some (folder :: others)) message w
  = let run :=
      runAgent World fs_stat run_process fmt isWindows extensionPath config
        folder (data message)
        {| Host.world := w; Host.isCancellationRequested := false |} in
    (PostRunningState true
       :: (WithProgress (js "AI Agent is running...") true
             :: map OnHost (trace_of run)
             ++ match result_of run with
                | Normal _ => []
                | Throw error => [LogRunFailed error]
                end)
       ++ [PostRunningState false],
     Host.world (state_of run), Settled (Normal tt)).
Proof.
  intros Hc. unfold on_message.
  rewrite (message_handler_submit World _ folder others message w Hc).
  unfold agent_run.
  destruct (runAgent _ _ _ _ _ _ _ _ _ _) as [[t s] r]. reflexivity.
Qed.

(** The messages the handler posts on a submit message when a folder is
    open. *)
Lemma message_handler_posts
    (World : Type)
    (task : jstring -> FormData -> World
            -> list Effect * World * Promise unit)
    (folder : jstring) (others : list jstring) (message : SubmitMessage)
    (w : World) :
  command message = js "submit" ->
  posted_messages
    (fst (fst (message_handler World task (Some (folder :: others))
                 message w)))
  = {| host_command := js "set-running-state"; running := true |}
      :: match snd (task folder (data message) w) with
         | Settled _ =>
             [{| host_command := js "set-running-state"; running := false |}]
         | Pending => []
         end.
Proof.
  intros Hc.
  rewrite (message_handler_submit World task folder others message w Hc).
  destruct (on_host_effects (fst (fst (task folder (data message) w))))
    as [Hp _].
  destruct (snd (task folder (data message) w)) as [r|]; cbn [fst];
    cbn [posted_messages]; rewrite posted_messages_app;
    cbn [posted_messages]; rewrite ?posted_messages_app, Hp.
  - now destruct r.
  - reflexivity.
Qed.

(** X14.  On a submit message with a folder open, the handler posts the
    running state [true] first and runs the task of [withProgress] on
    the first folder with the data of the message, whatever that task
    does.  When the promise of the task settles, resolved or rejected,
    the handler logs the error of a rejection, posts the running state
    [false] last and returns normally.  When the promise stays pending,
    the handler posts nothing more and stays pending with it: the
    running state [false] is posted nowhere else. *)
Theorem submit_posts_running_states_around_run
    (World : Type)
    (task : jstring -> FormData -> World
            -> list Effect * World * Promise unit)
    (folder : jstring) (others : list jstring) (message : SubmitMessage)
    (w : World)
    (Hsubmit : command message = js "submit") :
  let run := task folder (data message) w in
  exists middle,
    message_handler World task (Some (folder :: others)) message w
    = (PostRunningState true
         :: middle
         ++ match snd run with
            | Settled _ => [PostRunningState false]
            | Pending => []
            end,
       snd (fst run),
       match snd run with
       | Settled _ => Settled (Normal tt)
       | Pending => Pending
       end)
    /\ posted_messages middle = []
    /\ host_effects middle = fst (fst run)
    /\ (forall error,
          In (LogRunFailed error) middle
          <-> snd run = Settled (Throw error)).
Proof.
  intros run.
  rewrite (message_handler_submit World task folder others message w
             Hsubmit).
  fold run.
  destruct (on_host_effects (fst (fst run))) as [Hp Hh].
  destruct (snd run) as [r|].
  - eexists. split; [reflexivity|].
    split; [|split].
    + simpl. rewrite posted_messages_app, Hp. now destruct r.
    + simpl. rewrite host_effects_app, Hh.
      destruct r; simpl; now rewrite app_nil_r.
    + intros error. simpl. split.
      * intros [E|E]; [discriminate E|].
        apply in_app_or in E as [E|E].
        -- apply in_map_iff in E as (x & E & _). discriminate E.
        -- destruct r; [destruct E|].
           destruct E as [E|[]]. now injection E as ->.
      * intros E. injection E as ->.
        right. apply in_or_app. right. now left.
  - eexists. split; [reflexivity|].
    split; [|split].
    + simpl. exact Hp.
    + simpl. exact Hh.
    + intros error. simpl. split; [|discriminate].
      intros [E|E]; [discriminate E|].
      apply in_map_iff in E as (x & E & _). discriminate E.
Qed.

Lemma submit_posts_running_states_around_run_witness :
  posted_messages
    (fst (fst
       (on_message Scenario.World Scenario.fs_stat Scenario.run_process
          literal_text false Scenario.extensionPath
          Scenario.without_project_id (Some [Scenario.projectPath])
          {| command := js "submit"; data := Scenario.formData |}
          (Scenario.fresh_machine (Scenario.quiet (Some 0%Z))))))
  = [{| host_command := js "set-running-state"; running := true |};
     {| host_command := js "set-running-state"; running := false |}]
  /\ posted_messages
       (fst (fst
          (message_handler Scenario.World
             (fun projectPath _ world =>
                ([Spawn (js "python") creation_args projectPath []],
                 world, Pending))
             (Some [Scenario.projectPath])
             {| command := js "submit"; data := Scenario.formData |}
             (Scenario.fresh_machine (Scenario.quiet (Some 0%Z))))))
     = [{| host_command := js "set-running-state"; running := true |}].
Proof.
  split.
  - unfold on_message.
    destruct (submit_posts_running_states_around_run Scenario.World
                (agent_run Scenario.World Scenario.fs_stat
                   Scenario.run_process literal_text false
                   Scenario.extensionPath Scenario.without_project_id)
                Scenario.projectPath []
                {| command := js "submit"; data := Scenario.formData |}
                (Scenario.fresh_machine (Scenario.quiet (Some 0%Z)))
                eq_refl) as (middle & -> & Hposted & _).
    cbn [fst posted_messages]. rewrite posted_messages_app, Hposted.
    reflexivity.
  - destruct (submit_posts_running_states_around_run Scenario.World
                (fun projectPath _ world =>
                   ([Spawn (js "python") creation_args projectPath []],
                    world, Pending))
                Scenario.projectPath []
                {| command := js "submit"; data := Scenario.formData |}
                (Scenario.fresh_machine (Scenario.quiet (Some 0%Z)))
                eq_refl) as (middle & -> & Hposted & _).
    cbn [fst snd posted_messages]. rewrite posted_messages_app, Hposted.
    reflexivity.
Defined.

(** X15.  The page and the handler together.  When the handler reaches
    its [await] (a submit message with a folder open), the page that has
    received the messages the handler posted shows its idle state, with
    the submit button enabled, exactly when the promise of the task has
    settled; while that promise is pending, and for ever when it never
    settles, the page shows its running state, with the button disabled,
    whatever its state before.  In every other case the handler posts
    nothing and the page is left as it was. *)
Theorem page_enabled_again_exactly_when_run_settles
    (World : Type)
    (task : jstring -> FormData -> World
            -> list Effect * World * Promise unit)
    (workspaceFolders : option (list jstring)) (message : SubmitMessage)
    (w : World) (v : View) :
  let posted :=
    posted_messages
      (fst (fst (message_handler World task workspaceFolders message w))) in
  match workspaceFolders with
  | Some (folder :: _) =>
      if jeqb (command message) (js "submit") then
        receive posted v
        = match snd (task folder (data message) w) with
          | Settled _ => idle_view
          | Pending => running_view
          end
      else posted = []
  | _ => posted = []
  end.
Proof.
  intros posted. subst posted.
  destruct workspaceFolders as [[|folder others]|].
  - unfold message_handler.
    now destruct (jeqb (command message) (js "submit")).
  - destruct (jeqb (command message) (js "submit")) eqn:Hc.
    + apply jeqb_eq in Hc.
      rewrite (message_handler_posts World task folder others message w
                 Hc).
      now destruct (snd (task folder (data message) w)).
    + unfold message_handler. now rewrite Hc.
  - unfold message_handler.
    now destruct (jeqb (command message) (js "submit")).
Qed.

(** X16.  From the form to the agent: when the form is submitted with a
    folder open, the provisioner succeeds and both credentials are set,
    the agent is spawned in the first folder with the values of the form
    as its arguments; the argument after [--success-metrics] is never
    empty, the form putting its default text in place of an empty
    field. *)
Theorem form_submission_launches_agent
    (World : Type) (fs_stat : jstring -> World -> bool)
    (run_process :
       jstring -> list jstring -> jstring -> World -> Behaviour * World)
    (fmt : jstring -> jstring)
    (isWindows : bool) (extensionPath : jstring) (config : Config)
    (fields : FormFields) (folder : jstring) (others : list jstring)
    (w : World) (py key project : jstring)
    (Hprov :
       result_of
         (setupPythonEnvironment World fs_stat run_process isWindows
            extensionPath config
            {| Host.world := w; Host.isCancellationRequested := false |})
       = Normal py)
    (Hkey : ibmApiKey config = Some key /\ key <> [])
    (Hproject : ibmProjectId config = Some project /\ project <> []) :
  let metric :=
    match successMetrics_value fields with
    | [] => js "A functional, easy-to-navigate project structure."
    | c :: r => c :: r
    end in
  In (OnHost
        (Spawn py
           [scriptPath isWindows extensionPath;
            js "--project-path"; folder;
            js "--persona"; persona_value fields;
            js "--pain-points"; painPoints_value fields;
            js "--use-cases"; useCases_value fields;
            js "--success-metrics"; metric]
           folder
           (agent_env key
              (or_default (ibmUrl config)
                 (js "https://us-south.ml.cloud.ibm.com"))
              project)))
     (fst (fst
        (on_message World fs_stat run_process fmt isWindows extensionPath
           config (Some (folder :: others)) (submit_listener fields) w)))
  /\ metric <> [].
Proof.
  intros metric. destruct Hkey as [Hkey Hkey']. destruct Hproject as [Hpid Hpid'].
  split; [|subst metric; destruct (successMetrics_value fields); discriminate].
  assert (Hcheck :
    negb (truthy (ibmApiKey config)) || negb (truthy (ibmProjectId config))
    = false).
  { rewrite Hkey, Hpid. destruct key; [now elim Hkey'|].
    destruct project; [now elim Hpid' | reflexivity]. }
  assert (Hkeyv : or_default (ibmApiKey config) [] = key).
  { rewrite Hkey. destruct key; [now elim Hkey' | reflexivity]. }
  assert (Hpidv : or_default (ibmProjectId config) [] = project).
  { rewrite Hpid. destruct project; [now elim Hpid' | reflexivity]. }
  rewrite (on_message_submit World fs_stat run_process fmt isWindows
             extensionPath config folder others (submit_listener fields) w
             eq_refl).
  cbv zeta.
  destruct (runAgent_launched World fs_stat run_process fmt isWindows
              extensionPath config folder (data (submit_listener fields))
              {| Host.world := w; Host.isCancellationRequested := false |}
              py Hprov Hcheck) as [sd Hrun].
  rewrite Hrun, Hkeyv, Hpidv. project_run. cbn [fst].
  right. apply in_or_app. left. right. apply in_or_app. left.
  apply in_map. apply in_or_app. right. apply in_or_app. left.
  do 5 right. left. reflexivity.
Qed.

Lemma form_submission_launches_agent_witness :
  In (OnHost
        (Spawn (js "/ext/agent/.venv/bin/python")
           [js "/ext/agent/run_agent.py";
            js "--project-path"; js "/proj";
            js "--persona"; js "Developer";
            js "--pain-points"; js "messy imports";
            js "--use-cases"; js "create src folder";
            js "--success-metrics";
            js "A functional, easy-to-navigate project structure."]
           (js "/proj")
           (agent_env (js "key") (js "https://us-south.ml.cloud.ibm.com")
              (js "project"))))
     (fst (fst
        (on_message Scenario.World Scenario.fs_stat Scenario.run_process
           literal_text false Scenario.extensionPath
           Scenario.with_credentials (Some [js "/proj"])
           (submit_listener
              {| persona_value := js "Developer";
                 painPoints_value := js "messy imports";
                 useCases_value := js "create src folder";
                 successMetrics_value := [] |})
           (Scenario.fresh_machine (Scenario.quiet (Some 0%Z)))))).
Proof.
  refine (proj1
    (form_submission_launches_agent Scenario.World Scenario.fs_stat
       Scenario.run_process literal_text false Scenario.extensionPath
       Scenario.with_credentials
       {| persona_value := js "Developer";
          painPoints_value := js "messy imports";
          useCases_value := js "create src folder";
          successMetrics_value := [] |}
       (js "/proj") []
       (Scenario.fresh_machine (Scenario.quiet (Some 0%Z)))
       (js "/ext/agent/.venv/bin/python") (js "key") (js "project")
       _ _ _)).
  - vm_compute. reflexivity.
  - split; [reflexivity | discriminate].
  - split; [reflexivity | discriminate].
Defined.

(** ** The agent's events, seen as a whole *)

Lemma kill_count_app (t u : list Effect) :
  kill_count (t ++ u) = (kill_count t + kill_count u)%nat.
Proof. unfold kill_count. now rewrite filter_app, length_app. Qed.

Lemma on_stdout_data_no_kill (fmt : jstring -> jstring) (output : jstring) :
  kill_count (fst (on_stdout_data fmt output)) = 0%nat.
Proof.
  assert (H : forall ms,
            kill_count (map (fun m => Progress (Phase m)) ms) = 0%nat)
    by (induction ms; auto).
  destruct (on_stdout_data_shape fmt output) as [ms [-> | ->]].
  - exact (H ms).
  - change (ChannelAppend output :: ?a ++ ?b)
      with ([ChannelAppend output] ++ a ++ b).
    now rewrite !kill_count_app, H.
Qed.

(** While the events of the agent are dispatched, the signal is sent at
    the first cancellation request, if the token was not cancelled
    before. *)
Lemma dispatch_kill_count
    (World : Type) (fmt : jstring -> jstring)
    (evs : list JobEvent) (s : Host.State World) :
  kill_count (trace_of (dispatch World fmt evs s))
  = if negb (Host.isCancellationRequested s)
       && existsb is_cancellation evs
    then 1%nat else 0%nat.
Proof.
  revert s. induction evs as [|e evs IH]; intros s.
  - now rewrite andb_false_r.
  - rewrite dispatch_cons, kill_count_app, IH.
    destruct e as [d|d|]; simpl.
    + now rewrite on_stdout_data_no_kill.
    + reflexivity.
    + destruct (Host.isCancellationRequested s) eqn:E; simpl;
        rewrite ?E; reflexivity.
Qed.

Lemma kill_count_cons (e : Effect) (t : list Effect) :
  kill_count (e :: t)
  = ((if is_kill e then 1 else 0) + kill_count t)%nat.
Proof. unfold kill_count. simpl. now destruct (is_kill e). Qed.

Lemma console_no_kill (t : list Effect) :
  forallb is_console t = true -> kill_count t = 0%nat.
Proof.
  unfold kill_count. induction t as [|e t IH]; [reflexivity|].
  simpl. intros H. apply andb_true_iff in H as [He Ht].
  destruct e; try discriminate He; simpl; auto.
Qed.

(** The provisioner sends no signal. *)
Lemma setup_no_kill
    (World : Type) (fs_stat : jstring -> World -> bool)
    (run_process :
       jstring -> list jstring -> jstring -> World -> Behaviour * World)
    (isWindows : bool) (extensionPath : jstring) (config : Config)
    (s : Host.State World) :
  kill_count
    (trace_of
       (setupPythonEnvironment World fs_stat run_process isWindows
          extensionPath config s)) = 0%nat.
Proof.
  pose proof (setup_run World fs_stat run_process isWindows extensionPath
                config s) as H.
  cbv zeta in H. destruct H as (c1 & c2 & Hc1 & Hc2 & Ht & _).
  rewrite Ht. clear Ht.
  pose proof (console_no_kill c1 Hc1) as H1.
  pose proof (console_no_kill c2 Hc2) as H2.
  repeat match goal with
         | |- context [if ?c then _ else _] => destruct c
         end;
    repeat (rewrite kill_count_cons || rewrite kill_count_app);
    rewrite ?H1, ?H2; reflexivity.
Qed.

Lemma on_close_no_kill (c : bool) (code : option Z) :
  kill_count (fst (on_close c code)) = 0%nat.
Proof. destruct c; [reflexivity|]. now destruct code as [[|p|p]|]. Qed.

(** X17.  Over a whole invocation the termination signal is sent at most
    once, and only to an agent that was spawned: once when the
    provisioner succeeds, both credentials are set and cancellation is
    requested before the close event of the agent, be it while the
    provisioner ran (the listener then runs as soon as it is registered)
    or while the agent ran (at the first request, however many follow);
    never otherwise. *)
Theorem termination_signal_sent_once
    (World : Type) (fs_stat : jstring -> World -> bool)
    (run_process :
       jstring -> list jstring -> jstring -> World -> Behaviour * World)
    (fmt : jstring -> jstring)
    (isWindows : bool) (extensionPath : jstring) (config : Config)
    (projectPath : jstring) (formData : FormData)
    (s : Host.State World) :
  let setup :=
    setupPythonEnvironment World fs_stat run_process isWindows
      extensionPath config s in
  kill_count
    (trace_of
       (runAgent World fs_stat run_process fmt isWindows extensionPath
          config projectPath formData s))
  = match result_of setup with
    | Normal py =>
        if truthy (ibmApiKey config) && truthy (ibmProjectId config)
           && (Host.isCancellationRequested (state_of setup)
               || existsb is_cancellation
                    (events
                       (fst (run_process py
                               (agent_args isWindows extensionPath
                                  projectPath formData)
                               projectPath
                               (Host.world (state_of setup))))))
        then 1%nat else 0%nat
    | Throw _ => 0%nat
    end.
Proof.
  intros setup. subst setup.
  pose proof (setup_no_kill World fs_stat run_process isWindows
                extensionPath config s) as Hsetup.
  destruct (result_of
              (setupPythonEnvironment World fs_stat run_process isWindows
                 extensionPath config s)) as [py|e] eqn:Hprov.
  - destruct (negb (truthy (ibmApiKey config))
              || negb (truthy (ibmProjectId config))) eqn:Hcheck.
    + rewrite (runAgent_no_credentials World fs_stat run_process fmt
                 isWindows extensionPath config projectPath formData s py
                 Hprov Hcheck).
      project_run. rewrite kill_count_app, Hsetup.
      destruct (truthy (ibmApiKey config));
        destruct (truthy (ibmProjectId config));
        try discriminate Hcheck; reflexivity.
    + destruct (runAgent_launched World fs_stat run_process fmt isWindows
                  extensionPath config projectPath formData s py Hprov
                  Hcheck) as [sd Hrun].
      cbv zeta in Hrun. rewrite Hrun. project_run.
      rewrite !kill_count_app, Hsetup, dispatch_kill_count,
        on_close_no_kill.
      cbn [Host.isCancellationRequested].
      destruct (truthy (ibmApiKey config));
        destruct (truthy (ibmProjectId config));
        try discriminate Hcheck.
      destruct (Host.isCancellationRequested
                  (state_of
                     (setupPythonEnvironment World fs_stat run_process
                        isWindows extensionPath config s)));
        [reflexivity|].
      cbn [negb andb orb].
      now destruct (existsb is_cancellation _).
  - rewrite (runAgent_setup_failed World fs_stat run_process fmt isWindows
               extensionPath config projectPath formData s e Hprov).
    project_run. now rewrite kill_count_app, Hsetup.
Qed.

(** X18.  The progress events of a run are those of its stdout chunks,
    chunk after chunk in the order of arrival: stderr chunks and
    cancellation requests report no progress, and no event of a chunk is
    delayed behind a later chunk. *)
Theorem progress_follows_chunk_order
    (World : Type) (fmt : jstring -> jstring)
    (evs : list JobEvent) (s : Host.State World) :
  progress_events (trace_of (dispatch World fmt evs s))
  = chunk_events fmt evs.
Proof.
  revert s. induction evs as [|e evs IH]; intros s; [reflexivity|].
  rewrite dispatch_cons, progress_events_app, IH.
  destruct e as [d|d|]; simpl; try reflexivity.
  now destruct (Host.isCancellationRequested s) eqn:E.
Qed.
